(** * provider-aws-pcluster: the cluster reconciliation engine

    A shallow embedding of the Go package
    [internal/controller/cluster] and of the API types it touches.

    Two revisions of [cluster.go] are part of the sources:
    - [src/unnamed/part_000], the revision with the dry-run probe
      ([isUpToDate]) and the four-way error classifier; it is embedded in
      [Module Part000];
    - [src/internal/controller/cluster/cluster.go], the earlier revision
      without the probe; it is embedded in [Module ClusterGo].
    Functions that are textually the same in both revisions and call
    nothing that differs ([execPcluster], [createTempDir],
    [writeConfigToFile], [setStatus], [getVEnvPath]) are embedded once,
    before the two modules.

    Go values are modelled as follows: [string] and [[]byte] are Rocq
    strings (sequences of 8-bit characters); [error] is the inductive
    type [error], [nil] being [None]; a Go function returning
    [(T, error)] returns a pair [T * option error]; code that touches the
    operating system, the executor or the receiver runs in the state
    monad [M] over a [Machine]. *)

From Stdlib Require Import String Ascii List Bool Arith Lia.
Import ListNotations.
Open Scope list_scope.
Open Scope string_scope.

(* ------------------------------------------------------------------ *)
(** ** Go strings                                                      *)
(* ------------------------------------------------------------------ *)

Module strings.

(** [strings.HasPrefix(s, prefix)]. *)
Fixpoint HasPrefix (s prefix : string) {struct prefix} : bool :=
  match prefix with
  | EmptyString => true
  | String p prefix' =>
      match s with
      | EmptyString => false
      | String c s' => Ascii.eqb c p && HasPrefix s' prefix'
      end
  end.

(** [strings.ContainsRune(s, c)] for a one-byte rune. *)
Fixpoint ContainsRune (s : string) (c : ascii) : bool :=
  match s with
  | EmptyString => false
  | String d s' => Ascii.eqb d c || ContainsRune s' c
  end.

(** [strings.LastIndexByte(s, c)], as the split it is used for:
    [Some (before, after)] around the last occurrence of [c]. *)
Fixpoint cutLast (s : string) (c : ascii) : option (string * string) :=
  match s with
  | EmptyString => None
  | String d s' =>
      match cutLast s' c with
      | Some (b, a) => Some (String d b, a)
      | None => if Ascii.eqb d c then Some ("", s') else None
      end
  end.

End strings.

(* ------------------------------------------------------------------ *)
(** ** Errors                                                          *)
(* ------------------------------------------------------------------ *)

(** Go's [error] values: [New msg] is [errors.New(msg)] or an error made
    by a collaborator (the executor, the operating system, the JSON
    decoder); [Errorf msg e] is [fmt.Errorf(msg ++ "%w", e)], which wraps
    [e]. *)
Inductive error : Type :=
| New (msg : string)
| Errorf (msg : string) (wrapped : error).

(* ------------------------------------------------------------------ *)
(** ** API types (package v1alpha1 and the runtime types it embeds)    *)
(* ------------------------------------------------------------------ *)

Module xpv1.

(** The two values of the [Ready] condition that the controller sets:
    [xpv1.Available()] and [xpv1.Unavailable()]. *)
Inductive Condition : Type := Available | Unavailable.

(** [xpv1.ResourceStatus], restricted to the entry of [Conditions]
    whose type is [Ready]; [None] when no such entry has been set. *)
Record ResourceStatus : Type := { Ready : option Condition }.

End xpv1.

Module v1alpha1.

Record ClusterParameters : Type := {
  Region : string;
  ClusterConfiguration : string
}.

Record SchedulerType : Type := { Type_ : string }.

Record ClusterObservation : Type := {
  ClusterName : string;
  CloudformationStackArn : string;
  ClusterStatus : string;
  LastUpdatedTime : string;
  Scheduler : SchedulerType
}.

Record ClusterSpec : Type := { ForProvider : ClusterParameters }.

Record ClusterStatus_ : Type := {
  ResourceStatus : xpv1.ResourceStatus;
  AtProvider : ClusterObservation
}.

(** [v1alpha1.Cluster]: [Name] is [ObjectMeta.Name]. *)
Record Cluster : Type := {
  Name : string;
  Spec : ClusterSpec;
  Status : ClusterStatus_
}.

(** [cr.SetConditions(c)] for a [Ready] condition [c]. *)
Definition SetConditions (c : xpv1.Condition) (cr : Cluster) : Cluster :=
  {| Name := Name cr;
     Spec := Spec cr;
     Status := {| ResourceStatus := {| xpv1.Ready := Some c |};
                  AtProvider := AtProvider (Status cr) |} |}.

End v1alpha1.

Module managed.

(** [managed.ExternalObservation]; the fields the controller never
    sets ([ResourceLateInitialized], [ConnectionDetails], [Diff]) are
    left out. *)
Record ExternalObservation : Type := {
  ResourceExists : bool;
  ResourceUpToDate : bool
}.

(** The zero value [managed.ExternalObservation{}]. *)
Definition zero : ExternalObservation :=
  {| ResourceExists := false; ResourceUpToDate := false |}.

End managed.

(** The dynamic type of the [resource.Managed] handed to the client: the
    assertion of [mg] to a pointer to [v1alpha1.Cluster] succeeds on
    [ClusterKind] only. *)
Inductive Managed : Type := ClusterKind | OtherKind.

(* ------------------------------------------------------------------ *)
(** ** Package-level types and constants of package cluster            *)
(* ------------------------------------------------------------------ *)

Definition errStatus : Type := string.
Definition PClusterStatus : Type := string.

Definition clusterConfigFileName : string := "cluster-config.yaml".
Definition errNotCluster : string :=
  "managed resource is not a Cluster custom resource".
Definition virtualEnvPath : string := "PYTHON_VENV_PATH".

Definition CreateInProgress : PClusterStatus := "CREATE_IN_PROGRESS".
Definition CreateFailed : PClusterStatus := "CREATE_FAILED".
Definition CreateComplete : PClusterStatus := "CREATE_COMPLETE".
Definition DeleteInProgress : PClusterStatus := "DELETE_IN_PROGRESS".
Definition DeleteFailed : PClusterStatus := "DELETE_FAILED".
Definition DeleteComplete : PClusterStatus := "DELETE_COMPLETE".
Definition UpdateInProgress : PClusterStatus := "UPDATE_IN_PROGRESS".
Definition UpdateComplete : PClusterStatus := "UPDATE_COMPLETE".
Definition UpdateFailed : PClusterStatus := "UPDATE_FAILED".

Definition errStatusNotFound : errStatus := "clusterNotFound".
Definition errStatusEmpty : errStatus := "emptyMessage".

(** types.go *)
Record SchedulerType : Type := { SchedulerType_type : string }.

Record OutputCluster : Type := {
  ClusterName : string;
  CloudformationStackStatus : string;
  CloudformationStackArn : string;
  ClusterStatus : string;
  Region : string;
  Version : string;
  Scheduler : SchedulerType
}.

(** [DescribeClusterOutput]: the embedded [OutputCluster] (whose JSON tag
    is the key [inline]) and [ComputeFleetStatus]; the time stamps, the
    head node, the configuration URL and the tags are never read by the
    controller and are left out. *)
Record DescribeClusterOutput : Type := {
  Describe_OutputCluster : OutputCluster;
  ComputeFleetStatus : string
}.

Record CreateClusterOutput : Type := { Create_Cluster : OutputCluster }.
Record DeleteClusterOutput : Type := { Delete_Cluster : OutputCluster }.

(** [UpdateClusterOutput]. [types.go] declares the field [Cluster] only;
    [part_000] also reads [ChangeSet], whose declaration is not among the
    sources: its elements are kept opaque, only their number is used. *)
Record UpdateClusterOutput : Type := {
  Update_Cluster : OutputCluster;
  ChangeSet : list string
}.

Record errorOutput : Type := { Message : string }.

Definition zeroScheduler : SchedulerType := {| SchedulerType_type := "" |}.
Definition zeroOutputCluster : OutputCluster :=
  {| ClusterName := ""; CloudformationStackStatus := "";
     CloudformationStackArn := ""; ClusterStatus := ""; Region := "";
     Version := ""; Scheduler := zeroScheduler |}.
Definition zeroDescribe : DescribeClusterOutput :=
  {| Describe_OutputCluster := zeroOutputCluster; ComputeFleetStatus := "" |}.
Definition zeroCreate : CreateClusterOutput :=
  {| Create_Cluster := zeroOutputCluster |}.
Definition zeroDelete : DeleteClusterOutput :=
  {| Delete_Cluster := zeroOutputCluster |}.
Definition zeroUpdate : UpdateClusterOutput :=
  {| Update_Cluster := zeroOutputCluster; ChangeSet := [] |}.
Definition zeroError : errorOutput := {| Message := "" |}.

(** [json.Unmarshal(data, &v)]: the decoder of package [encoding/json] at
    the type of [v]. It starts from the current value of [v], returns the
    value [v] holds afterwards, and an error or [nil]. *)
Class Unmarshal (T : Type) : Type :=
  json_Unmarshal : string -> T -> T * option error.

(** The decoders the controller uses. *)
Class Decoders : Type := {
  dec_error :: Unmarshal errorOutput;
  dec_cluster :: Unmarshal OutputCluster;
  dec_describe :: Unmarshal DescribeClusterOutput;
  dec_create :: Unmarshal CreateClusterOutput;
  dec_update :: Unmarshal UpdateClusterOutput;
  dec_delete :: Unmarshal DeleteClusterOutput
}.

(* ------------------------------------------------------------------ *)
(** ** The process, the operating system and the executor              *)
(* ------------------------------------------------------------------ *)

(** One call of the executor: [CommandContext(ctx, cmd, args...)]
    followed by [SetEnv(env)] and [SetDir(dir)]; the fields are named
    after those of [exec.Cmd]. *)
Record Invocation : Type := {
  Cmd : string;
  Args : list string;
  Env : list string;
  Dir : string
}.

(** What the engine can see or change outside its own objects: the
    environment of the process (shared by every reconciliation that runs
    in it), the directories and files that exist, and the commands the
    executor has been asked to run, oldest first. *)
Record World : Type := {
  environ : list (string * string);
  dirs : list string;
  files : list (string * string);
  calls : list Invocation
}.

(** What the engine does not decide: the reply of the external command
    ([cmd.CombinedOutput()], of the interface [k8sexec.Interface]), the
    random part of a temporary name, whether a directory or a file can be
    made or written, whether a directory can be removed and, when it
    cannot, what is held back of it, and the outcome of the calls
    [Connect] makes to its collaborators (usage tracking, provider
    configuration, credentials, executor construction) as the wrapped
    error of the first that fails. Each may depend on the whole
    [World]. *)
Class Host : Type := {
  host_run : World -> Invocation -> string * option error;
  host_rand : World -> string;
  host_mkdir : World -> string -> option error;
  host_create : World -> string -> option error;
  host_write : World -> string -> string -> option error;
  host_remove : World -> string -> option error;
  host_stuck : World -> string -> string -> bool;
  host_collaborators : World -> option error
}.

Definition set_environ (e : list (string * string)) (w : World) : World :=
  {| environ := e; dirs := dirs w; files := files w; calls := calls w |}.
Definition set_dirs (d : list string) (w : World) : World :=
  {| environ := environ w; dirs := d; files := files w; calls := calls w |}.
Definition set_files (f : list (string * string)) (w : World) : World :=
  {| environ := environ w; dirs := dirs w; files := f; calls := calls w |}.
Definition set_calls (c : list Invocation) (w : World) : World :=
  {| environ := environ w; dirs := dirs w; files := files w; calls := c |}.

(** Package [os], as far as the controller uses it. *)
Module os.

Definition NUL : ascii := "000"%char.
Definition PathSeparator : ascii := "/"%char.

Fixpoint lookup (key : string) (e : list (string * string))
  : option string :=
  match e with
  | [] => None
  | (k, v) :: e' => if String.eqb k key then Some v else lookup key e'
  end.

Fixpoint update (key value : string) (e : list (string * string))
  : list (string * string) :=
  match e with
  | [] => [(key, value)]
  | (k, v) :: e' =>
      if String.eqb k key then (k, value) :: e' else (k, v) :: update key value e'
  end.

(** [os.LookupEnv(key)]. *)
Definition LookupEnv (key : string) (w : World) : string * bool :=
  match lookup key (environ w) with
  | Some v => (v, true)
  | None => ("", false)
  end.

(** [os.Getenv(key)]. *)
Definition Getenv (key : string) (w : World) : string :=
  fst (LookupEnv key w).

(** [os.Environ()]: the environment as strings [key=value]. *)
Definition Environ (w : World) : list string :=
  map (fun kv => fst kv ++ "=" ++ snd kv) (environ w).

(** [os.Setenv(key, value)]: refused (EINVAL) when the key is empty or
    holds [=] or a NUL byte, or when the value holds a NUL byte;
    otherwise the variable is set for the whole process. *)
Definition Setenv (key value : string) (w : World) : option error * World :=
  if String.eqb key ""
     || strings.ContainsRune key "="%char
     || strings.ContainsRune key NUL
     || strings.ContainsRune value NUL
  then (Some (New "setenv: invalid argument"), w)
  else (None, set_environ (update key value (environ w)) w).

(** [os.TempDir()]. *)
Definition TempDir (w : World) : string :=
  let d := Getenv "TMPDIR" w in
  if String.eqb d "" then "/tmp" else d.

Fixpoint lastByte (s : string) : option ascii :=
  match s with
  | EmptyString => None
  | String c EmptyString => Some c
  | String _ s' => lastByte s'
  end.

Definition joinPath (d name : string) : string :=
  match lastByte d with
  | Some c => if Ascii.eqb c PathSeparator then d ++ name else d ++ "/" ++ name
  | None => d ++ "/" ++ name
  end.

(** [os.MkdirTemp(dir, pattern)]: the pattern must hold no path
    separator; the random string replaces the last [*] of the pattern
    or is appended to it; the directory is then made. *)
Definition MkdirTemp `{Host} (d pattern : string) (w : World)
  : (string * option error) * World :=
  let d := if String.eqb d "" then TempDir w else d in
  if strings.ContainsRune pattern PathSeparator
  then (("", Some (New "pattern contains path separator")), w)
  else
    let '(prefix, suffix) :=
      match strings.cutLast pattern "*"%char with
      | Some ps => ps
      | None => (pattern, "")
      end in
    let name := joinPath d prefix ++ host_rand w ++ suffix in
    match host_mkdir w name with
    | Some e => (("", Some e), w)
    | None => ((name, None), set_dirs (name :: dirs w) w)
    end.

(** [os.Create(name)]: the file exists and is empty afterwards. *)
Definition Create `{Host} (name : string) (w : World) : option error * World :=
  match host_create w name with
  | Some e => (Some e, w)
  | None => (None, set_files (update name "" (files w)) w)
  end.

(** [file.Write(data)] on a file just created at [name]. *)
Definition Write `{Host} (name data : string) (w : World)
  : option error * World :=
  match host_write w name data with
  | Some e => (Some e, w)
  | None => (None, set_files (update name data (files w)) w)
  end.

(** [p] is [path] or lies below it. *)
Definition within (path p : string) : bool :=
  String.eqb p path || strings.HasPrefix p (path ++ "/").

(** [os.RemoveAll(path)]. The empty path removes nothing and is no
    error. Otherwise the host decides: when it lets [path] go
    ([host_remove] answers no error), [path] and everything below it is
    gone afterwards; when it does not, [RemoveAll] has removed what it
    could and returns the first error it met, and of [path] and what
    lies below it the entries the host holds back ([host_stuck]) are
    still there. Nothing outside [path] is touched. *)
Definition RemoveAll `{Host} (path : string) (w : World) : option error * World :=
  if String.eqb path "" then (None, w)
  else
    let stays (p : string) : bool :=
      negb (within path p)
      || match host_remove w path with
         | Some _ => host_stuck w path p
         | None => false
         end in
    (host_remove w path,
     set_files (filter (fun f => stays (fst f)) (files w))
       (set_dirs (filter stays (dirs w)) w)).

(** [os.Stat(name)], as the error it returns. *)
Definition Stat (name : string) (w : World) : option error :=
  if existsb (String.eqb name) (dirs w)
     || existsb (fun f => String.eqb name (fst f)) (files w)
  then None
  else Some (New ("stat " ++ name ++ ": no such file or directory")).

End os.

(** An ExternalClient; the executor and the logger are held by the
    [Host]. *)
Record external : Type := {
  dir : string;
  env : list string;
  path : string
}.

(** The state an operation of the client runs in: the world, the
    receiver [c] and the custom resource [cr] that [mg] points to. *)
Record Machine : Type := {
  world : World;
  self : external;
  obj : v1alpha1.Cluster
}.

(** State passing. *)
Definition M (A : Type) : Type := Machine -> A * Machine.

Definition ret {A} (a : A) : M A := fun m => (a, m).
Definition bind {A B} (c : M A) (k : A -> M B) : M B :=
  fun m => let '(a, m') := c m in k a m'.

Notation "x <- c ;; k" := (bind c (fun x => k))
  (at level 61, c at next level, right associativity).
Notation "' pat <- c ;; k" := (bind c (fun x => match x with pat => k end))
  (at level 61, pat pattern, c at next level, right associativity).
Notation "c ;;; k" := (bind c (fun _ => k))
  (at level 61, right associativity).

Definition get_self : M external := fun m => (self m, m).
Definition get_obj : M v1alpha1.Cluster := fun m => (obj m, m).
Definition set_self (c : external) : M unit :=
  fun m => (tt, {| world := world m; self := c; obj := obj m |}).
Definition set_obj (cr : v1alpha1.Cluster) : M unit :=
  fun m => (tt, {| world := world m; self := self m; obj := cr |}).
(** A read of the world. *)
Definition ask {A} (f : World -> A) : M A := fun m => (f (world m), m).
(** A call that may change the world. *)
Definition sys {A} (f : World -> A * World) : M A :=
  fun m => let '(a, w) := f (world m) in
           (a, {| world := w; self := self m; obj := obj m |}).

(** [defer f()] around the rest of a function body: [cleanup] runs when
    [body] has returned, whatever it returned, and what [cleanup]
    returns is dropped. *)
Definition defer {A B} (cleanup : World -> B * World) (body : M A) : M A :=
  a <- body ;; sys cleanup ;;; ret a.

(** [cmd.CombinedOutput()] of the command the executor built. *)
Definition CombinedOutput `{Host} (i : Invocation) : M (string * option error) :=
  sys (fun w => (host_run w i, set_calls ((calls w ++ [i])%list) w)).

(* ------------------------------------------------------------------ *)
(** ** Functions shared by the two revisions                           *)
(* ------------------------------------------------------------------ *)

Definition isErr (err : option error) : bool :=
  match err with Some _ => true | None => false end.

(** [s] is one of the labels of a [case] clause. *)
Definition oneOf (s : string) (labels : list string) : bool :=
  existsb (String.eqb s) labels.

Section Shared.
Context {host : Host}.

(** func (c *external) execPcluster *)
Definition execPcluster (args : list string) : M (string * option error) :=
  c <- get_self ;;
  err <- sys (os.Setenv "PATH" (path c)) ;;
  match err with
  | Some e => ret ("", Some (Errorf "failed to set PATH: " e))
  | None =>
      c <- get_self ;;
      CombinedOutput {| Cmd := "pcluster"; Args := args;
                        Env := env c; Dir := dir c |}
  end.

(** func createTempDir *)
Definition createTempDir (prefix : string) : M (string * option error) :=
  '(d, err) <- sys (os.MkdirTemp "" prefix) ;;
  match err with
  | Some e => ret ("", Some (Errorf "failed to create tmp dir: " e))
  | None => ret (d, None)
  end.

(** func writeConfigToFile *)
Definition writeConfigToFile (input filePath : string) : M (option error) :=
  err <- sys (os.Create filePath) ;;
  match err with
  | Some e => ret (Some (Errorf "failed to create config file: " e))
  | None =>
      err <- sys (os.Write filePath input) ;;
      match err with
      | Some e => ret (Some (Errorf "failed to write to config file: " e))
      | None => ret None
      end
  end.

(** func setStatus *)
Definition setStatus (output : OutputCluster) : M unit :=
  cluster <- get_obj ;;
  let st := v1alpha1.Status cluster in
  let at_ := v1alpha1.AtProvider st in
  set_obj
    {| v1alpha1.Name := v1alpha1.Name cluster;
       v1alpha1.Spec := v1alpha1.Spec cluster;
       v1alpha1.Status :=
         {| v1alpha1.ResourceStatus := v1alpha1.ResourceStatus st;
            v1alpha1.AtProvider :=
              {| v1alpha1.ClusterName := ClusterName output;
                 v1alpha1.CloudformationStackArn := CloudformationStackArn output;
                 v1alpha1.ClusterStatus := ClusterStatus output;
                 v1alpha1.LastUpdatedTime := v1alpha1.LastUpdatedTime at_;
                 v1alpha1.Scheduler :=
                   {| v1alpha1.Type_ := SchedulerType_type (Scheduler output) |}
              |} |} |}.

(** [cr.SetConditions(c)] on the resource in the state. *)
Definition SetConditions (c : xpv1.Condition) : M unit :=
  cr <- get_obj ;; set_obj (v1alpha1.SetConditions c cr).

(** func getVEnvPath *)
Definition getVEnvPath : M (string * option error) :=
  '(vEnvPath, ok) <- ask (os.LookupEnv virtualEnvPath) ;;
  if negb ok then ret ("", None)
  else
    err <- ask (os.Stat (vEnvPath ++ "/bin/pcluster")) ;;
    match err with
    | Some e => ret ("", Some (Errorf "pcluster file not found: " e))
    | None =>
        path <- ask (os.Getenv "PATH") ;;
        ret (vEnvPath ++ "/bin:" ++ path, None)
    end.

End Shared.

(** The two decodes of the describe response in [Observe]: first into
    the embedded [OutputCluster] (the error of this decode is
    overwritten), then into the whole [DescribeClusterOutput]. *)
Definition unmarshalDescribe {dec : Decoders} (output : string)
  : DescribeClusterOutput * option error :=
  let '(oc, _) := json_Unmarshal output zeroOutputCluster in
  json_Unmarshal output
    {| Describe_OutputCluster := oc; ComputeFleetStatus := "" |}.

(* ------------------------------------------------------------------ *)
(** ** src/unnamed/part_000: the revision with the dry-run probe       *)
(* ------------------------------------------------------------------ *)

Module Part000.

Definition errPclusterCliNoChange : string :=
  "Bad Request: No changes found in your cluster configuration.".
Definition errPClusterCliDryRun : string :=
  "Request would have succeeded, but DryRun flag is set.".
Definition errPClusterCliInProgress : errStatus :=
  "Cannot execute update while stack is in".
Definition errStatusUpToDate : errStatus := "clusterUpToDate".
Definition errStatusNotUpToDate : errStatus := "clusterNotUpToDate".

Section Engine.
Context {host : Host} {dec : Decoders}.

(** func getErrorStatus *)
Definition getErrorStatus (cmdOutput clusterName : string)
  : errStatus * option error :=
  let '(pErr, err) := json_Unmarshal cmdOutput zeroError in
  match err with
  | Some e => ("", Some e)
  | None =>
      let msg := Message pErr in
      if strings.HasPrefix msg ("Cluster '" ++ clusterName ++ "' does not exist")
      then (errStatusNotFound, None)
      else if String.eqb msg errPclusterCliNoChange
              || strings.HasPrefix msg errPClusterCliInProgress
      then (errStatusUpToDate, None)
      else if String.eqb msg errPClusterCliDryRun
      then (errStatusNotUpToDate, None)
      else (errStatusEmpty, None)
  end.

(** func (c *external) execute *)
Definition execute (args : list string) : M (string * option error) :=
  cr <- get_obj ;;
  '(d, err) <- createTempDir (v1alpha1.Name cr) ;;
  match err with
  | Some e => ret ("", Some e)
  | None =>
      defer (os.RemoveAll d)
        (c <- get_self ;;
         set_self {| dir := d; env := env c;
                     path := path c |} ;;;
         err <- writeConfigToFile
                  (v1alpha1.ClusterConfiguration
                     (v1alpha1.ForProvider (v1alpha1.Spec cr)))
                  (d ++ "/" ++ clusterConfigFileName) ;;
         match err with
         | Some e => ret ("", Some e)
         | None => execPcluster args
         end)
  end.

(** The arguments of the dry run. *)
Definition dryrunArgs (cr : v1alpha1.Cluster) : list string :=
  [ "update-cluster"; "--dryrun"; "true";
    "--cluster-name"; v1alpha1.Name cr;
    "--cluster-configuration"; clusterConfigFileName ].

(** func (c *external) isUpToDate *)
Definition isUpToDate : M (bool * option error) :=
  cr <- get_obj ;;
  '(output, err) <- execute (dryrunArgs cr) ;;
  if isErr err && (0 <? String.length output)%nat
  then
    let '(status, sErr) := getErrorStatus output (v1alpha1.Name cr) in
    match sErr with
    | Some e => ret (false, Some e)
    | None =>
        if String.eqb status errStatusUpToDate
        then ret (true, None)
        else ret (false, None)
    end
  else ret (false, err).

(** func (c *external) Observe *)
Definition Observe (mg : Managed)
  : M (managed.ExternalObservation * option error) :=
  match mg with
  | OtherKind => ret (managed.zero, Some (New errNotCluster))
  | ClusterKind =>
      cr <- get_obj ;;
      '(output, err) <-
         execPcluster ["describe-cluster"; "--cluster-name"; v1alpha1.Name cr] ;;
      match err with
      | Some e =>
          let '(status, _) := getErrorStatus output (v1alpha1.Name cr) in
          if String.eqb status errStatusNotFound
          then ret ({| managed.ResourceExists := false;
                       managed.ResourceUpToDate := false |}, None)
          else ret (managed.zero,
                    Some (Errorf ("failed to run pcluster command: "
                                    ++ output ++ " ") e))
      | None =>
          let '(describeOutput, err) := unmarshalDescribe output in
          match err with
          | Some e =>
              ret (managed.zero,
                   Some (Errorf "failed to unmarshal describe response: " e))
          | None =>
              '(upToDate, err) <- isUpToDate ;;
              match err with
              | Some e =>
                  ret (managed.zero,
                       Some (Errorf
                               "could not determine if resource is up-to-date: " e))
              | None =>
                  let status :=
                    ClusterStatus (Describe_OutputCluster describeOutput) in
                  exists_ <-
                    (if oneOf status
                          [CreateInProgress; UpdateInProgress; DeleteInProgress]
                     then ret true
                     else if oneOf status [CreateComplete; UpdateComplete]
                     then SetConditions xpv1.Available ;;; ret true
                     else if oneOf status [CreateFailed; DeleteComplete]
                     then ret false
                     else if oneOf status [UpdateFailed; DeleteFailed]
                     then SetConditions xpv1.Unavailable ;;; ret true
                     else ret false) ;;
                  setStatus (Describe_OutputCluster describeOutput) ;;;
                  ret ({| managed.ResourceExists := exists_;
                          managed.ResourceUpToDate := upToDate |}, None)
              end
          end
      end
  end.

(** The arguments of [Create], [Update] and [Delete]. *)
Definition createArgs (cr : v1alpha1.Cluster) : list string :=
  [ "create-cluster"; "--cluster-configuration"; clusterConfigFileName;
    "--cluster-name"; v1alpha1.Name cr;
    "--region"; v1alpha1.Region (v1alpha1.ForProvider (v1alpha1.Spec cr)) ].
Definition updateArgs (cr : v1alpha1.Cluster) : list string :=
  [ "update-cluster"; "--cluster-configuration"; clusterConfigFileName;
    "--cluster-name"; v1alpha1.Name cr;
    "--region"; v1alpha1.Region (v1alpha1.ForProvider (v1alpha1.Spec cr)) ].
Definition deleteArgs (cr : v1alpha1.Cluster) : list string :=
  [ "delete-cluster"; "--cluster-name"; v1alpha1.Name cr;
    "--region"; v1alpha1.Region (v1alpha1.ForProvider (v1alpha1.Spec cr)) ].

(** func (c *external) Create. The [managed.ExternalCreation] it
    returns always has empty connection details; only the error is
    kept. The [fmt.Printf] of the resource is not modelled. *)
Definition Create (mg : Managed) : M (option error) :=
  match mg with
  | OtherKind => ret (Some (New errNotCluster))
  | ClusterKind =>
      cr <- get_obj ;;
      '(output, err) <- execute (createArgs cr) ;;
      match err with
      | Some e => ret (Some e)
      | None =>
          let '(createOutput, err) := json_Unmarshal output zeroCreate in
          match err with
          | Some e =>
              ret (Some (Errorf "failed to unmarshal create output: " e))
          | None => setStatus (Create_Cluster createOutput) ;;; ret None
          end
      end
  end.

(** func (c *external) Update. After the decode the function only
    logs the number of changes. *)
Definition Update (mg : Managed) : M (option error) :=
  match mg with
  | OtherKind => ret (Some (New errNotCluster))
  | ClusterKind =>
      cr <- get_obj ;;
      '(output, err) <- execute (updateArgs cr) ;;
      match err with
      | Some e => ret (Some e)
      | None =>
          let '(updateOutput, err) := json_Unmarshal output zeroUpdate in
          match err with
          | Some e =>
              ret (Some (Errorf "failed to unmarshal update output: " e))
          | None => ret None
          end
      end
  end.

(** func (c *external) Delete. After the decode the function only
    logs the raw output. *)
Definition Delete (mg : Managed) : M (option error) :=
  match mg with
  | OtherKind => ret (Some (New errNotCluster))
  | ClusterKind =>
      cr <- get_obj ;;
      '(output, err) <- execute (deleteArgs cr) ;;
      match err with
      | Some e =>
          ret (Some (Errorf "failed to delete using pcluster cli: " e))
      | None =>
          let '(deleteOutput, err) := json_Unmarshal output zeroDelete in
          match err with
          | Some e =>
              ret (Some (Errorf "failed to unmarshal update output: " e))
          | None => ret None
          end
      end
  end.

(** func (c *connector) Connect, after the calls to the
    collaborators. The client it returns is the first component. *)
Definition Connect (mg : Managed) : M (option external * option error) :=
  match mg with
  | OtherKind => ret (None, Some (New errNotCluster))
  | ClusterKind =>
      cerr <- ask host_collaborators ;;
      match cerr with
      | Some e => ret (None, Some e)
      | None =>
          '(path, err) <- getVEnvPath ;;
          match err with
          | Some e => ret (None, Some e)
          | None =>
              env <- ask os.Environ ;;
              let env :=
                if negb (String.eqb path "")
                then (env ++ [("PATH=" ++ path)%string])%list
                else env in
              ret (Some {| dir := ""; env := env; path := path |},
                   None)
          end
      end
  end.

End Engine.
End Part000.

(* ------------------------------------------------------------------ *)
(** ** src/internal/controller/cluster/cluster.go: the earlier revision *)
(* ------------------------------------------------------------------ *)

Module ClusterGo.

Section Engine.
Context {host : Host} {dec : Decoders}.

(** func getErrorStatus *)
Definition getErrorStatus (cmdOutput clusterName : string)
  : errStatus * option error :=
  let '(pErr, err) := json_Unmarshal cmdOutput zeroError in
  match err with
  | Some e => ("", Some e)
  | None =>
      let msg := Message pErr in
      if strings.HasPrefix msg ("Cluster '" ++ clusterName ++ "' does not exist")
      then (errStatusNotFound, None)
      else (errStatusEmpty, None)
  end.

(** func (c *external) execute: the output is dropped when the
    command fails. *)
Definition execute (args : list string) : M (string * option error) :=
  cr <- get_obj ;;
  '(d, err) <- createTempDir (v1alpha1.Name cr) ;;
  match err with
  | Some e => ret ("", Some e)
  | None =>
      defer (os.RemoveAll d)
        (c <- get_self ;;
         set_self {| dir := d; env := env c;
                     path := path c |} ;;;
         err <- writeConfigToFile
                  (v1alpha1.ClusterConfiguration
                     (v1alpha1.ForProvider (v1alpha1.Spec cr)))
                  (d ++ "/" ++ clusterConfigFileName) ;;
         match err with
         | Some e => ret ("", Some e)
         | None =>
             '(output, err) <- execPcluster args ;;
             match err with
             | Some e => ret ("", Some e)
             | None => ret (output, None)
             end
         end)
  end.

(** func (c *external) Observe *)
Definition Observe (mg : Managed)
  : M (managed.ExternalObservation * option error) :=
  match mg with
  | OtherKind => ret (managed.zero, Some (New errNotCluster))
  | ClusterKind =>
      cr <- get_obj ;;
      '(output, err) <-
         execPcluster ["describe-cluster"; "--cluster-name"; v1alpha1.Name cr] ;;
      match err with
      | Some e =>
          let '(status, _) := getErrorStatus output (v1alpha1.Name cr) in
          if String.eqb status errStatusNotFound
          then ret ({| managed.ResourceExists := false;
                       managed.ResourceUpToDate := false |}, None)
          else ret (managed.zero,
                    Some (Errorf ("failed to run pcluster command: "
                                    ++ output ++ " ") e))
      | None =>
          let '(describeOutput, err) := unmarshalDescribe output in
          match err with
          | Some e =>
              ret (managed.zero,
                   Some (Errorf "failed to unmarshal describe response: " e))
          | None =>
              SetConditions xpv1.Unavailable ;;;
              let status :=
                ClusterStatus (Describe_OutputCluster describeOutput) in
              eo <-
                (if oneOf status [CreateInProgress; UpdateInProgress]
                 then ret {| managed.ResourceExists := true;
                             managed.ResourceUpToDate := true |}
                 else if oneOf status [CreateComplete; UpdateComplete]
                 then SetConditions xpv1.Available ;;;
                      ret {| managed.ResourceExists := true;
                             managed.ResourceUpToDate := true |}
                 else if oneOf status [DeleteComplete; CreateFailed]
                 then ret {| managed.ResourceExists := false;
                             managed.ResourceUpToDate := false |}
                 else if oneOf status [UpdateFailed; DeleteFailed]
                 then ret {| managed.ResourceExists := true;
                             managed.ResourceUpToDate := false |}
                 else if oneOf status [DeleteInProgress]
                 then ret {| managed.ResourceExists := true;
                             managed.ResourceUpToDate := true |}
                 else ret managed.zero) ;;
              ret (eo, None)
          end
      end
  end.

Definition createArgs (cr : v1alpha1.Cluster) : list string :=
  [ "create-cluster"; "--cluster-configuration"; clusterConfigFileName;
    "--cluster-name"; v1alpha1.Name cr;
    "--region"; v1alpha1.Region (v1alpha1.ForProvider (v1alpha1.Spec cr)) ].
Definition updateArgs (cr : v1alpha1.Cluster) : list string :=
  [ "update-cluster"; "--cluster-configuration"; clusterConfigFileName;
    "--cluster-name"; v1alpha1.Name cr;
    "--region"; v1alpha1.Region (v1alpha1.ForProvider (v1alpha1.Spec cr)) ].
Definition deleteArgs (cr : v1alpha1.Cluster) : list string :=
  [ "delete-cluster"; "--cluster-name"; v1alpha1.Name cr;
    "--region"; v1alpha1.Region (v1alpha1.ForProvider (v1alpha1.Spec cr)) ].

(** func (c *external) Create *)
Definition Create (mg : Managed) : M (option error) :=
  match mg with
  | OtherKind => ret (Some (New errNotCluster))
  | ClusterKind =>
      cr <- get_obj ;;
      '(output, err) <- execute (createArgs cr) ;;
      match err with
      | Some e => ret (Some e)
      | None =>
          let '(createOutput, err) := json_Unmarshal output zeroCreate in
          match err with
          | Some e =>
              ret (Some (Errorf "failed to unmarshal create output: " e))
          | None => setStatus (Create_Cluster createOutput) ;;; ret None
          end
      end
  end.

(** func (c *external) Update *)
Definition Update (mg : Managed) : M (option error) :=
  match mg with
  | OtherKind => ret (Some (New errNotCluster))
  | ClusterKind =>
      cr <- get_obj ;;
      '(output, err) <- execute (updateArgs cr) ;;
      match err with
      | Some e => ret (Some e)
      | None =>
          let '(updateOutput, err) := json_Unmarshal output zeroUpdate in
          match err with
          | Some e =>
              ret (Some (Errorf "failed to unmarshal update output: " e))
          | None => setStatus (Update_Cluster updateOutput) ;;; ret None
          end
      end
  end.

(** func (c *external) Delete *)
Definition Delete (mg : Managed) : M (option error) :=
  match mg with
  | OtherKind => ret (Some (New errNotCluster))
  | ClusterKind =>
      cr <- get_obj ;;
      '(output, err) <- execute (deleteArgs cr) ;;
      match err with
      | Some e => ret (Some e)
      | None =>
          let '(deleteOutput, err) := json_Unmarshal output zeroDelete in
          match err with
          | Some e =>
              ret (Some (Errorf "failed to unmarshal update output: " e))
          | None => setStatus (Delete_Cluster deleteOutput) ;;; ret None
          end
      end
  end.

(** func (c *connector) Connect, after the calls to the
    collaborators: [PATH=<path>] is appended even when the path is
    empty. *)
Definition Connect (mg : Managed) : M (option external * option error) :=
  match mg with
  | OtherKind => ret (None, Some (New errNotCluster))
  | ClusterKind =>
      cerr <- ask host_collaborators ;;
      match cerr with
      | Some e => ret (None, Some e)
      | None =>
          '(path, err) <- getVEnvPath ;;
          match err with
          | Some e => ret (None, Some e)
          | None =>
              env <- ask os.Environ ;;
              ret (Some {| dir := "";
                           env := (env ++ [("PATH=" ++ path)%string])%list;
                           path := path |},
                   None)
          end
      end
  end.

End Engine.
End ClusterGo.

(* ------------------------------------------------------------------ *)
(** ** A JSON decoder and a scripted executor, to run the engine       *)
(* ------------------------------------------------------------------ *)

(** The theorems below hold for every [Decoders] and every [Host]. To
    evaluate the engine on concrete payloads this module gives one
    instance of [Decoders]: a decoder for the JSON the command line tool
    prints (objects, arrays, strings with the one-character escapes,
    numbers kept as text, literals), with the field matching of
    [encoding/json] (exact key first, then ignoring ASCII case; the last
    of several equal keys wins; [null] leaves a field as it is; a value of
    the wrong kind is reported after the other fields are decoded; a
    syntax error leaves the target untouched). *)
Module json.

#[warnings="-register-all"]
Inductive value : Type :=
| Null
| Bool (b : bool)
| Number (raw : string)
| Str (s : string)
| Array (elems : list value)
| Object (members : list (string * value)).

Definition quote : ascii := "034"%char.
Definition backslash : ascii := "092"%char.

Definition isSpace (c : ascii) : bool :=
  Ascii.eqb c " "%char || Ascii.eqb c "009"%char
  || Ascii.eqb c "010"%char || Ascii.eqb c "013"%char.

Fixpoint skip (s : string) : string :=
  match s with
  | String c s' => if isSpace c then skip s' else s
  | EmptyString => s
  end.

Definition unescape (c : ascii) : option ascii :=
  if Ascii.eqb c quote then Some quote
  else if Ascii.eqb c backslash then Some backslash
  else if Ascii.eqb c "/"%char then Some "/"%char
  else if Ascii.eqb c "n"%char then Some "010"%char
  else if Ascii.eqb c "t"%char then Some "009"%char
  else if Ascii.eqb c "r"%char then Some "013"%char
  else if Ascii.eqb c "b"%char then Some "008"%char
  else if Ascii.eqb c "f"%char then Some "012"%char
  else None.

(** The body of a string literal, after its opening quote. *)
Fixpoint scanString (s : string) : option (string * string) :=
  match s with
  | EmptyString => None
  | String c s' =>
      if Ascii.eqb c quote then Some ("", s')
      else if Ascii.eqb c backslash then
        match s' with
        | String e s'' =>
            match unescape e, scanString s'' with
            | Some d, Some (r, rest) => Some (String d r, rest)
            | _, _ => None
            end
        | EmptyString => None
        end
      else if (nat_of_ascii c <? 32)%nat then None
      else
        match scanString s' with
        | Some (r, rest) => Some (String c r, rest)
        | None => None
        end
  end.

Definition isNumberChar (c : ascii) : bool :=
  let n := nat_of_ascii c in
  ((48 <=? n) && (n <=? 57))%nat
  || Ascii.eqb c "-"%char || Ascii.eqb c "+"%char || Ascii.eqb c "."%char
  || Ascii.eqb c "e"%char || Ascii.eqb c "E"%char.

Fixpoint scanNumber (s : string) : string * string :=
  match s with
  | String c s' =>
      if isNumberChar c
      then let '(n, rest) := scanNumber s' in (String c n, rest)
      else ("", s)
  | EmptyString => ("", s)
  end.

Fixpoint drop (n : nat) (s : string) : string :=
  match n, s with
  | S n', String _ s' => drop n' s'
  | _, _ => s
  end.

Fixpoint parseValue (fuel : nat) (s : string) : option (value * string) :=
  match fuel with
  | O => None
  | S fuel' =>
      match skip s with
      | EmptyString => None
      | String c r =>
          if Ascii.eqb c "{"%char then
            match skip r with
            | String "}"%char r' => Some (Object [], r')
            | _ =>
                match parseMembers fuel' r with
                | Some (ms, r') => Some (Object ms, r')
                | None => None
                end
            end
          else if Ascii.eqb c "["%char then
            match skip r with
            | String "]"%char r' => Some (Array [], r')
            | _ =>
                match parseElements fuel' r with
                | Some (vs, r') => Some (Array vs, r')
                | None => None
                end
            end
          else if Ascii.eqb c quote then
            match scanString r with
            | Some (x, r') => Some (Str x, r')
            | None => None
            end
          else if strings.HasPrefix (String c r) "true"
          then Some (Bool true, drop 4 (String c r))
          else if strings.HasPrefix (String c r) "false"
          then Some (Bool false, drop 5 (String c r))
          else if strings.HasPrefix (String c r) "null"
          then Some (Null, drop 4 (String c r))
          else
            match scanNumber (String c r) with
            | (EmptyString, _) => None
            | (n, r') => Some (Number n, r')
            end
      end
  end
with parseMembers (fuel : nat) (s : string)
  : option (list (string * value) * string) :=
  match fuel with
  | O => None
  | S fuel' =>
      match skip s with
      | String q r =>
          if Ascii.eqb q quote then
            match scanString r with
            | Some (k, r1) =>
                match skip r1 with
                | String ":"%char r2 =>
                    match parseValue fuel' r2 with
                    | Some (v, r3) =>
                        match skip r3 with
                        | String ","%char r4 =>
                            match parseMembers fuel' r4 with
                            | Some (ms, r5) => Some ((k, v) :: ms, r5)
                            | None => None
                            end
                        | String "}"%char r4 => Some ([(k, v)], r4)
                        | _ => None
                        end
                    | None => None
                    end
                | _ => None
                end
            | None => None
            end
          else None
      | EmptyString => None
      end
  end
with parseElements (fuel : nat) (s : string)
  : option (list value * string) :=
  match fuel with
  | O => None
  | S fuel' =>
      match parseValue fuel' s with
      | Some (v, r1) =>
          match skip r1 with
          | String ","%char r2 =>
              match parseElements fuel' r2 with
              | Some (vs, r3) => Some (v :: vs, r3)
              | None => None
              end
          | String "]"%char r2 => Some ([v], r2)
          | _ => None
          end
      | None => None
      end
  end.

(** A whole document: one value, then white space only. *)
Definition parse (s : string) : option value :=
  match parseValue (2 * String.length s + 2) s with
  | Some (v, r) => if String.eqb (skip r) "" then Some v else None
  | None => None
  end.

Fixpoint escape (s : string) : string :=
  match s with
  | EmptyString => ""
  | String c s' =>
      if Ascii.eqb c quote || Ascii.eqb c backslash
      then String backslash (String c (escape s'))
      else String c (escape s')
  end.

Definition lit (s : string) : string :=
  String quote (escape s ++ String quote "").

Fixpoint render (v : value) : string :=
  match v with
  | Null => "null"
  | Bool true => "true"
  | Bool false => "false"
  | Number n => n
  | Str s => lit s
  | Array vs =>
      "[" ++ (fix go (l : list value) : string :=
                match l with
                | [] => ""
                | [x] => render x
                | x :: r => render x ++ "," ++ go r
                end) vs ++ "]"
  | Object ms =>
      "{" ++ (fix go (l : list (string * value)) : string :=
                match l with
                | [] => ""
                | [(k, x)] => lit k ++ ":" ++ render x
                | (k, x) :: r => lit k ++ ":" ++ render x ++ "," ++ go r
                end) ms ++ "}"
  end.

Definition lower (c : ascii) : ascii :=
  let n := nat_of_ascii c in
  if ((65 <=? n) && (n <=? 90))%nat then ascii_of_nat (n + 32) else c.

Fixpoint equalFold (a b : string) : bool :=
  match a, b with
  | EmptyString, EmptyString => true
  | String x a', String y b' => Ascii.eqb (lower x) (lower y) && equalFold a' b'
  | _, _ => false
  end.

(** A field of a struct: its JSON key and how a value is stored in it. *)
Definition Field (T : Type) : Type :=
  (string * (value -> T -> T * option error))%type.

Definition findField {T} (fields : list (Field T)) (key : string)
  : option (Field T) :=
  match find (fun f => String.eqb (fst f) key) fields with
  | Some f => Some f
  | None => find (fun f => equalFold (fst f) key) fields
  end.

Definition firstErr (a b : option error) : option error :=
  match a with Some _ => a | None => b end.

Definition decodeStruct {T} (fields : list (Field T)) (v : value) (t : T)
  : T * option error :=
  match v with
  | Null => (t, None)
  | Object ms =>
      fold_left
        (fun (acc : T * option error) (m : string * value) =>
           match findField fields (fst m) with
           | Some f =>
               let '(t', e) := snd f (snd m) (fst acc) in
               (t', firstErr (snd acc) e)
           | None => acc
           end)
        ms (t, None)
  | _ => (t, Some (New "json: cannot unmarshal value into Go value of struct type"))
  end.

Definition stringField {T} (set : string -> T -> T) (v : value) (t : T)
  : T * option error :=
  match v with
  | Str s => (set s t, None)
  | Null => (t, None)
  | _ => (t, Some (New "json: cannot unmarshal value into Go struct field of type string"))
  end.

Definition Unmarshal {T} (fields : list (Field T)) (data : string) (t : T)
  : T * option error :=
  match parse data with
  | None => (t, Some (New "json: syntax error"))
  | Some v => decodeStruct fields v t
  end.

Definition schedulerFields : list (Field SchedulerType) :=
  [ ("type", stringField (fun s _ => {| SchedulerType_type := s |})) ].

(** The string field number [which] of an [OutputCluster] set to [s]. *)
Definition setCluster (which : nat) (s : string) (o : OutputCluster)
  : OutputCluster :=
  let pick n old := if Nat.eqb which n then s else old in
  {| ClusterName := pick 0 (ClusterName o);
     CloudformationStackStatus := pick 1 (CloudformationStackStatus o);
     CloudformationStackArn := pick 2 (CloudformationStackArn o);
     ClusterStatus := pick 3 (ClusterStatus o);
     Region := pick 4 (Region o);
     Version := pick 5 (Version o);
     Scheduler := Scheduler o |}.

Definition clusterFields : list (Field OutputCluster) :=
  [ ("clusterName", stringField (setCluster 0));
    ("cloudformationStackStatus",
      stringField (setCluster 1));
    ("cloudformationStackArn",
      stringField (setCluster 2));
    ("clusterStatus", stringField (setCluster 3));
    ("region", stringField (setCluster 4));
    ("version", stringField (setCluster 5));
    ("scheduler",
      fun v o =>
        let '(sch, e) := decodeStruct schedulerFields v (Scheduler o) in
        ({| ClusterName := ClusterName o;
            CloudformationStackStatus := CloudformationStackStatus o;
            CloudformationStackArn := CloudformationStackArn o;
            ClusterStatus := ClusterStatus o;
            Region := Region o;
            Version := Version o;
            Scheduler := sch |}, e)) ].

(** The keys of [DescribeClusterOutput] that the model keeps. *)
Definition describeFields : list (Field DescribeClusterOutput) :=
  [ ("inline",
      fun v d =>
        let '(oc, e) := decodeStruct clusterFields v (Describe_OutputCluster d) in
        ({| Describe_OutputCluster := oc;
            ComputeFleetStatus := ComputeFleetStatus d |}, e));
    ("computeFleetStatus",
      stringField (fun s d =>
        {| Describe_OutputCluster := Describe_OutputCluster d;
           ComputeFleetStatus := s |})) ].

Definition createFields : list (Field CreateClusterOutput) :=
  [ ("cluster",
      fun v d =>
        let '(oc, e) := decodeStruct clusterFields v (Create_Cluster d) in
        ({| Create_Cluster := oc |}, e)) ].

Definition deleteFields : list (Field DeleteClusterOutput) :=
  [ ("cluster",
      fun v d =>
        let '(oc, e) := decodeStruct clusterFields v (Delete_Cluster d) in
        ({| Delete_Cluster := oc |}, e)) ].

Definition updateFields : list (Field UpdateClusterOutput) :=
  [ ("cluster",
      fun v d =>
        let '(oc, e) := decodeStruct clusterFields v (Update_Cluster d) in
        ({| Update_Cluster := oc; ChangeSet := ChangeSet d |}, e));
    ("changeSet",
      fun v d =>
        match v with
        | Array vs =>
            ({| Update_Cluster := Update_Cluster d;
                ChangeSet := map render vs |}, None)
        | Null => (d, None)
        | _ => (d, Some (New "json: cannot unmarshal value into Go struct field of type slice"))
        end) ].

Definition errorFields : list (Field errorOutput) :=
  [ ("message", stringField (fun s _ => {| Message := s |})) ].

Definition decoders : Decoders :=
  {| dec_error := Unmarshal errorFields;
     dec_cluster := Unmarshal clusterFields;
     dec_describe := Unmarshal describeFields;
     dec_create := Unmarshal createFields;
     dec_update := Unmarshal updateFields;
     dec_delete := Unmarshal deleteFields |}.

End json.

(** A scripted executor in the manner of [fakeexec.FakeExec]: the n-th
    command gets the n-th reply of the script. Failures of the operating
    system are switched on by [Faults]. *)
Module fakeexec.

Record Faults : Type := {
  mkdir_fails : bool;
  create_fails : bool;
  write_fails : bool;
  remove_fails : bool
}.

Definition noFaults : Faults :=
  {| mkdir_fails := false; create_fails := false; write_fails := false;
     remove_fails := false |}.

Definition FakeExec (CommandScript : list (string * option error))
           (f : Faults) : Host :=
  {| host_run := fun w _ =>
       nth (List.length (calls w)) CommandScript
           ("", Some (New "ran out of Command() actions"));
     host_rand := fun _ => "2052571037";
     host_mkdir := fun _ _ =>
       if mkdir_fails f then Some (New "mkdir: permission denied") else None;
     host_create := fun _ _ =>
       if create_fails f then Some (New "open: permission denied") else None;
     host_write := fun _ _ _ =>
       if write_fails f then Some (New "write: no space left on device") else None;
     host_remove := fun _ _ =>
       if remove_fails f then Some (New "unlinkat: permission denied") else None;
     host_stuck := fun _ _ _ => true;
     host_collaborators := fun _ => None |}.

End fakeexec.

(** The inputs of the test file and of the scenarios of the
    specification. *)
Module Scenario.

Definition nl : string := String "010"%char "".

(** func makeCluster *)
Definition makeCluster : v1alpha1.Cluster :=
  {| v1alpha1.Name := "test";
     v1alpha1.Spec :=
       {| v1alpha1.ForProvider :=
            {| v1alpha1.Region := "us-eastish";
               v1alpha1.ClusterConfiguration :=
                 "Image:" ++ nl ++ "        Os: alinux2" ++ nl |} |};
     v1alpha1.Status :=
       {| v1alpha1.ResourceStatus := {| xpv1.Ready := None |};
          v1alpha1.AtProvider :=
            {| v1alpha1.ClusterName := "";
               v1alpha1.CloudformationStackArn := "";
               v1alpha1.ClusterStatus := "";
               v1alpha1.LastUpdatedTime := "";
               v1alpha1.Scheduler := {| v1alpha1.Type_ := "" |} |} |} |}.

(** The same resource once it has been reported available. *)
Definition availableCluster : v1alpha1.Cluster :=
  v1alpha1.SetConditions xpv1.Available makeCluster.

Definition world0 : World :=
  {| environ := [("PATH", "/usr/bin"); ("HOME", "/root")];
     dirs := ["/tmp"]; files := []; calls := [] |}.

(** The client of the test file: [external{executor, logger}]. *)
Definition client0 : external :=
  {| dir := ""; env := []; path := "" |}.

Definition machine0 : Machine :=
  {| world := world0; self := client0; obj := makeCluster |}.

Definition exitError : error := New "exit status 1".

(** An error payload: an object with the key [message]. *)
Definition errorPayload (msg : string) : string :=
  json.render (json.Object [("message", json.Str msg)]).

Definition clusterValue (name status : string) : json.value :=
  json.Object
    [ ("clusterName", json.Str name);
      ("cloudformationStackArn",
        json.Str "arn:aws:cloudformation:us-eastish:1:stack/test/0");
      ("clusterStatus", json.Str status);
      ("scheduler", json.Object [("type", json.Str "slurm")]) ].

(** A describe response: the cluster fields at the top level. *)
Definition describePayload (status : string) : string :=
  json.render (clusterValue "test" status).

(** A create, update or delete response: the cluster fields under the
    key [cluster]. *)
Definition envelopePayload (status : string) : string :=
  json.render (json.Object [("cluster", clusterValue "test" status)]).

Definition notFoundMessage : string := "Cluster 'test' does not exist".

(** A process in which a virtual environment holds the tool. *)
Definition venvWorld : World :=
  {| environ := [("PATH", "/usr/bin"); ("PYTHON_VENV_PATH", "/opt/venv")];
     dirs := ["/tmp"; "/opt/venv/bin"];
     files := [("/opt/venv/bin/pcluster", "#!/opt/venv/bin/python")];
     calls := [] |}.

Definition venvClient : external :=
  {| dir := "";
     env := ["PATH=/usr/bin"; "PYTHON_VENV_PATH=/opt/venv";
                 "PATH=/opt/venv/bin:/usr/bin"];
     path := "/opt/venv/bin:/usr/bin" |}.

(** Scenario A: the cluster is complete and the dry run finds no
    change. *)
Definition scenarioA : Host :=
  fakeexec.FakeExec
    [ (describePayload CreateComplete, None);
      (errorPayload Part000.errPclusterCliNoChange, Some exitError) ]
    fakeexec.noFaults.

(** Scenario B: the cluster is complete and the dry run would change
    it. *)
Definition scenarioB : Host :=
  fakeexec.FakeExec
    [ (describePayload CreateComplete, None);
      (errorPayload Part000.errPClusterCliDryRun, Some exitError) ]
    fakeexec.noFaults.

(** Scenario C: the cluster does not exist. *)
Definition scenarioC : Host :=
  fakeexec.FakeExec [ (errorPayload notFoundMessage, Some exitError) ]
    fakeexec.noFaults.

(** Scenario D: the describe command fails with a message that no rule
    knows. *)
Definition scenarioD : Host :=
  fakeexec.FakeExec [ (errorPayload "Internal server error", Some exitError) ]
    fakeexec.noFaults.

(** The cluster is complete and the dry run prints no JSON. *)
Definition completeProbeCrashes : Host :=
  fakeexec.FakeExec
    [ (describePayload CreateComplete, None);
      ("Traceback (most recent call last):", Some exitError) ]
    fakeexec.noFaults.

(** The cluster has been deleted and the dry run prints no JSON. *)
Definition deletedProbeCrashes : Host :=
  fakeexec.FakeExec
    [ (describePayload DeleteComplete, None);
      ("Traceback (most recent call last):", Some exitError) ]
    fakeexec.noFaults.

(** The cluster has been deleted and the dry run finds no change. *)
Definition deletedNoChange : Host :=
  fakeexec.FakeExec
    [ (describePayload DeleteComplete, None);
      (errorPayload Part000.errPclusterCliNoChange, Some exitError) ]
    fakeexec.noFaults.

(** The cluster is being created (the only command is describe). *)
Definition creating : Host :=
  fakeexec.FakeExec [ (describePayload CreateInProgress, None) ]
    fakeexec.noFaults.

(** The first command (a probe, an update, a create or a delete) fails
    with a message that no rule knows. *)
Definition firstUnclassified : Host := scenarioD.

(** The first command exits with status zero and prints a cluster that
    is being updated. *)
Definition firstSucceeds : Host :=
  fakeexec.FakeExec [ (envelopePayload UpdateInProgress, None) ]
    fakeexec.noFaults.

(** The first command fails with the no-change message. *)
Definition firstNoChange : Host :=
  fakeexec.FakeExec
    [ (errorPayload Part000.errPclusterCliNoChange, Some exitError) ]
    fakeexec.noFaults.

(** The temporary directory cannot be made. *)
Definition noDirectory : Host :=
  fakeexec.FakeExec [ (envelopePayload CreateInProgress, None) ]
    {| fakeexec.mkdir_fails := true; fakeexec.create_fails := false;
       fakeexec.write_fails := false; fakeexec.remove_fails := false |}.

(** The configuration file cannot be created. *)
Definition noFile : Host :=
  fakeexec.FakeExec [ (envelopePayload CreateInProgress, None) ]
    {| fakeexec.mkdir_fails := false; fakeexec.create_fails := true;
       fakeexec.write_fails := false; fakeexec.remove_fails := false |}.

(** The configuration file cannot be written. *)
Definition noSpace : Host :=
  fakeexec.FakeExec [ (envelopePayload CreateInProgress, None) ]
    {| fakeexec.mkdir_fails := false; fakeexec.create_fails := false;
       fakeexec.write_fails := true; fakeexec.remove_fails := false |}.

(** The cluster is complete and the configuration file of the dry run
    cannot be written. *)
Definition describedNoSpace : Host :=
  fakeexec.FakeExec [ (describePayload CreateComplete, None) ]
    {| fakeexec.mkdir_fails := false; fakeexec.create_fails := false;
       fakeexec.write_fails := true; fakeexec.remove_fails := false |}.

(** The first command succeeds and the temporary directory cannot be
    removed afterwards. *)
Definition removalFails : Host :=
  fakeexec.FakeExec [ (envelopePayload CreateInProgress, None) ]
    {| fakeexec.mkdir_fails := false; fakeexec.create_fails := false;
       fakeexec.write_fails := false; fakeexec.remove_fails := true |}.

(** The cluster is complete, the dry run finds no change, and the
    temporary directory of the dry run cannot be removed. *)
Definition completeRemovalFails : Host :=
  fakeexec.FakeExec
    [ (describePayload CreateComplete, None);
      (errorPayload Part000.errPclusterCliNoChange, Some exitError) ]
    {| fakeexec.mkdir_fails := false; fakeexec.create_fails := false;
       fakeexec.write_fails := false; fakeexec.remove_fails := true |}.

(** An absence message that can be read with two names. *)
Definition twoNames : string := "Cluster 'a' does not exist' does not exist".

Definition venvMachine : Machine :=
  {| world := venvWorld; self := venvClient; obj := makeCluster |}.

Definition availableMachine : Machine :=
  {| world := world0; self := client0; obj := availableCluster |}.

End Scenario.

(* ------------------------------------------------------------------ *)
(** ** The specification's vocabulary                                  *)
(* ------------------------------------------------------------------ *)

(** Definitions that follow the words of the specification, to compare
    the code with. *)
Module Spec.

(** §3, ErrorClassification. *)
Inductive ErrorClassification : Type :=
| NotFound | UpToDate | NotUpToDate | EmptyOrUnclassified.

(** The constant of the code that stands for a classification. *)
Definition errStatusOf (c : ErrorClassification) : errStatus :=
  match c with
  | NotFound => errStatusNotFound
  | UpToDate => Part000.errStatusUpToDate
  | NotUpToDate => Part000.errStatusNotUpToDate
  | EmptyOrUnclassified => errStatusEmpty
  end.

(** "Message begins with ...". *)
Definition begins (msg start : string) : Prop :=
  exists rest, msg = start ++ rest.

(** The text of an absence message for the cluster [name]. *)
Definition absence (name : string) : string :=
  "Cluster '" ++ name ++ "' does not exist".

(** §4.4, the four rules in their priority order: a rule applies only
    when no earlier rule does. *)
Inductive classify (resourceName msg : string) : ErrorClassification -> Prop :=
| rule1 :
    begins msg (absence resourceName) ->
    classify resourceName msg NotFound
| rule2 :
    ~ begins msg (absence resourceName) ->
    msg = Part000.errPclusterCliNoChange
    \/ begins msg Part000.errPClusterCliInProgress ->
    classify resourceName msg UpToDate
| rule3 :
    ~ begins msg (absence resourceName) ->
    ~ (msg = Part000.errPclusterCliNoChange
       \/ begins msg Part000.errPClusterCliInProgress) ->
    msg = Part000.errPClusterCliDryRun ->
    classify resourceName msg NotUpToDate
| rule4 :
    ~ begins msg (absence resourceName) ->
    ~ (msg = Part000.errPclusterCliNoChange
       \/ begins msg Part000.errPClusterCliInProgress) ->
    msg <> Part000.errPClusterCliDryRun ->
    classify resourceName msg EmptyOrUnclassified.

(** §3, RemoteLifecycleStatus. *)
Inductive RemoteLifecycleStatus : Type :=
| S_CreateInProgress | S_CreateComplete | S_CreateFailed
| S_UpdateInProgress | S_UpdateComplete | S_UpdateFailed
| S_DeleteInProgress | S_DeleteComplete | S_DeleteFailed.

(** The text the tool prints for a status. *)
Definition text (s : RemoteLifecycleStatus) : PClusterStatus :=
  match s with
  | S_CreateInProgress => CreateInProgress
  | S_CreateComplete => CreateComplete
  | S_CreateFailed => CreateFailed
  | S_UpdateInProgress => UpdateInProgress
  | S_UpdateComplete => UpdateComplete
  | S_UpdateFailed => UpdateFailed
  | S_DeleteInProgress => DeleteInProgress
  | S_DeleteComplete => DeleteComplete
  | S_DeleteFailed => DeleteFailed
  end.

(** §4.5, the column "exists" of the table. *)
Definition table_exists (s : RemoteLifecycleStatus) : bool :=
  match s with
  | S_CreateFailed | S_DeleteComplete => false
  | _ => true
  end.

(** §4.5, the column "available": unchanged, a value, or no entry. *)
Inductive Availability : Type := Unchanged | Becomes (b : bool) | NoEntry.

Definition table_available (s : RemoteLifecycleStatus) : Availability :=
  match s with
  | S_CreateInProgress | S_UpdateInProgress | S_DeleteInProgress => Unchanged
  | S_CreateComplete | S_UpdateComplete => Becomes true
  | S_CreateFailed | S_DeleteComplete => NoEntry
  | S_UpdateFailed | S_DeleteFailed => Becomes false
  end.

(** The Ready condition [after] an observation agrees with an entry of
    the column, given the condition [before] it. *)
Definition agrees (a : Availability)
           (before after : option xpv1.Condition) : Prop :=
  match a with
  | Unchanged => after = before
  | Becomes true => after = Some xpv1.Available
  | Becomes false => after = Some xpv1.Unavailable
  | NoEntry => True
  end.

(** §7, WorkspaceIOError: the directory could not be made, or the
    configuration file could not be created or written. *)
Definition WorkspaceIOError (e : error) : Prop :=
  exists cause,
    e = Errorf "failed to create tmp dir: " cause
    \/ e = Errorf "failed to create config file: " cause
    \/ e = Errorf "failed to write to config file: " cause.

(** §6, the command surface: the arguments of the four verbs for a
    resource, with the name of the configuration file. *)
Definition describe_cluster (name : string) : list string :=
  ["describe-cluster"; "--cluster-name"; name].
Definition create_cluster (file name region : string) : list string :=
  ["create-cluster"; "--cluster-configuration"; file;
   "--cluster-name"; name; "--region"; region].
Definition update_cluster (file name region : string) : list string :=
  ["update-cluster"; "--cluster-configuration"; file;
   "--cluster-name"; name; "--region"; region].
Definition delete_cluster (name region : string) : list string :=
  ["delete-cluster"; "--cluster-name"; name; "--region"; region].

End Spec.

(** The Ready condition of a resource. *)
Definition ready (cr : v1alpha1.Cluster) : option xpv1.Condition :=
  xpv1.Ready (v1alpha1.ResourceStatus (v1alpha1.Status cr)).

(** The observed status of a resource. *)
Definition atProvider (cr : v1alpha1.Cluster) : v1alpha1.ClusterObservation :=
  v1alpha1.AtProvider (v1alpha1.Status cr).

(** The name holds no apostrophe. *)
Definition plain (name : string) : Prop :=
  strings.ContainsRune name "'"%char = false.

(* ------------------------------------------------------------------ *)
(** ** Vocabulary of the proofs                                        *)
(* ------------------------------------------------------------------ *)

Definition with_world (w : World) (m : Machine) : Machine :=
  {| world := w; self := self m; obj := obj m |}.

Definition with_dir (d : string) (m : Machine) : Machine :=
  {| world := world m;
     self := {| dir := d; env := env (self m);
                path := path (self m) |};
     obj := obj m |}.

(** The value of [PATH] in the environment of the process. *)
Definition PATH (w : World) : option string := os.lookup "PATH" (environ w).

(** The commands run between two worlds. *)
Definition ran (w w' : World) (new : list Invocation) : Prop :=
  calls w' = (calls w ++ new)%list.

(** What a client [c] may do to the process between two worlds: every
    variable but [PATH] keeps its value, [PATH] keeps its value or
    becomes the client's path, and it is the client's path as soon as a
    command has been run; every command run is [pcluster] with the
    client's environment. *)
Definition effect (c : external) (w w' : World) : Prop :=
  (forall k, k <> "PATH" -> os.lookup k (environ w') = os.lookup k (environ w))
  /\ (PATH w' = PATH w \/ PATH w' = Some (path c))
  /\ exists new,
       ran w w' new
       /\ (new <> [] -> PATH w' = Some (path c))
       /\ Forall (fun i => Cmd i = "pcluster" /\ Env i = env c) new.

(** Two states of a client that differ in the working directory only. *)
Definition same_client (c c' : external) : Prop :=
  env c' = env c /\ path c' = path c.

(** The configuration document of a resource and the file it goes to. *)
Definition configOf (cr : v1alpha1.Cluster) : string :=
  v1alpha1.ClusterConfiguration (v1alpha1.ForProvider (v1alpha1.Spec cr)).
Definition regionOf (cr : v1alpha1.Cluster) : string :=
  v1alpha1.Region (v1alpha1.ForProvider (v1alpha1.Spec cr)).
Definition configPath (d : string) : string := d ++ "/" ++ clusterConfigFileName.

(** A command of the tool as a client [c] issues it. *)
Definition pcluster (c : external) (d : string) (a : list string) : Invocation :=
  {| Cmd := "pcluster"; Args := a; Env := env c; Dir := d |}.

Section Outcomes.
Context {host : Host}.

(** The three ways [execute] ends when it is asked to run the command
    [a] from the machine [m]: the directory cannot be made; the
    directory is made and the file cannot be written; the file is
    written and the command is run in the directory. In the last two
    ways [os.RemoveAll] is called on the directory before [execute]
    returns, and what it returns is dropped. *)
Inductive Outcome (a : list string) (m : Machine)
  : string * option error -> Machine -> Prop :=
| NoDirectory e :
    createTempDir (v1alpha1.Name (obj m)) m
      = (("", Some e), with_world (world m) m) ->
    Spec.WorkspaceIOError e ->
    Outcome a m ("", Some e) (with_world (world m) m)
| NoFile d e m3 :
    fst (createTempDir (v1alpha1.Name (obj m)) m) = (d, None) ->
    d <> "" ->
    writeConfigToFile (configOf (obj m)) (configPath d)
      (with_dir d (snd (createTempDir (v1alpha1.Name (obj m)) m)))
      = (Some e, m3) ->
    Spec.WorkspaceIOError e ->
    self m3 = self (with_dir d m) ->
    obj m3 = obj m ->
    environ (world m3) = environ (world m) ->
    calls (world m3) = calls (world m) ->
    Outcome a m ("", Some e) (with_world (snd (os.RemoveAll d (world m3))) m3)
| Ran d m3 :
    fst (createTempDir (v1alpha1.Name (obj m)) m) = (d, None) ->
    d <> "" ->
    writeConfigToFile (configOf (obj m)) (configPath d)
      (with_dir d (snd (createTempDir (v1alpha1.Name (obj m)) m)))
      = (None, m3) ->
    self m3 = self (with_dir d m) ->
    obj m3 = obj m ->
    environ (world m3) = environ (world m) ->
    calls (world m3) = calls (world m) ->
    Outcome a m (fst (execPcluster a m3))
      (with_world (snd (os.RemoveAll d (world (snd (execPcluster a m3)))))
         (snd (execPcluster a m3))).

(** The ways the workspace of a resource named [name] with the
    configuration [document] cannot be made in the world [w], told by
    what the operating system answers, each with the error [execute]
    makes of it: [os.MkdirTemp] fails; the directory is made and
    [os.Create] of the configuration file fails; the file is created
    and the write fails. *)
Inductive WorkspaceFails (name document : string) (w : World) : error -> Prop :=
| MkdirFails x e w1 :
    os.MkdirTemp "" name w = ((x, Some e), w1) ->
    WorkspaceFails name document w (Errorf "failed to create tmp dir: " e)
| CreateFails d w1 e w2 :
    os.MkdirTemp "" name w = ((d, None), w1) ->
    os.Create (configPath d) w1 = (Some e, w2) ->
    WorkspaceFails name document w (Errorf "failed to create config file: " e)
| WriteFails d w1 w2 e w3 :
    os.MkdirTemp "" name w = ((d, None), w1) ->
    os.Create (configPath d) w1 = (None, w2) ->
    os.Write (configPath d) document w2 = (Some e, w3) ->
    WorkspaceFails name document w (Errorf "failed to write to config file: " e).

End Outcomes.

(** The status [Observe] reads from a decoded describe response. *)
Definition statusIn (d : DescribeClusterOutput) : PClusterStatus :=
  ClusterStatus (Describe_OutputCluster d).

(** The verdict of the probe that a classification stands for. *)
Definition verdict (c : Spec.ErrorClassification) : bool :=
  match c with Spec.UpToDate => true | _ => false end.

(** [setStatus]: the four lifecycle fields of [output] are the observed
    status of the resource [after]; nothing else of the resource has
    changed since [before]. *)
Definition written (output : OutputCluster) (before after : v1alpha1.Cluster)
  : Prop :=
  v1alpha1.ClusterStatus (atProvider after) = ClusterStatus output
  /\ v1alpha1.CloudformationStackArn (atProvider after)
     = CloudformationStackArn output
  /\ v1alpha1.Type_ (v1alpha1.Scheduler (atProvider after))
     = SchedulerType_type (Scheduler output)
  /\ v1alpha1.ClusterName (atProvider after) = ClusterName output
  /\ v1alpha1.LastUpdatedTime (atProvider after)
     = v1alpha1.LastUpdatedTime (atProvider before)
  /\ v1alpha1.Name after = v1alpha1.Name before
  /\ v1alpha1.Spec after = v1alpha1.Spec before
  /\ ready after = ready before.

(** The arguments of the dry run, as the probe passes them. *)
Definition dryrun_update_cluster (file name : string) : list string :=
  ["update-cluster"; "--dryrun"; "true"; "--cluster-name"; name;
   "--cluster-configuration"; file].

(** Further inputs, for the properties beyond the claims. *)
Module Cases.

(** A machine on which [Connect] is run in a process with a virtual
    environment. *)
Definition connectMachine : Machine :=
  {| world := Scenario.venvWorld; self := Scenario.client0;
     obj := Scenario.makeCluster |}.

(** The client [Connect] builds in the process of [Scenario.world0],
    which has no virtual environment, and a machine that uses it. *)
Definition plainClient : external :=
  {| dir := ""; env := ["PATH=/usr/bin"; "HOME=/root"]; path := "" |}.

Definition plainMachine : Machine :=
  {| world := Scenario.world0; self := plainClient; obj := Scenario.makeCluster |}.

(** The directory the scripted host makes for the cluster [test]. *)
Definition workspace : string := "/tmp/test2052571037".

(** A world with a directory and a file that belong to someone else. *)
Definition busyMachine : Machine :=
  {| world := {| environ := [("PATH", "/usr/bin")];
                 dirs := ["/tmp"; "/tmp/other"];
                 files := [("/tmp/other/cluster-config.yaml", "Region: eu")];
                 calls := [] |};
     self := Scenario.client0; obj := Scenario.makeCluster |}.

End Cases.

(* ------------------------------------------------------------------ *)
(** ** Proof steps                                                    *)
(* ------------------------------------------------------------------ *)

(** Unfolding of the state monad. *)
Ltac monad :=
  unfold defer, SetConditions, setStatus, CombinedOutput in *;
  unfold bind, ret, get_self, get_obj, set_self, set_obj, ask, sys in *.

Lemma lookup_update_other (k key v : string) (e : list (string * string)) :
  k <> key -> os.lookup k (os.update key v e) = os.lookup k e.
Proof.
  intros Hk. induction e as [|[a b] e IH]; simpl.
  - apply String.eqb_neq in Hk. rewrite String.eqb_sym. now rewrite Hk.
  - destruct (String.eqb a key) eqn:Ha; simpl.
    + apply String.eqb_eq in Ha. subst a.
      destruct (String.eqb key k) eqn:Hkk; [|reflexivity].
      apply String.eqb_eq in Hkk. congruence.
    + now rewrite IH.
Qed.

Lemma lookup_update_same (key v : string) (e : list (string * string)) :
  os.lookup key (os.update key v e) = Some v.
Proof.
  induction e as [|[a b] e IH]; simpl.
  - now rewrite String.eqb_refl.
  - destruct (String.eqb a key) eqn:Ha; simpl; rewrite Ha; [reflexivity | exact IH].
Qed.

(** [effect] is a preorder along a run of one client. *)
Lemma effect_refl (c : external) (w : World) : effect c w w.
Proof.
  repeat split; auto. exists []. unfold ran. rewrite app_nil_r.
  repeat split; auto; congruence.
Qed.

Lemma effect_trans (c : external) (w1 w2 w3 : World) :
  effect c w1 w2 -> effect c w2 w3 -> effect c w1 w3.
Proof.
  intros (E1 & P1 & n1 & R1 & N1 & F1) (E2 & P2 & n2 & R2 & N2 & F2).
  split; [|split].
  - intros k Hk. rewrite E2, E1; auto.
  - destruct P2 as [P2|P2]; [rewrite P2; exact P1 | now right].
  - exists (n1 ++ n2)%list. unfold ran in *. split; [|split].
    + rewrite R2, R1. now rewrite app_assoc.
    + intros Hne. destruct n2 as [|i n2].
      * rewrite app_nil_r in Hne. destruct P2 as [P2|P2]; [|exact P2].
        rewrite P2. auto.
      * apply N2. discriminate.
    + apply Forall_app. now split.
Qed.

(** Changes of the directories and files are no change of the process
    environment or of the log. *)
Lemma effect_disk (c : external) (w w' : World) :
  environ w' = environ w -> calls w' = calls w -> effect c w w'.
Proof.
  intros He Hc. unfold effect, PATH, ran. rewrite He, Hc.
  repeat split; auto. exists []. rewrite app_nil_r. repeat split; auto; congruence.
Qed.

Section Primitives.
Context {host : Host}.

Lemma Setenv_PATH (v : string) (w : World) :
  os.Setenv "PATH" v w =
    if strings.ContainsRune v os.NUL
    then (Some (New "setenv: invalid argument"), w)
    else (None, set_environ (os.update "PATH" v (environ w)) w).
Proof. reflexivity. Qed.

(** [execPcluster], step by step: the search path of the process is
    set first; if that is refused nothing is run; otherwise the command
    is run once with the client's environment and directory. *)
Lemma execPcluster_run (a : list string) (m : Machine) :
  execPcluster a m =
    if strings.ContainsRune (path (self m)) os.NUL
    then (("", Some (Errorf "failed to set PATH: "
                       (New "setenv: invalid argument"))), with_world (world m) m)
    else
      let w := set_environ (os.update "PATH" (path (self m))
                              (environ (world m))) (world m) in
      let i := pcluster (self m) (dir (self m)) a in
      (host_run w i, with_world (set_calls (calls w ++ [i]) w) m).
Proof.
  unfold execPcluster. monad. simpl. rewrite Setenv_PATH.
  destruct (strings.ContainsRune (path (self m)) os.NUL); reflexivity.
Qed.

Lemma execPcluster_keeps (a : list string) (m : Machine) :
  self (snd (execPcluster a m)) = self m
  /\ obj (snd (execPcluster a m)) = obj m
  /\ dirs (world (snd (execPcluster a m))) = dirs (world m)
  /\ files (world (snd (execPcluster a m))) = files (world m).
Proof.
  rewrite execPcluster_run.
  destruct (strings.ContainsRune (path (self m)) os.NUL); simpl; auto.
Qed.

Lemma execPcluster_effect (a : list string) (m : Machine) :
  effect (self m) (world m) (world (snd (execPcluster a m))).
Proof.
  rewrite execPcluster_run.
  destruct (strings.ContainsRune (path (self m)) os.NUL); simpl.
  - apply effect_refl.
  - split; [|split].
    + intros k Hk. simpl. now apply lookup_update_other.
    + right. unfold PATH. simpl. apply lookup_update_same.
    + eexists. split; [reflexivity|]. split.
      * intros _. unfold PATH. simpl. apply lookup_update_same.
      * repeat constructor.
Qed.

(** The commands [execPcluster] runs: none, or the one it was asked
    for. *)
Lemma execPcluster_ran (a : list string) (m : Machine) :
  ran (world m) (world (snd (execPcluster a m))) []
  \/ ran (world m) (world (snd (execPcluster a m)))
       [pcluster (self m) (dir (self m)) a].
Proof.
  rewrite execPcluster_run. unfold ran.
  destruct (strings.ContainsRune (path (self m)) os.NUL); simpl.
  - left. now rewrite app_nil_r.
  - right. reflexivity.
Qed.

(** [createTempDir], step by step. *)
Lemma createTempDir_run (prefix : string) (m : Machine) :
  createTempDir prefix m =
    match os.MkdirTemp "" prefix (world m) with
    | ((_, Some e), w) =>
        (("", Some (Errorf "failed to create tmp dir: " e)), with_world w m)
    | ((d, None), w) => ((d, None), with_world w m)
    end.
Proof.
  unfold createTempDir. monad.
  destruct (os.MkdirTemp "" prefix (world m)) as [[d [e|]] w]; reflexivity.
Qed.

(** The world after [os.MkdirTemp]: untouched when it fails, one more
    directory, with a name that is not empty, when it succeeds. *)
Lemma MkdirTemp_cases (d0 pattern : string) (w : World) :
  (exists e, os.MkdirTemp d0 pattern w = (("", Some e), w))
  \/ (exists d, os.MkdirTemp d0 pattern w = ((d, None), set_dirs (d :: dirs w) w)
                /\ d <> "").
Proof.
  unfold os.MkdirTemp.
  destruct (strings.ContainsRune pattern os.PathSeparator).
  { left. eauto. }
  destruct (match strings.cutLast pattern "*" with
            | Some ps => ps | None => (pattern, "") end) as [prefix suffix].
  match goal with |- context [host_mkdir w ?n] => set (name := n) end.
  destruct (host_mkdir w name) as [e|].
  - left. eauto.
  - right. exists name. split; [reflexivity|].
    subst name. unfold os.joinPath.
    set (d := if String.eqb d0 "" then os.TempDir w else d0).
    assert (Hd : d <> "").
    { subst d. destruct (String.eqb d0 "") eqn:E.
      - unfold os.TempDir. destruct (String.eqb (os.Getenv "TMPDIR" w) "") eqn:E'.
        + discriminate.
        + now apply String.eqb_neq.
      - now apply String.eqb_neq. }
    destruct d as [|x d]; [congruence|].
    destruct (os.lastByte (String x d)) as [c|]; [destruct (Ascii.eqb c os.PathSeparator)|];
      simpl; discriminate.
Qed.

(** [createTempDir] either fails with a workspace error and leaves the
    machine as it was, or returns a fresh entry of [dirs]. *)
Lemma createTempDir_cases (prefix : string) (m : Machine) :
  (exists e, createTempDir prefix m =
               (("", Some (Errorf "failed to create tmp dir: " e)),
                with_world (world m) m))
  \/ (exists d, createTempDir prefix m =
                  ((d, None), with_world (set_dirs (d :: dirs (world m)) (world m)) m)
                /\ d <> "").
Proof.
  rewrite createTempDir_run.
  destruct (MkdirTemp_cases "" prefix (world m)) as [[e H]|[d [H Hd]]]; rewrite H.
  - left. eauto.
  - right. eauto.
Qed.

(** A directory [createTempDir] returns is one [os.MkdirTemp] has
    made, and the other way round. *)
Lemma createTempDir_made (prefix : string) (m : Machine) (d : string) :
  fst (createTempDir prefix m) = (d, None)
  <-> exists w1, os.MkdirTemp "" prefix (world m) = ((d, None), w1).
Proof.
  rewrite createTempDir_run.
  destruct (os.MkdirTemp "" prefix (world m)) as [[x [e|]] w1]; cbn [fst]; split.
  - discriminate.
  - intros [w H]. discriminate.
  - intros [= ->]. now exists w1.
  - intros [w [= ->]]. reflexivity.
Qed.

(** [writeConfigToFile] either fails with a workspace error or
    succeeds; it changes the files only. *)
Lemma writeConfigToFile_cases (input path : string) (m : Machine) :
  exists fs,
    snd (writeConfigToFile input path m)
      = with_world (set_files fs (world m)) m
    /\ (fst (writeConfigToFile input path m) = None
        \/ exists e, fst (writeConfigToFile input path m) = Some e
                     /\ Spec.WorkspaceIOError e).
Proof.
  unfold writeConfigToFile. monad. unfold os.Create, os.Write.
  destruct (host_create (world m) path) as [e|]; simpl.
  - exists (files (world m)). split.
    + destruct m as [[] ? ?]; reflexivity.
    + right. eexists. split; [reflexivity|]. exists e. auto.
  - match goal with |- context [host_write ?w ?p ?i] =>
      destruct (host_write w p i) as [e|] end; simpl.
    + eexists. split; [reflexivity|].
      right. eexists. split; [reflexivity|]. exists e. auto.
    + eexists. split; [reflexivity|]. now left.
Qed.

(** [writeConfigToFile], step by step. *)
Lemma writeConfigToFile_run (input path : string) (m : Machine) :
  writeConfigToFile input path m =
    match os.Create path (world m) with
    | (Some e, w) =>
        (Some (Errorf "failed to create config file: " e), with_world w m)
    | (None, w) =>
        match os.Write path input w with
        | (Some e, w') =>
            (Some (Errorf "failed to write to config file: " e), with_world w' m)
        | (None, w') => (None, with_world w' m)
        end
    end.
Proof.
  unfold writeConfigToFile. monad.
  destruct (os.Create path (world m)) as [[e|] w]; [reflexivity|].
  cbn [world self obj].
  destruct (os.Write path input w) as [[e|] w']; reflexivity.
Qed.

(** [os.Create] and [os.Write] change the files only. *)
Lemma Create_keeps (p : string) (w : World) :
  environ (snd (os.Create p w)) = environ w
  /\ calls (snd (os.Create p w)) = calls w
  /\ dirs (snd (os.Create p w)) = dirs w.
Proof. unfold os.Create. destruct (host_create w p); auto. Qed.

Lemma Write_keeps (p data : string) (w : World) :
  environ (snd (os.Write p data w)) = environ w
  /\ calls (snd (os.Write p data w)) = calls w
  /\ dirs (snd (os.Write p data w)) = dirs w.
Proof. unfold os.Write. destruct (host_write w p data); auto. Qed.

End Primitives.

(* ------------------------------------------------------------------ *)
(** ** The error classifier                                            *)
(* ------------------------------------------------------------------ *)

Lemma HasPrefix_begins (s p : string) :
  strings.HasPrefix s p = true <-> Spec.begins s p.
Proof.
  unfold Spec.begins. revert s.
  induction p as [|c p IH]; intros s; simpl.
  - split; [intros _; now exists s | reflexivity].
  - destruct s as [|d s].
    + split; [discriminate | intros [rest H]; discriminate].
    + rewrite andb_true_iff, IH, Ascii.eqb_eq. split.
      * intros [-> [rest ->]]. now exists rest.
      * intros [rest H]. injection H as -> ->. split; [reflexivity | now exists rest].
Qed.

Lemma HasPrefix_not_begins (s p : string) :
  strings.HasPrefix s p = false <-> ~ Spec.begins s p.
Proof.
  rewrite <- HasPrefix_begins. destruct (strings.HasPrefix s p); split;
    congruence.
Qed.

Lemma HasPrefix_app (a s p : string) :
  strings.HasPrefix (a ++ s) (a ++ p) = strings.HasPrefix s p.
Proof.
  induction a as [|c a IH]; simpl; [reflexivity|].
  now rewrite Ascii.eqb_refl, IH.
Qed.

Lemma app_assoc_string (a b c : string) : (a ++ b) ++ c = a ++ b ++ c.
Proof. induction a as [|x a IH]; simpl; [reflexivity | now rewrite IH]. Qed.

(** Two apostrophe-free names followed by the same closing text: if one
    side is a prefix of the other, the names are equal. *)
Lemma plain_names_agree (x n tail rest : string) :
  plain x -> plain n ->
  strings.HasPrefix (x ++ String "'"%char tail ++ rest) (n ++ String "'"%char tail) = true ->
  x = n.
Proof.
  unfold plain. revert n.
  induction x as [|c x IH]; intros [|d n] Hx Hn H;
    cbn [strings.HasPrefix strings.ContainsRune append] in *.
  - reflexivity.
  - apply andb_true_iff in H as [H _]. apply Ascii.eqb_eq in H. subst d.
    rewrite Ascii.eqb_refl in Hn. discriminate.
  - apply andb_true_iff in H as [H _]. apply Ascii.eqb_eq in H. subst c.
    rewrite Ascii.eqb_refl in Hx. discriminate.
  - apply andb_true_iff in H as [Hc H]. apply Ascii.eqb_eq in Hc. subst d.
    apply orb_false_iff in Hx as [_ Hx]. apply orb_false_iff in Hn as [_ Hn].
    f_equal. now apply IH.
Qed.

Section Classifier.
Context {dec : Decoders}.

(** The classifier of [part_000] on a decoded message. *)
Lemma getErrorStatus_decoded (out name : string) (pErr : errorOutput) :
  json_Unmarshal out zeroError = (pErr, None) ->
  exists c,
    Spec.classify name (Message pErr) c
    /\ Part000.getErrorStatus out name = (Spec.errStatusOf c, None).
Proof.
  intros Hd. unfold Part000.getErrorStatus. rewrite Hd.
  fold (Spec.absence name).
  destruct (strings.HasPrefix (Message pErr) (Spec.absence name)) eqn:H1.
  { exists Spec.NotFound. split; [|reflexivity].
    apply Spec.rule1. now apply HasPrefix_begins. }
  apply HasPrefix_not_begins in H1.
  destruct (String.eqb (Message pErr) Part000.errPclusterCliNoChange) eqn:H2.
  { exists Spec.UpToDate. split; [|reflexivity].
    apply Spec.rule2; [assumption|]. left. now apply String.eqb_eq. }
  destruct (strings.HasPrefix (Message pErr) Part000.errPClusterCliInProgress) eqn:H3.
  { exists Spec.UpToDate. split; [|reflexivity].
    apply Spec.rule2; [assumption|]. right. now apply HasPrefix_begins. }
  apply String.eqb_neq in H2. apply HasPrefix_not_begins in H3.
  assert (H23 : ~ (Message pErr = Part000.errPclusterCliNoChange
                   \/ Spec.begins (Message pErr) Part000.errPClusterCliInProgress))
    by tauto.
  simpl orb.
  destruct (String.eqb (Message pErr) Part000.errPClusterCliDryRun) eqn:H4.
  { exists Spec.NotUpToDate. split; [|reflexivity].
    apply Spec.rule3; auto. now apply String.eqb_eq. }
  exists Spec.EmptyOrUnclassified. split; [|reflexivity].
  apply Spec.rule4; auto. now apply String.eqb_neq.
Qed.

(** The rules of §4.4 exclude one another: a message has one class. *)
Lemma classify_functional (name msg : string) (c1 c2 : Spec.ErrorClassification) :
  Spec.classify name msg c1 -> Spec.classify name msg c2 -> c1 = c2.
Proof.
  intros H1 H2. destruct H1; destruct H2; try reflexivity; tauto.
Qed.

(** C4. [getErrorStatus] of [part_000] decodes the output as an object
    with the key [message]; when the decoding fails it returns the
    decoder's error (and the empty status); otherwise it returns,
    without error, the classification that the four rules of §4.4
    select in their priority order: absence of this cluster, then
    no-changes or update-in-progress, then dry-run-would-succeed, then
    the default. *)
Theorem C4_getErrorStatus_priority (out name : string) :
  match json_Unmarshal out zeroError with
  | (_, Some e) => Part000.getErrorStatus out name = ("", Some e)
  | (pErr, None) =>
      exists c,
        Spec.classify name (Message pErr) c
        /\ (forall c', Spec.classify name (Message pErr) c' -> c' = c)
        /\ Part000.getErrorStatus out name = (Spec.errStatusOf c, None)
  end.
Proof.
  destruct (json_Unmarshal out zeroError) as [pErr [e|]] eqn:Hd.
  - unfold Part000.getErrorStatus. now rewrite Hd.
  - destruct (getErrorStatus_decoded out name pErr Hd) as [c [Hc Hs]].
    exists c. split; [assumption|]. split; [|assumption].
    intros c' Hc'. eapply classify_functional; eassumption.
Qed.

End Classifier.

(* ------------------------------------------------------------------ *)
(** ** The workspace                                                   *)
(* ------------------------------------------------------------------ *)

Section Removal.
Context {host : Host}.

(** When the host lets the directory go, it is gone with everything
    below it. *)
Lemma RemoveAll_gone (d : string) (w : World) :
  d <> "" ->
  host_remove w d = None ->
  ~ In d (dirs (snd (os.RemoveAll d w)))
  /\ (forall p, In p (dirs (snd (os.RemoveAll d w))) -> os.within d p = false)
  /\ (forall f, In f (files (snd (os.RemoveAll d w))) -> os.within d (fst f) = false).
Proof.
  intros Hd Hr. unfold os.RemoveAll.
  apply String.eqb_neq in Hd. rewrite Hd, Hr. cbn [snd dirs files set_files set_dirs].
  assert (Hp : forall p, In p (filter (fun p => negb (os.within d p) || false) (dirs w)) ->
                         os.within d p = false).
  { intros p Hin. apply filter_In in Hin as [_ H]. rewrite orb_false_r in H.
    now apply negb_true_iff in H. }
  split; [|split].
  - intros Hin. apply Hp in Hin. unfold os.within in Hin.
    now rewrite String.eqb_refl in Hin.
  - exact Hp.
  - intros f Hin. apply filter_In in Hin as [_ H]. rewrite orb_false_r in H.
    now apply negb_true_iff in H.
Qed.

(** Whatever the host answers, [os.RemoveAll] adds nothing and touches
    nothing outside the directory. *)
Lemma RemoveAll_frame (d : string) (w : World) :
  (forall p, In p (dirs (snd (os.RemoveAll d w))) -> In p (dirs w))
  /\ (forall f, In f (files (snd (os.RemoveAll d w))) -> In f (files w))
  /\ (forall p, In p (dirs w) -> os.within d p = false ->
                In p (dirs (snd (os.RemoveAll d w))))
  /\ (forall f, In f (files w) -> os.within d (fst f) = false ->
                In f (files (snd (os.RemoveAll d w)))).
Proof.
  unfold os.RemoveAll. destruct (String.eqb d ""); cbn [snd]; [auto|].
  cbn [dirs files set_files set_dirs]. repeat split.
  - intros p Hp. now apply filter_In in Hp.
  - intros f Hf. now apply filter_In in Hf.
  - intros p Hp Hn. apply filter_In. split; [assumption|]. now rewrite Hn.
  - intros f Hf Hn. apply filter_In. split; [assumption|]. now rewrite Hn.
Qed.

(** When the host holds everything back, nothing is removed. *)
Lemma RemoveAll_stuck (d : string) (w : World) (e : error) :
  host_remove w d = Some e ->
  (forall p, host_stuck w d p = true) ->
  fst (os.RemoveAll d w) = (if String.eqb d "" then None else Some e)
  /\ (forall p, In p (dirs w) -> In p (dirs (snd (os.RemoveAll d w))))
  /\ (forall f, In f (files w) -> In f (files (snd (os.RemoveAll d w)))).
Proof.
  intros Hr Hs. unfold os.RemoveAll. destruct (String.eqb d ""); cbn [fst snd]; [auto|].
  rewrite Hr. cbn [dirs files set_files set_dirs]. repeat split.
  - intros p Hp. apply filter_In. split; [assumption|]. rewrite Hs. apply orb_true_r.
  - intros f Hf. apply filter_In. split; [assumption|]. rewrite Hs. apply orb_true_r.
Qed.

Lemma RemoveAll_keeps (d : string) (w : World) :
  environ (snd (os.RemoveAll d w)) = environ w
  /\ calls (snd (os.RemoveAll d w)) = calls w.
Proof. unfold os.RemoveAll. destruct (String.eqb d ""); auto. Qed.

Lemma RemoveAll_effect (c : external) (d : string) (w : World) :
  effect c w (snd (os.RemoveAll d w)).
Proof. apply effect_disk; apply RemoveAll_keeps. Qed.

End Removal.

Section Workspace.
Context {host : Host} {dec : Decoders}.

(** [execute] of [part_000], step by step. *)
Lemma execute_run (a : list string) (m : Machine) :
  Part000.execute a m =
    let '((d, err), m1) := createTempDir (v1alpha1.Name (obj m)) m in
    match err with
    | Some e => (("", Some e), m1)
    | None =>
        let '(werr, m3) :=
          writeConfigToFile (configOf (obj m)) (configPath d) (with_dir d m1) in
        let '(r, m4) :=
          match werr with
          | Some e => (("", Some e), m3)
          | None => execPcluster a m3
          end in
        (r, with_world (snd (os.RemoveAll d (world m4))) m4)
    end.
Proof.
  unfold Part000.execute. monad. cbn beta iota.
  destruct (createTempDir (v1alpha1.Name (obj m)) m) as [[d [e|]] m1];
    [reflexivity|].
  unfold configOf, configPath, with_dir. cbn [world self obj].
  match goal with |- context [writeConfigToFile ?i ?p ?x] =>
    destruct (writeConfigToFile i p x) as [[e|] m3] end.
  - destruct (os.RemoveAll d (world m3)). reflexivity.
  - destruct (execPcluster a m3) as [r m4].
    destruct (os.RemoveAll d (world m4)). reflexivity.
Qed.

Lemma execute_outcome (a : list string) (m : Machine) :
  Outcome a m (fst (Part000.execute a m)) (snd (Part000.execute a m)).
Proof.
  rewrite execute_run.
  destruct (createTempDir_cases (v1alpha1.Name (obj m)) m)
    as [[e H]|[d [H Hd]]].
  - rewrite H. cbn [fst snd]. apply NoDirectory; [assumption|].
    exists e. auto.
  - rewrite H.
    set (m1 := with_world (set_dirs (d :: dirs (world m)) (world m)) m).
    destruct (writeConfigToFile_cases (configOf (obj m)) (configPath d)
                (with_dir d m1)) as [fs [Hs Hr]].
    destruct (writeConfigToFile (configOf (obj m)) (configPath d) (with_dir d m1))
      as [werr m3] eqn:Hw.
    cbn [fst snd] in Hs, Hr.
    destruct Hr as [->|[e [-> He]]].
    + destruct (execPcluster a m3) as [r m4] eqn:Hx. cbn [fst snd].
      replace r with (fst (execPcluster a m3)) by now rewrite Hx.
      replace m4 with (snd (execPcluster a m3)) by now rewrite Hx.
      eapply Ran with (d := d); try rewrite H; try reflexivity; try assumption;
        subst m3; reflexivity.
    + cbn [fst snd]. eapply NoFile with (d := d); try rewrite H;
        try reflexivity; try assumption; subst m3; reflexivity.
Qed.


(** [execute] leaves the resource alone and changes the working
    directory of the client only. *)
Lemma execute_keeps (a : list string) (m : Machine) :
  obj (snd (Part000.execute a m)) = obj m
  /\ same_client (self m) (self (snd (Part000.execute a m))).
Proof.
  destruct (execute_outcome a m) as [e H He|d e m3 H Hd Hw He Hs Ho _ _
                                    |d m3 H Hd Hw Hs Ho _ _]; cbn [obj self with_world].
  - split; [reflexivity | split; reflexivity].
  - rewrite Ho, Hs. split; [reflexivity | split; reflexivity].
  - destruct (execPcluster_keeps a m3) as (Ks & Ko & _).
    rewrite Ko, Ks, Ho, Hs. split; [reflexivity | split; reflexivity].
Qed.

Lemma execute_effect (a : list string) (m : Machine) :
  effect (self m) (world m) (world (snd (Part000.execute a m))).
Proof.
  destruct (execute_outcome a m) as [e H He|d e m3 H Hd Hw He Hs Ho Henv Hc
                                    |d m3 H Hd Hw Hs Ho Henv Hc]; cbn [world with_world].
  - apply effect_refl.
  - eapply effect_trans; [|apply RemoveAll_effect]. now apply effect_disk.
  - eapply effect_trans; [|apply RemoveAll_effect].
    eapply effect_trans; [apply effect_disk; eassumption|].
    pose proof (execPcluster_effect a m3) as E. rewrite Hs in E.
    exact E.
Qed.

(** The commands [execute] runs: none, or the one it was asked for, in
    the directory it has made. *)
Lemma execute_ran (a : list string) (m : Machine) :
  ran (world m) (world (snd (Part000.execute a m))) []
  \/ exists d,
       fst (createTempDir (v1alpha1.Name (obj m)) m) = (d, None)
       /\ ran (world m) (world (snd (Part000.execute a m)))
            [pcluster (self m) d a].
Proof.
  unfold ran.
  destruct (execute_outcome a m) as [e H He|d e m3 H Hd Hw He Hs Ho Henv Hc
                                    |d m3 H Hd Hw Hs Ho Henv Hc]; cbn [world with_world].
  - left. now rewrite app_nil_r.
  - left. destruct (RemoveAll_keeps d (world m3)) as [_ ->].
    now rewrite Hc, app_nil_r.
  - destruct (RemoveAll_keeps d (world (snd (execPcluster a m3)))) as [_ ->].
    destruct (execPcluster_ran a m3) as [R|R]; unfold ran in R; rewrite R, Hc.
    + left. reflexivity.
    + right. exists d. split; [assumption|]. rewrite Hs. reflexivity.
Qed.

(** Each way the workspace cannot be made is a workspace error. *)
Lemma WorkspaceFails_error (name document : string) (w : World) (e : error) :
  WorkspaceFails name document w e -> Spec.WorkspaceIOError e.
Proof. intros [x c w1 _|d w1 c w2 _ _|d w1 w2 c w3 _ _ _]; exists c; auto. Qed.

(** When the workspace cannot be made, [execute] returns the workspace
    error as it is, and no command is run. *)
Lemma execute_no_workspace (a : list string) (m : Machine) (e : error) :
  WorkspaceFails (v1alpha1.Name (obj m)) (configOf (obj m)) (world m) e ->
  fst (Part000.execute a m) = ("", Some e)
  /\ calls (world (snd (Part000.execute a m))) = calls (world m).
Proof.
  intros [x c w1 H|d w1 c w2 H Hc|d w1 w2 c w3 H Hc Hw];
    rewrite execute_run, createTempDir_run, H;
    destruct (MkdirTemp_cases "" (v1alpha1.Name (obj m)) (world m))
      as [[e0 H0]|[d0 [H0 _]]];
    rewrite H0 in H; try discriminate;
    [injection H as <- <- <- | injection H as <- <- ..].
  - split; reflexivity.
  - rewrite writeConfigToFile_run. cbn [world with_dir with_world]. rewrite Hc.
    cbn [fst snd world with_world]. split; [reflexivity|].
    destruct (RemoveAll_keeps d0 w2) as [_ ->].
    replace w2 with (snd (os.Create (configPath d0)
                            (set_dirs (d0 :: dirs (world m)) (world m))))
      by now rewrite Hc.
    now destruct (Create_keeps (configPath d0)
                    (set_dirs (d0 :: dirs (world m)) (world m))) as (_ & -> & _).
  - rewrite writeConfigToFile_run. cbn [world with_dir with_world]. rewrite Hc, Hw.
    cbn [fst snd world with_world]. split; [reflexivity|].
    destruct (RemoveAll_keeps d0 w3) as [_ ->].
    replace w3 with (snd (os.Write (configPath d0) (configOf (obj m)) w2))
      by now rewrite Hw.
    destruct (Write_keeps (configPath d0) (configOf (obj m)) w2) as (_ & -> & _).
    replace w2 with (snd (os.Create (configPath d0)
                            (set_dirs (d0 :: dirs (world m)) (world m))))
      by now rewrite Hc.
    now destruct (Create_keeps (configPath d0)
                    (set_dirs (d0 :: dirs (world m)) (world m))) as (_ & -> & _).
Qed.

(** Once [os.MkdirTemp] has made the directory, whatever happens next,
    the world [execute] leaves is the one [os.RemoveAll] of that
    directory leaves, called in a world in which the directory exists;
    the directory is gone, with everything below it, when the host lets
    it go. *)
Lemma execute_removes (a : list string) (m : Machine) (d : string) (w1 : World) :
  os.MkdirTemp "" (v1alpha1.Name (obj m)) (world m) = ((d, None), w1) ->
  d <> ""
  /\ exists w,
       In d (dirs w)
       /\ world (snd (Part000.execute a m)) = snd (os.RemoveAll d w)
       /\ (host_remove w d = None ->
           ~ In d (dirs (world (snd (Part000.execute a m))))
           /\ (forall p, In p (dirs (world (snd (Part000.execute a m)))) ->
                         os.within d p = false)
           /\ (forall f, In f (files (world (snd (Part000.execute a m)))) ->
                         os.within d (fst f) = false)).
Proof.
  intros H.
  destruct (MkdirTemp_cases "" (v1alpha1.Name (obj m)) (world m))
    as [[e0 H0]|[d0 [H0 Hd]]];
    rewrite H0 in H; [discriminate|]. injection H as <- <-.
  split; [assumption|].
  rewrite execute_run, createTempDir_run, H0.
  set (m1 := with_dir d0 (with_world (set_dirs (d0 :: dirs (world m)) (world m)) m)).
  destruct (writeConfigToFile_cases (configOf (obj m)) (configPath d0) m1)
    as [fs [Hs _]].
  destruct (writeConfigToFile (configOf (obj m)) (configPath d0) m1)
    as [[e|] m3]; cbn [fst snd] in Hs.
  - exists (world m3). cbn [snd world with_world].
    split; [subst m3; simpl; now left|]. split; [reflexivity|].
    intros Hr. now apply RemoveAll_gone.
  - destruct (execPcluster_keeps a m3) as (_ & _ & Kd & _).
    destruct (execPcluster a m3) as [r m4]. cbn [fst snd] in *.
    exists (world m4). cbn [world with_world].
    split; [rewrite Kd; subst m3; simpl; now left|]. split; [reflexivity|].
    intros Hr. now apply RemoveAll_gone.
Qed.

End Workspace.

(* ------------------------------------------------------------------ *)
(** ** The operations, step by step                                    *)
(* ------------------------------------------------------------------ *)

Lemma nonempty_length (s : string) :
  (0 <? String.length s)%nat = negb (String.eqb s "").
Proof. destruct s; reflexivity. Qed.

Lemma errStatusOf_NotFound (c : Spec.ErrorClassification) :
  String.eqb (Spec.errStatusOf c) errStatusNotFound = true <-> c = Spec.NotFound.
Proof. destruct c; simpl; split; intros H; try reflexivity; discriminate. Qed.

Lemma errStatusOf_UpToDate (c : Spec.ErrorClassification) :
  String.eqb (Spec.errStatusOf c) Part000.errStatusUpToDate
  = verdict c.
Proof. destruct c; reflexivity. Qed.

Section Operations.
Context {host : Host} {dec : Decoders}.

(** The probe is one [execute] of the dry run, followed by a reading of
    what it returned. *)
Lemma isUpToDate_run (m : Machine) :
  Part000.isUpToDate m =
    let '((output, err), m') :=
      Part000.execute (Part000.dryrunArgs (obj m)) m in
    (if isErr err && negb (String.eqb output "")
     then match Part000.getErrorStatus output (v1alpha1.Name (obj m)) with
          | (_, Some e) => (false, Some e)
          | (status, None) =>
              (String.eqb status Part000.errStatusUpToDate, None)
          end
     else (false, err),
     m').
Proof.
  unfold Part000.isUpToDate. monad. cbn beta iota.
  destruct (Part000.execute (Part000.dryrunArgs (obj m)) m) as [[out err] m'].
  rewrite nonempty_length.
  destruct (isErr err && negb (String.eqb out "")); [|reflexivity].
  destruct (Part000.getErrorStatus out (v1alpha1.Name (obj m))) as [st [e|]];
    [reflexivity|].
  destruct (String.eqb st Part000.errStatusUpToDate); reflexivity.
Qed.

Lemma isUpToDate_state (m : Machine) :
  snd (Part000.isUpToDate m)
  = snd (Part000.execute (Part000.dryrunArgs (obj m)) m).
Proof.
  rewrite isUpToDate_run.
  destruct (Part000.execute (Part000.dryrunArgs (obj m)) m) as [[out err] m'].
  reflexivity.
Qed.

Lemma Create_world (m : Machine) :
  world (snd (Part000.Create ClusterKind m))
  = world (snd (Part000.execute (Part000.createArgs (obj m)) m))
  /\ self (snd (Part000.Create ClusterKind m))
     = self (snd (Part000.execute (Part000.createArgs (obj m)) m)).
Proof.
  unfold Part000.Create. monad. cbn beta iota.
  destruct (Part000.execute (Part000.createArgs (obj m)) m) as [[out [e|]] m'];
    [split; reflexivity|].
  destruct (json_Unmarshal out zeroCreate) as [co [e|]]; split; reflexivity.
Qed.

Lemma Update_state (m : Machine) :
  snd (Part000.Update ClusterKind m)
  = snd (Part000.execute (Part000.updateArgs (obj m)) m).
Proof.
  unfold Part000.Update. monad. cbn beta iota.
  destruct (Part000.execute (Part000.updateArgs (obj m)) m) as [[out [e|]] m'];
    [reflexivity|].
  destruct (json_Unmarshal out zeroUpdate) as [co [e|]]; reflexivity.
Qed.

Lemma Delete_state (m : Machine) :
  snd (Part000.Delete ClusterKind m)
  = snd (Part000.execute (Part000.deleteArgs (obj m)) m).
Proof.
  unfold Part000.Delete. monad. cbn beta iota.
  destruct (Part000.execute (Part000.deleteArgs (obj m)) m) as [[out [e|]] m'];
    [reflexivity|].
  destruct (json_Unmarshal out zeroDelete) as [co [e|]]; reflexivity.
Qed.

(** [Observe] when the describe command fails. *)
Lemma Observe_describe_failed (m : Machine) (out : string) (e : error) :
  fst (execPcluster (Spec.describe_cluster (v1alpha1.Name (obj m))) m)
    = (out, Some e) ->
  Part000.Observe ClusterKind m =
    (if String.eqb (fst (Part000.getErrorStatus out (v1alpha1.Name (obj m))))
                   errStatusNotFound
     then ({| managed.ResourceExists := false;
              managed.ResourceUpToDate := false |}, None)
     else (managed.zero,
           Some (Errorf ("failed to run pcluster command: " ++ out ++ " ") e)),
     snd (execPcluster (Spec.describe_cluster (v1alpha1.Name (obj m))) m)).
Proof.
  intros H. unfold Part000.Observe. monad. cbn beta iota.
  unfold Spec.describe_cluster in *.
  destruct (execPcluster _ m) as [[out' err] m1]. cbn [fst snd] in *.
  injection H as -> ->.
  destruct (Part000.getErrorStatus out (v1alpha1.Name (obj m))) as [st se].
  cbn [fst]. destruct (String.eqb st errStatusNotFound); reflexivity.
Qed.

(** [Observe] when the describe response does not decode. *)
Lemma Observe_describe_malformed (m : Machine) (out : string)
      (d : DescribeClusterOutput) (e : error) :
  fst (execPcluster (Spec.describe_cluster (v1alpha1.Name (obj m))) m)
    = (out, None) ->
  unmarshalDescribe out = (d, Some e) ->
  Part000.Observe ClusterKind m =
    ((managed.zero, Some (Errorf "failed to unmarshal describe response: " e)),
     snd (execPcluster (Spec.describe_cluster (v1alpha1.Name (obj m))) m)).
Proof.
  intros H Hd. unfold Part000.Observe. monad. cbn beta iota.
  unfold Spec.describe_cluster in *.
  destruct (execPcluster _ m) as [[out' err] m1]. cbn [fst snd] in *.
  injection H as -> ->. rewrite Hd. reflexivity.
Qed.

(** [Observe] when the describe response decodes: the probe runs next,
    whatever the status; its failure is returned; its verdict becomes
    the up-to-date flag of the observation. *)
Lemma Observe_decoded (m : Machine) (out : string) (d : DescribeClusterOutput) :
  fst (execPcluster (Spec.describe_cluster (v1alpha1.Name (obj m))) m)
    = (out, None) ->
  unmarshalDescribe out = (d, None) ->
  let m1 := snd (execPcluster (Spec.describe_cluster (v1alpha1.Name (obj m))) m) in
  world (snd (Part000.Observe ClusterKind m)) = world (snd (Part000.isUpToDate m1))
  /\ self (snd (Part000.Observe ClusterKind m)) = self (snd (Part000.isUpToDate m1))
  /\ match fst (Part000.isUpToDate m1) with
     | (_, Some e) =>
         fst (Part000.Observe ClusterKind m)
         = (managed.zero,
            Some (Errorf "could not determine if resource is up-to-date: " e))
         /\ obj (snd (Part000.Observe ClusterKind m)) = obj m
     | (b, None) =>
         exists ex,
           fst (Part000.Observe ClusterKind m)
           = ({| managed.ResourceExists := ex;
                 managed.ResourceUpToDate := b |}, None)
           /\ (oneOf (statusIn d)
                 [CreateInProgress; UpdateInProgress; DeleteInProgress] = true ->
               ex = true
               /\ ready (obj (snd (Part000.Observe ClusterKind m))) = ready (obj m))
           /\ (oneOf (statusIn d)
                 [CreateInProgress; UpdateInProgress; DeleteInProgress] = false ->
               oneOf (statusIn d) [CreateComplete; UpdateComplete] = true ->
               ex = true
               /\ ready (obj (snd (Part000.Observe ClusterKind m)))
                  = Some xpv1.Available)
           /\ (oneOf (statusIn d)
                 [CreateInProgress; UpdateInProgress; DeleteInProgress] = false ->
               oneOf (statusIn d) [CreateComplete; UpdateComplete] = false ->
               oneOf (statusIn d) [CreateFailed; DeleteComplete] = true ->
               ex = false
               /\ ready (obj (snd (Part000.Observe ClusterKind m))) = ready (obj m))
           /\ (oneOf (statusIn d)
                 [CreateInProgress; UpdateInProgress; DeleteInProgress] = false ->
               oneOf (statusIn d) [CreateComplete; UpdateComplete] = false ->
               oneOf (statusIn d) [CreateFailed; DeleteComplete] = false ->
               oneOf (statusIn d) [UpdateFailed; DeleteFailed] = true ->
               ex = true
               /\ ready (obj (snd (Part000.Observe ClusterKind m)))
                  = Some xpv1.Unavailable)
     end.
Proof.
  intros H Hd m1. subst m1.
  pose proof (execPcluster_keeps
                (Spec.describe_cluster (v1alpha1.Name (obj m))) m) as (_ & Ko & _).
  unfold Part000.Observe. monad. cbn beta iota.
  unfold Spec.describe_cluster in *.
  destruct (execPcluster _ m) as [[out' err] m1]. cbn [fst snd] in *.
  injection H as -> ->. rewrite Hd.
  pose proof (isUpToDate_state m1) as Hs.
  pose proof (execute_keeps (Part000.dryrunArgs (obj m1)) m1) as [Eo _].
  rewrite <- Hs in Eo.
  destruct (Part000.isUpToDate m1) as [[b [e|]] m2]; cbn [fst snd] in *.
  { repeat split; congruence. }
  fold (statusIn d). unfold ready.
  destruct (oneOf (statusIn d) [CreateInProgress; UpdateInProgress; DeleteInProgress]);
    [|destruct (oneOf (statusIn d) [CreateComplete; UpdateComplete]);
      [|destruct (oneOf (statusIn d) [CreateFailed; DeleteComplete]);
        [|destruct (oneOf (statusIn d) [UpdateFailed; DeleteFailed])]]];
    cbn [fst snd world self obj v1alpha1.SetConditions v1alpha1.Status
           v1alpha1.ResourceStatus xpv1.Ready];
    (split; [reflexivity|]); (split; [reflexivity|]);
    eexists; (split; [reflexivity|]);
    repeat split; try discriminate; try reflexivity; congruence.
Qed.

End Operations.

(* ------------------------------------------------------------------ *)
(** ** The claims                                                      *)
(* ------------------------------------------------------------------ *)

Lemma text_cases (s : Spec.RemoteLifecycleStatus) :
  match Spec.table_available s with
  | Spec.Unchanged =>
      oneOf (Spec.text s) [CreateInProgress; UpdateInProgress; DeleteInProgress] = true
  | Spec.Becomes true =>
      oneOf (Spec.text s) [CreateInProgress; UpdateInProgress; DeleteInProgress] = false
      /\ oneOf (Spec.text s) [CreateComplete; UpdateComplete] = true
  | Spec.NoEntry =>
      oneOf (Spec.text s) [CreateInProgress; UpdateInProgress; DeleteInProgress] = false
      /\ oneOf (Spec.text s) [CreateComplete; UpdateComplete] = false
      /\ oneOf (Spec.text s) [CreateFailed; DeleteComplete] = true
  | Spec.Becomes false =>
      oneOf (Spec.text s) [CreateInProgress; UpdateInProgress; DeleteInProgress] = false
      /\ oneOf (Spec.text s) [CreateComplete; UpdateComplete] = false
      /\ oneOf (Spec.text s) [CreateFailed; DeleteComplete] = false
      /\ oneOf (Spec.text s) [UpdateFailed; DeleteFailed] = true
  end.
Proof. destruct s; cbv; auto. Qed.

Section Observing.
Context {host : Host} {dec : Decoders}.

(** C1 (as amended). In [Observe] of [part_000], for every describe
    response that decodes and carries one of the nine statuses, and
    for which the probe that [Observe] then runs returns a verdict,
    the observation is returned without error and follows the table of
    §4.5: the three in-progress statuses give exists = true and leave
    the Ready condition as it was; CreateComplete and UpdateComplete
    give exists = true and Ready = Available; CreateFailed and
    DeleteComplete give exists = false; UpdateFailed and DeleteFailed
    give exists = true and Ready = Unavailable. *)
Theorem C1_Observe_follows_table
        (m : Machine) (out : string) (d : DescribeClusterOutput)
        (s : Spec.RemoteLifecycleStatus) (b : bool) :
  fst (execPcluster (Spec.describe_cluster (v1alpha1.Name (obj m))) m)
    = (out, None) ->
  unmarshalDescribe out = (d, None) ->
  statusIn d = Spec.text s ->
  fst (Part000.isUpToDate
         (snd (execPcluster (Spec.describe_cluster (v1alpha1.Name (obj m))) m)))
    = (b, None) ->
  exists eo,
    fst (Part000.Observe ClusterKind m) = (eo, None)
    /\ managed.ResourceExists eo = Spec.table_exists s
    /\ Spec.agrees (Spec.table_available s)
         (ready (obj m)) (ready (obj (snd (Part000.Observe ClusterKind m)))).
Proof.
  intros Hx Hd Hs Hp.
  destruct (Observe_decoded m out d Hx Hd) as (_ & _ & H).
  rewrite Hp in H. destruct H as (ex & Ho & H1 & H2 & H3 & H4).
  exists {| managed.ResourceExists := ex; managed.ResourceUpToDate := b |}.
  split; [exact Ho|]. cbn [managed.ResourceExists].
  rewrite Hs in H1, H2, H3, H4.
  pose proof (text_cases s) as T.
  destruct s; cbn [Spec.table_available Spec.table_exists Spec.agrees] in *;
    first [ destruct (H1 T) as [-> ->]; now split
          | destruct T as (T1 & T2); destruct (H2 T1 T2) as [-> ->]; now split
          | destruct T as (T1 & T2 & T3); destruct (H3 T1 T2 T3) as [-> _]; now split
          | destruct T as (T1 & T2 & T3 & T4);
            destruct (H4 T1 T2 T3 T4) as [-> ->]; now split ].
Qed.

(** The earlier revision, [cluster.go], sets the Ready condition to
    Unavailable before it looks at the status: for the three
    in-progress statuses, which the table of §4.5 leaves unchanged, the
    resource comes out unavailable. *)
Lemma ClusterGo_Observe_in_progress
      (m : Machine) (out : string) (d : DescribeClusterOutput)
      (s : Spec.RemoteLifecycleStatus) :
  fst (execPcluster (Spec.describe_cluster (v1alpha1.Name (obj m))) m)
    = (out, None) ->
  unmarshalDescribe out = (d, None) ->
  statusIn d = Spec.text s ->
  Spec.table_available s = Spec.Unchanged ->
  fst (ClusterGo.Observe ClusterKind m)
  = ({| managed.ResourceExists := true; managed.ResourceUpToDate := true |}, None)
  /\ ready (obj (snd (ClusterGo.Observe ClusterKind m))) = Some xpv1.Unavailable.
Proof.
  intros Hx Hd Hs Ht.
  unfold ClusterGo.Observe. monad. cbn beta iota.
  unfold Spec.describe_cluster in Hx.
  destruct (execPcluster _ m) as [[out' err] m1]. cbn [fst snd] in *.
  injection Hx as -> ->. rewrite Hd. fold (statusIn d). rewrite Hs.
  destruct s; try discriminate Ht; split; reflexivity.
Qed.

(** C2 (as amended). The probe of [part_000] reads the result of the
    dry run as follows. With a non-zero exit and a payload that is not
    empty: a payload that decodes gives upToDate = true when its
    message is classified UpToDate and upToDate = false, without
    error, for every other classification (NotUpToDate, NotFound,
    EmptyOrUnclassified); a payload that does not decode returns the
    decoder's error. A zero exit gives upToDate = false without error.
    A non-zero exit with an empty payload returns the error of the
    dry run. *)
Theorem C2_isUpToDate_verdicts (m : Machine) (out : string) (err : option error) :
  fst (Part000.execute (Part000.dryrunArgs (obj m)) m) = (out, err) ->
  (forall e pErr c,
      err = Some e -> out <> "" ->
      json_Unmarshal out zeroError = (pErr, None) ->
      Spec.classify (v1alpha1.Name (obj m)) (Message pErr) c ->
      fst (Part000.isUpToDate m) = (verdict c, None))
  /\ (forall e pErr de,
        err = Some e -> out <> "" ->
        json_Unmarshal out zeroError = (pErr, Some de) ->
        fst (Part000.isUpToDate m) = (false, Some de))
  /\ (err = None -> fst (Part000.isUpToDate m) = (false, None))
  /\ (forall e,
        err = Some e -> out = "" ->
        fst (Part000.isUpToDate m) = (false, Some e)).
Proof.
  intros Hx. rewrite isUpToDate_run.
  destruct (Part000.execute (Part000.dryrunArgs (obj m)) m) as [[out' err'] m'].
  cbn [fst] in *. injection Hx as -> ->.
  repeat split.
  - intros e pErr c -> Hne Hd Hc.
    apply String.eqb_neq in Hne. rewrite Hne. cbn [isErr negb andb].
    destruct (getErrorStatus_decoded out (v1alpha1.Name (obj m)) pErr Hd)
      as (c' & Hc' & ->).
    rewrite (classify_functional _ _ _ _ Hc Hc').
    now rewrite errStatusOf_UpToDate.
  - intros e pErr de -> Hne Hd.
    apply String.eqb_neq in Hne. rewrite Hne. cbn [isErr negb andb].
    unfold Part000.getErrorStatus. now rewrite Hd.
  - intros ->. reflexivity.
  - intros e -> ->. reflexivity.
Qed.

(** C3 (as amended). [Observe] of [part_000] runs the probe exactly
    when the describe response decodes, whatever status it carries:
    after a failed describe command, or a response that does not
    decode, nothing more is run; after a decoded response the world is
    the one the probe leaves and a failure of the probe is returned.
    The observation returned after a failed describe command (absence
    of the cluster) has exists = false and upToDate = false. The
    theorem also says where the flag of the other observations comes
    from: it is the verdict of the probe. *)
Theorem C3_Observe_probe (m : Machine) (out : string) (err : option error) :
  fst (execPcluster (Spec.describe_cluster (v1alpha1.Name (obj m))) m)
    = (out, err) ->
  let m1 := snd (execPcluster (Spec.describe_cluster (v1alpha1.Name (obj m))) m) in
  (forall e, err = Some e ->
     world (snd (Part000.Observe ClusterKind m)) = world m1
     /\ forall eo, fst (Part000.Observe ClusterKind m) = (eo, None) ->
                   eo = {| managed.ResourceExists := false;
                           managed.ResourceUpToDate := false |})
  /\ (forall d e, err = None -> unmarshalDescribe out = (d, Some e) ->
        world (snd (Part000.Observe ClusterKind m)) = world m1)
  /\ (forall d, err = None -> unmarshalDescribe out = (d, None) ->
        world (snd (Part000.Observe ClusterKind m))
        = world (snd (Part000.isUpToDate m1))
        /\ (forall b e, fst (Part000.isUpToDate m1) = (b, Some e) ->
              snd (fst (Part000.Observe ClusterKind m))
              = Some (Errorf "could not determine if resource is up-to-date: " e))
        /\ (forall b, fst (Part000.isUpToDate m1) = (b, None) ->
              exists eo, fst (Part000.Observe ClusterKind m) = (eo, None)
                         /\ managed.ResourceUpToDate eo = b)).
Proof.
  intros Hx m1. split; [|split].
  - intros e ->. rewrite (Observe_describe_failed m out e Hx). cbn [fst snd].
    split; [reflexivity|].
    destruct (String.eqb _ errStatusNotFound); congruence.
  - intros d e -> Hd. rewrite (Observe_describe_malformed m out d e Hx Hd).
    reflexivity.
  - intros d -> Hd. destruct (Observe_decoded m out d Hx Hd) as (Hw & _ & H).
    fold m1 in Hw, H. split; [exact Hw|]. split.
    + intros b e Hp. rewrite Hp in H. destruct H as [-> _]. reflexivity.
    + intros b Hp. rewrite Hp in H. destruct H as (ex & -> & _).
      eexists. split; reflexivity.
Qed.

(** C5. When the describe command of [Observe] fails: a payload whose
    message is classified NotFound gives the observation exists =
    false without error; a payload with any other classification, and
    a payload that does not decode, give an error that wraps the error
    of the command, and no observation. *)
Theorem C5_Observe_describe_error (m : Machine) (out : string) (e : error) :
  fst (execPcluster (Spec.describe_cluster (v1alpha1.Name (obj m))) m)
    = (out, Some e) ->
  let failure :=
    Some (Errorf ("failed to run pcluster command: " ++ out ++ " ") e) in
  (forall pErr c,
      json_Unmarshal out zeroError = (pErr, None) ->
      Spec.classify (v1alpha1.Name (obj m)) (Message pErr) c ->
      fst (Part000.Observe ClusterKind m)
      = match c with
        | Spec.NotFound =>
            ({| managed.ResourceExists := false;
                managed.ResourceUpToDate := false |}, None)
        | _ => (managed.zero, failure)
        end)
  /\ (forall pErr de,
        json_Unmarshal out zeroError = (pErr, Some de) ->
        fst (Part000.Observe ClusterKind m) = (managed.zero, failure)).
Proof.
  intros Hx failure. rewrite (Observe_describe_failed m out e Hx). cbn [fst].
  split.
  - intros pErr c Hd Hc.
    destruct (getErrorStatus_decoded out (v1alpha1.Name (obj m)) pErr Hd)
      as (c' & Hc' & ->).
    rewrite (classify_functional _ _ _ _ Hc Hc'). cbn [fst].
    destruct c'; reflexivity.
  - intros pErr de Hd. unfold Part000.getErrorStatus. rewrite Hd. reflexivity.
Qed.

End Observing.

Lemma ran_nil (w : World) : ran w w [].
Proof. unfold ran. now rewrite app_nil_r. Qed.

Lemma ran_app (w1 w2 w3 : World) (l1 l2 : list Invocation) :
  ran w1 w2 l1 -> ran w2 w3 l2 -> ran w1 w3 (l1 ++ l2).
Proof. unfold ran. intros -> ->. now rewrite app_assoc. Qed.

Section Mutating.
Context {host : Host} {dec : Decoders}.

(** A command that reports no error has been run. *)
Lemma execPcluster_ok_ran (a : list string) (m : Machine) (out : string) :
  fst (execPcluster a m) = (out, None) ->
  ran (world m) (world (snd (execPcluster a m)))
    [pcluster (self m) (dir (self m)) a].
Proof.
  rewrite execPcluster_run.
  destruct (strings.ContainsRune (path (self m)) os.NUL); cbn [fst snd].
  - discriminate.
  - intros _. reflexivity.
Qed.

Lemma Create_cases (m : Machine) :
  let r := Part000.execute (Part000.createArgs (obj m)) m in
  match fst r with
  | (_, Some e) =>
      fst (Part000.Create ClusterKind m) = Some e
      /\ obj (snd (Part000.Create ClusterKind m)) = obj m
  | (out, None) =>
      match json_Unmarshal out zeroCreate with
      | (_, Some e) =>
          fst (Part000.Create ClusterKind m)
          = Some (Errorf "failed to unmarshal create output: " e)
          /\ obj (snd (Part000.Create ClusterKind m)) = obj m
      | (co, None) =>
          fst (Part000.Create ClusterKind m) = None
          /\ written (Create_Cluster co) (obj m)
               (obj (snd (Part000.Create ClusterKind m)))
      end
  end.
Proof.
  intros r. subst r.
  pose proof (execute_keeps (Part000.createArgs (obj m)) m) as [Ko _].
  unfold Part000.Create. monad. cbn beta iota.
  destruct (Part000.execute (Part000.createArgs (obj m)) m) as [[out [e|]] m'];
    cbn [fst snd] in *; [now split|].
  destruct (json_Unmarshal out zeroCreate) as [co [e|]]; cbn [fst snd obj];
    [now split|].
  split; [reflexivity|]. rewrite Ko. unfold written, atProvider, ready.
  cbn. repeat split.
Qed.

Lemma Update_cases (m : Machine) :
  let r := Part000.execute (Part000.updateArgs (obj m)) m in
  obj (snd (Part000.Update ClusterKind m)) = obj m
  /\ match fst r with
     | (_, Some e) => fst (Part000.Update ClusterKind m) = Some e
     | (out, None) =>
         match json_Unmarshal out zeroUpdate with
         | (_, Some e) =>
             fst (Part000.Update ClusterKind m)
             = Some (Errorf "failed to unmarshal update output: " e)
         | (_, None) => fst (Part000.Update ClusterKind m) = None
         end
     end.
Proof.
  intros r. subst r. rewrite Update_state.
  pose proof (execute_keeps (Part000.updateArgs (obj m)) m) as [Ko _].
  split; [exact Ko|].
  unfold Part000.Update. monad. cbn beta iota.
  destruct (Part000.execute (Part000.updateArgs (obj m)) m) as [[out [e|]] m'];
    cbn [fst snd] in *; [reflexivity|].
  destruct (json_Unmarshal out zeroUpdate) as [co [e|]]; reflexivity.
Qed.

Lemma Delete_cases (m : Machine) :
  let r := Part000.execute (Part000.deleteArgs (obj m)) m in
  obj (snd (Part000.Delete ClusterKind m)) = obj m
  /\ match fst r with
     | (_, Some e) =>
         fst (Part000.Delete ClusterKind m)
         = Some (Errorf "failed to delete using pcluster cli: " e)
     | (out, None) =>
         match json_Unmarshal out zeroDelete with
         | (_, Some e) =>
             fst (Part000.Delete ClusterKind m)
             = Some (Errorf "failed to unmarshal update output: " e)
         | (_, None) => fst (Part000.Delete ClusterKind m) = None
         end
     end.
Proof.
  intros r. subst r. rewrite Delete_state.
  pose proof (execute_keeps (Part000.deleteArgs (obj m)) m) as [Ko _].
  split; [exact Ko|].
  unfold Part000.Delete. monad. cbn beta iota.
  destruct (Part000.execute (Part000.deleteArgs (obj m)) m) as [[out [e|]] m'];
    cbn [fst snd] in *; [reflexivity|].
  destruct (json_Unmarshal out zeroDelete) as [co [e|]]; reflexivity.
Qed.

(** C6 (as amended). In [part_000], each of Create, Update and Delete
    that returns an error leaves the resource as it was. A Create that
    succeeds has decoded the output of the command and has written
    its cluster status, stack ARN, scheduler type and name onto the
    observed status. An Update or a Delete that succeeds has decoded
    the output of the command and leaves the resource, its observed
    status included, as it was. *)
Theorem C6_status_write_back (mg : Managed) (m : Machine) :
  (forall e, fst (Part000.Create mg m) = Some e ->
             obj (snd (Part000.Create mg m)) = obj m)
  /\ (forall e, fst (Part000.Update mg m) = Some e ->
                obj (snd (Part000.Update mg m)) = obj m)
  /\ (forall e, fst (Part000.Delete mg m) = Some e ->
                obj (snd (Part000.Delete mg m)) = obj m)
  /\ (fst (Part000.Create mg m) = None ->
      exists out co,
        fst (Part000.execute (Part000.createArgs (obj m)) m) = (out, None)
        /\ json_Unmarshal out zeroCreate = (co, None)
        /\ written (Create_Cluster co) (obj m) (obj (snd (Part000.Create mg m))))
  /\ (fst (Part000.Update mg m) = None ->
      exists out uo,
        fst (Part000.execute (Part000.updateArgs (obj m)) m) = (out, None)
        /\ json_Unmarshal out zeroUpdate = (uo, None)
        /\ obj (snd (Part000.Update mg m)) = obj m)
  /\ (fst (Part000.Delete mg m) = None ->
      exists out do,
        fst (Part000.execute (Part000.deleteArgs (obj m)) m) = (out, None)
        /\ json_Unmarshal out zeroDelete = (do, None)
        /\ obj (snd (Part000.Delete mg m)) = obj m).
Proof.
  destruct mg.
  2:{ repeat split; try reflexivity; cbn; discriminate. }
  pose proof (Create_cases m) as HC.
  pose proof (Update_cases m) as [HUo HU].
  pose proof (Delete_cases m) as [HDo HD].
  cbv zeta in *.
  split; [|split; [|split; [|split; [|split]]]].
  - intros e He.
    destruct (fst (Part000.execute (Part000.createArgs (obj m)) m)) as [out [ec|]];
      [apply HC|].
    destruct (json_Unmarshal out zeroCreate) as [co [ec|]]; [apply HC|].
    destruct HC as [HC _]. congruence.
  - intros _ _. exact HUo.
  - intros _ _. exact HDo.
  - intros He.
    destruct (fst (Part000.execute (Part000.createArgs (obj m)) m)) as [out [ec|]];
      [destruct HC; congruence|].
    destruct (json_Unmarshal out zeroCreate) as [co [ec|]] eqn:Hco;
      [destruct HC; congruence|].
    exists out, co. split; [reflexivity | split; [assumption | apply HC]].
  - intros He.
    destruct (fst (Part000.execute (Part000.updateArgs (obj m)) m)) as [out [eu|]];
      [congruence|].
    destruct (json_Unmarshal out zeroUpdate) as [uo [eu|]] eqn:Huo; [congruence|].
    exists out, uo. split; [reflexivity | split; assumption].
  - intros He.
    destruct (fst (Part000.execute (Part000.deleteArgs (obj m)) m)) as [out [ed|]];
      [congruence|].
    destruct (json_Unmarshal out zeroDelete) as [do [ed|]] eqn:Hdo; [congruence|].
    exists out, do. split; [reflexivity | split; assumption].
Qed.

End Mutating.

Section Surface.
Context {host : Host} {dec : Decoders}.

(** The world each operation that uses [execute] leaves is the world
    one [execute] leaves. *)
Lemma workspace_users (m : Machine) (m' : Machine) :
  In m' [ snd (Part000.isUpToDate m); snd (Part000.Create ClusterKind m);
          snd (Part000.Update ClusterKind m); snd (Part000.Delete ClusterKind m) ] ->
  exists a, world m' = world (snd (Part000.execute a m))
            /\ self m' = self (snd (Part000.execute a m)).
Proof.
  intros [<-|[<-|[<-|[<-|[]]]]].
  - rewrite isUpToDate_state. eauto.
  - destruct (Create_world m) as [-> ->]. eauto.
  - rewrite Update_state. eauto.
  - rewrite Delete_state. eauto.
Qed.

(** On a host that does not let the directory go and holds everything
    back, the directory [execute] has made outlives it. *)
Lemma execute_leaves_directory (a : list string) (m : Machine) (d : string)
      (w1 : World) :
  os.MkdirTemp "" (v1alpha1.Name (obj m)) (world m) = ((d, None), w1) ->
  (forall w, host_remove w d <> None) ->
  (forall w p, host_stuck w d p = true) ->
  In d (dirs (world (snd (Part000.execute a m)))).
Proof.
  intros Hd Hr Hs.
  destruct (execute_removes a m d w1 Hd) as (_ & w & Hin & -> & _).
  destruct (host_remove w d) as [e|] eqn:E; [|now destruct (Hr w)].
  now apply (RemoveAll_stuck d w e E (Hs w)).
Qed.

(** The probe when the workspace cannot be made: no verdict, the
    workspace error as it is, and no command. *)
Lemma isUpToDate_no_workspace (m : Machine) (e : error) :
  WorkspaceFails (v1alpha1.Name (obj m)) (configOf (obj m)) (world m) e ->
  fst (Part000.isUpToDate m) = (false, Some e)
  /\ calls (world (snd (Part000.isUpToDate m))) = calls (world m).
Proof.
  intros He.
  destruct (execute_no_workspace (Part000.dryrunArgs (obj m)) m e He) as [Hf Hc].
  rewrite isUpToDate_state. split; [|exact Hc].
  rewrite isUpToDate_run.
  destruct (Part000.execute (Part000.dryrunArgs (obj m)) m) as [[out err] m'].
  cbn [fst] in Hf. injection Hf as -> ->. reflexivity.
Qed.

(** C7 (as amended). For every operation of [part_000] that uses the
    workspace ([execute], the probe, Create, Update, Delete, and
    Observe through the probe): once [os.MkdirTemp] has made the
    directory, the operation ends, on every exit path, by calling
    [os.RemoveAll] on it in a world in which the directory exists, and
    drops what that call returns; the directory and every file below
    it are gone when the operation has returned provided the host lets
    the directory go. When [os.MkdirTemp], [os.Create] of the
    configuration file or the write to it fails, no command is run by
    [execute], and the workspace error is what [execute], the probe,
    Create and Update return; Delete and Observe return it wrapped, and
    Observe has run the describe command only. *)
Theorem C7_workspace_removed (a : list string) (m : Machine) :
  let name := v1alpha1.Name (obj m) in
  let document := configOf (obj m) in
  let describe := Spec.describe_cluster name in
  (forall d w1,
      os.MkdirTemp "" name (world m) = ((d, None), w1) ->
      forall m',
        In m' [ snd (Part000.execute a m); snd (Part000.isUpToDate m);
                snd (Part000.Create ClusterKind m);
                snd (Part000.Update ClusterKind m);
                snd (Part000.Delete ClusterKind m) ] ->
        exists w,
          In d (dirs w)
          /\ world m' = snd (os.RemoveAll d w)
          /\ (host_remove w d = None ->
              ~ In d (dirs (world m'))
              /\ forall f, In f (files (world m')) -> os.within d (fst f) = false))
  /\ (forall e,
        WorkspaceFails name document (world m) e ->
        Spec.WorkspaceIOError e
        /\ fst (Part000.execute a m) = ("", Some e)
        /\ fst (Part000.isUpToDate m) = (false, Some e)
        /\ fst (Part000.Create ClusterKind m) = Some e
        /\ fst (Part000.Update ClusterKind m) = Some e
        /\ fst (Part000.Delete ClusterKind m)
           = Some (Errorf "failed to delete using pcluster cli: " e)
        /\ forall m',
             In m' [ snd (Part000.execute a m); snd (Part000.isUpToDate m);
                     snd (Part000.Create ClusterKind m);
                     snd (Part000.Update ClusterKind m);
                     snd (Part000.Delete ClusterKind m) ] ->
             calls (world m') = calls (world m))
  /\ (forall out dsc,
        fst (execPcluster describe m) = (out, None) ->
        unmarshalDescribe out = (dsc, None) ->
        let m1 := snd (execPcluster describe m) in
        (forall d w1,
            os.MkdirTemp "" name (world m1) = ((d, None), w1) ->
            exists w,
              In d (dirs w)
              /\ world (snd (Part000.Observe ClusterKind m)) = snd (os.RemoveAll d w)
              /\ (host_remove w d = None ->
                  ~ In d (dirs (world (snd (Part000.Observe ClusterKind m))))
                  /\ forall f,
                       In f (files (world (snd (Part000.Observe ClusterKind m)))) ->
                       os.within d (fst f) = false))
        /\ (forall e,
              WorkspaceFails name document (world m1) e ->
              fst (Part000.Observe ClusterKind m)
              = (managed.zero,
                 Some (Errorf "could not determine if resource is up-to-date: " e))
              /\ ran (world m) (world (snd (Part000.Observe ClusterKind m)))
                   [pcluster (self m) (dir (self m)) describe])).
Proof.
  intros name document describe. subst name document describe.
  split; [|split].
  - intros d w1 Hd m' Hin.
    assert (exists a', world m' = world (snd (Part000.execute a' m))) as [a' Hw'].
    { destruct Hin as [<-|Hin]; [now exists a|].
      destruct (workspace_users m m' Hin) as (a' & Hw' & _). now exists a'. }
    destruct (execute_removes a' m d w1 Hd) as (_ & w & Hi & Hw & Hg).
    exists w. rewrite Hw'. split; [assumption|]. split; [assumption|].
    intros Hr. destruct (Hg Hr) as (G1 & _ & G3). now split.
  - intros e He.
    split; [eapply WorkspaceFails_error; eassumption|].
    split; [apply (execute_no_workspace a m e He)|].
    split; [apply (isUpToDate_no_workspace m e He)|].
    split; [|split; [|split]].
    + pose proof (Create_cases m) as HC. cbv zeta in HC.
      destruct (execute_no_workspace (Part000.createArgs (obj m)) m e He) as [Hf _].
      rewrite Hf in HC. apply HC.
    + pose proof (Update_cases m) as [_ HU]. cbv zeta in HU.
      destruct (execute_no_workspace (Part000.updateArgs (obj m)) m e He) as [Hf _].
      rewrite Hf in HU. exact HU.
    + pose proof (Delete_cases m) as [_ HD]. cbv zeta in HD.
      destruct (execute_no_workspace (Part000.deleteArgs (obj m)) m e He) as [Hf _].
      rewrite Hf in HD. exact HD.
    + intros m' Hin.
      assert (exists a', world m' = world (snd (Part000.execute a' m))) as [a' ->].
      { destruct Hin as [<-|Hin]; [now exists a|].
        destruct (workspace_users m m' Hin) as (a' & Hw' & _). now exists a'. }
      apply (execute_no_workspace a' m e He).
  - intros out dsc Hx Hu m1.
    destruct (Observe_decoded m out dsc Hx Hu) as (Hw & _ & Hr).
    fold m1 in Hw, Hr.
    assert (Ko : obj m1 = obj m)
      by apply (execPcluster_keeps (Spec.describe_cluster (v1alpha1.Name (obj m))) m).
    split.
    + intros d w1 Hd. rewrite Hw, isUpToDate_state. rewrite <- Ko in Hd.
      destruct (execute_removes (Part000.dryrunArgs (obj m1)) m1 d w1 Hd)
        as (_ & w & Hi & Hw1 & Hg).
      exists w. split; [assumption|]. split; [assumption|].
      intros Hrm. destruct (Hg Hrm) as (G1 & _ & G3). now split.
    + intros e He. rewrite <- Ko in He.
      destruct (isUpToDate_no_workspace m1 e He) as [Hf Hc].
      rewrite Hf in Hr. destruct Hr as [Hr _]. split; [exact Hr|].
      unfold ran. rewrite Hw, Hc.
      exact (execPcluster_ok_ran _ m out Hx).
Qed.

Lemma execute_ran_one (a : list string) (m : Machine) :
  exists new,
    ran (world m) (world (snd (Part000.execute a m))) new
    /\ (new = [] \/ exists d, new = [pcluster (self m) d a]).
Proof.
  destruct (execute_ran a m) as [R|(d & _ & R)]; eauto.
Qed.

Lemma Observe_ran (m : Machine) :
  let c := self m in
  let name := v1alpha1.Name (obj m) in
  exists new,
    ran (world m) (world (snd (Part000.Observe ClusterKind m))) new
    /\ (new = []
        \/ new = [pcluster c (dir c) (Spec.describe_cluster name)]
        \/ exists d,
             new = [ pcluster c (dir c) (Spec.describe_cluster name);
                     pcluster c d (dryrun_update_cluster clusterConfigFileName name) ]).
Proof.
  intros c name. subst c name.
  set (da := Spec.describe_cluster (v1alpha1.Name (obj m))).
  destruct (fst (execPcluster da m)) as [out [e|]] eqn:Hx.
  - rewrite (Observe_describe_failed m out e Hx). cbn [snd].
    destruct (execPcluster_ran da m) as [R|R]; eauto.
  - destruct (unmarshalDescribe out) as [d [e|]] eqn:Hd.
    + rewrite (Observe_describe_malformed m out d e Hx Hd). cbn [snd].
      destruct (execPcluster_ran da m) as [R|R]; eauto.
    + destruct (Observe_decoded m out d Hx Hd) as (Hw & _ & _).
      fold da in Hw. rewrite Hw, isUpToDate_state.
      pose proof (execPcluster_ok_ran da m out Hx) as R1.
      destruct (execPcluster_keeps da m) as (Ks & Ko & _).
      set (m1 := snd (execPcluster da m)) in *.
      destruct (execute_ran_one (Part000.dryrunArgs (obj m1)) m1)
        as (new & R2 & [->|[dir ->]]).
      * exists [pcluster (self m) (dir (self m)) da]. split; [|auto].
        rewrite <- (app_nil_r [_]). eapply ran_app; eassumption.
      * eexists. split; [eapply ran_app; eassumption|].
        right. right. exists dir. rewrite Ks, Ko. reflexivity.
Qed.

(** C8 (as amended). Every command the engine of [part_000] runs is
    [pcluster] with the arguments of §6 for describe, create, update
    and delete, the name of the resource being passed as it is; the
    probe runs update-cluster with [--dryrun true], the name and the
    configuration file. Each operation runs at most the commands
    listed for it; the theorem gives every argument list in full. *)
Theorem C8_command_surface (m : Machine) :
  let c := self m in
  let name := v1alpha1.Name (obj m) in
  let region := regionOf (obj m) in
  let file := clusterConfigFileName in
  (exists new,
      ran (world m) (world (snd (Part000.Observe ClusterKind m))) new
      /\ (new = []
          \/ new = [pcluster c (dir c) (Spec.describe_cluster name)]
          \/ exists d,
               new = [ pcluster c (dir c) (Spec.describe_cluster name);
                       pcluster c d (dryrun_update_cluster file name) ]))
  /\ (exists new,
        ran (world m) (world (snd (Part000.isUpToDate m))) new
        /\ (new = []
            \/ exists d, new = [pcluster c d (dryrun_update_cluster file name)]))
  /\ (exists new,
        ran (world m) (world (snd (Part000.Create ClusterKind m))) new
        /\ (new = []
            \/ exists d, new = [pcluster c d (Spec.create_cluster file name region)]))
  /\ (exists new,
        ran (world m) (world (snd (Part000.Update ClusterKind m))) new
        /\ (new = []
            \/ exists d, new = [pcluster c d (Spec.update_cluster file name region)]))
  /\ (exists new,
        ran (world m) (world (snd (Part000.Delete ClusterKind m))) new
        /\ (new = []
            \/ exists d, new = [pcluster c d (Spec.delete_cluster name region)])).
Proof.
  cbv zeta. split; [apply Observe_ran|].
  rewrite isUpToDate_state, Update_state, Delete_state.
  destruct (Create_world m) as [-> _].
  repeat split; apply execute_ran_one.
Qed.

Lemma getVEnvPath_reads (m : Machine) : snd (getVEnvPath m) = m.
Proof.
  unfold getVEnvPath. monad.
  destruct (os.LookupEnv virtualEnvPath (world m)) as [v ok].
  destruct ok; cbn [negb]; [|reflexivity].
  destruct (os.Stat (v ++ "/bin/pcluster") (world m)); reflexivity.
Qed.

Lemma Connect_reads (mg : Managed) (m : Machine) :
  snd (Part000.Connect mg m) = m.
Proof.
  unfold Part000.Connect. destruct mg; [|reflexivity]. monad.
  destruct (host_collaborators (world m)); [reflexivity|].
  pose proof (getVEnvPath_reads m) as H.
  destruct (getVEnvPath m) as [[p [e|]] m']; cbn [snd] in H; subst m';
    reflexivity.
Qed.

Lemma Observe_effect (m : Machine) :
  effect (self m) (world m) (world (snd (Part000.Observe ClusterKind m))).
Proof.
  set (da := Spec.describe_cluster (v1alpha1.Name (obj m))).
  pose proof (execPcluster_effect da m) as E1.
  destruct (fst (execPcluster da m)) as [out [e|]] eqn:Hx.
  - now rewrite (Observe_describe_failed m out e Hx).
  - destruct (unmarshalDescribe out) as [d [e|]] eqn:Hd.
    + now rewrite (Observe_describe_malformed m out d e Hx Hd).
    + destruct (Observe_decoded m out d Hx Hd) as (Hw & _ & _).
      fold da in Hw. rewrite Hw, isUpToDate_state.
      destruct (execPcluster_keeps da m) as (Ks & _).
      eapply effect_trans; [exact E1|]. rewrite <- Ks.
      apply execute_effect.
Qed.

(** C9 (as amended). Building the client ([Connect], after the calls
    to its collaborators) reads the environment and the file system
    and changes nothing. Every operation of the engine of [part_000]
    leaves each environment variable of the process other than [PATH]
    as it was; [PATH] is left as it was or is set, for the whole
    process, to the search path of the client, and it is the search
    path of the client as soon as the operation has run a command.
    Every command run gets the environment of the client as its own
    argument. *)
Theorem C9_process_environment (mg : Managed) (m : Machine) :
  snd (Part000.Connect mg m) = m
  /\ (forall a, effect (self m) (world m) (world (snd (execPcluster a m))))
  /\ effect (self m) (world m) (world (snd (Part000.isUpToDate m)))
  /\ effect (self m) (world m) (world (snd (Part000.Observe mg m)))
  /\ effect (self m) (world m) (world (snd (Part000.Create mg m)))
  /\ effect (self m) (world m) (world (snd (Part000.Update mg m)))
  /\ effect (self m) (world m) (world (snd (Part000.Delete mg m))).
Proof.
  split; [apply Connect_reads|].
  split; [intros a; apply execPcluster_effect|].
  split; [rewrite isUpToDate_state; apply execute_effect|].
  destruct mg.
  - split; [apply Observe_effect|].
    rewrite Update_state, Delete_state. destruct (Create_world m) as [-> _].
    repeat split; apply execute_effect.
  - repeat split; apply effect_refl.
Qed.

Lemma absence_other_rules (t : string) :
  String.eqb ("Cluster '" ++ t) Part000.errPclusterCliNoChange = false
  /\ strings.HasPrefix ("Cluster '" ++ t) Part000.errPClusterCliInProgress = false
  /\ String.eqb ("Cluster '" ++ t) Part000.errPClusterCliDryRun = false.
Proof. repeat split. Qed.

(** C10 (as amended). For a payload that decodes: [getErrorStatus] of
    [part_000] returns NotFound exactly when the message begins with
    the absence text for the resource name it is given. When the
    message begins with the absence text for a name X that differs
    from the resource name, and neither name holds an apostrophe, it
    returns EmptyOrUnclassified, and [Observe], for a describe command
    that failed with this payload, returns an error and no
    observation. *)
Theorem C10_name_sensitive (out name : string) (pErr : errorOutput) :
  json_Unmarshal out zeroError = (pErr, None) ->
  (fst (Part000.getErrorStatus out name) = errStatusNotFound
   <-> Spec.begins (Message pErr) (Spec.absence name))
  /\ forall X rest,
       Message pErr = Spec.absence X ++ rest ->
       X <> name -> plain X -> plain name ->
       Part000.getErrorStatus out name = (errStatusEmpty, None)
       /\ forall m e,
            v1alpha1.Name (obj m) = name ->
            fst (execPcluster (Spec.describe_cluster name) m) = (out, Some e) ->
            fst (Part000.Observe ClusterKind m)
            = (managed.zero,
               Some (Errorf ("failed to run pcluster command: " ++ out ++ " ") e)).
Proof.
  intros Hd. split.
  - destruct (getErrorStatus_decoded out name pErr Hd) as (c & Hc & ->).
    cbn [fst]. split.
    + intros H. assert (c = Spec.NotFound) as ->
        by (apply errStatusOf_NotFound; rewrite H; reflexivity).
      inversion Hc. assumption.
    + intros H. destruct Hc; try contradiction. reflexivity.
  - intros X rest Hm Hne HX Hn.
    assert (Hs : Part000.getErrorStatus out name = (errStatusEmpty, None)).
    { unfold Part000.getErrorStatus. rewrite Hd, Hm.
      fold (Spec.absence name).
      assert (Hp : strings.HasPrefix (Spec.absence X ++ rest) (Spec.absence name)
                   = false).
      { destruct (strings.HasPrefix (Spec.absence X ++ rest) (Spec.absence name))
          eqn:Hp; [|reflexivity].
        exfalso. apply Hne. unfold Spec.absence in Hp.
        rewrite !app_assoc_string, HasPrefix_app in Hp.
        exact (plain_names_agree X name " does not exist" rest HX Hn Hp). }
      rewrite Hp. unfold Spec.absence.
      rewrite !app_assoc_string.
      destruct (absence_other_rules (X ++ "' does not exist" ++ rest))
        as (-> & -> & ->).
      reflexivity. }
    split; [exact Hs|].
    intros m e Hname Hx. rewrite <- Hname in Hx.
    rewrite (Observe_describe_failed m out e Hx). cbn [fst].
    rewrite Hname, Hs. reflexivity.
Qed.

End Surface.

(* ------------------------------------------------------------------ *)
(** ** The engine on the scenarios                                     *)
(* ------------------------------------------------------------------ *)

Section Scenarios.
Import Scenario.
#[local] Existing Instance json.decoders.

(** §8, scenario A. *)
Example scenario_A :
  fst (Part000.Observe (host := scenarioA) ClusterKind machine0)
  = ({| managed.ResourceExists := true; managed.ResourceUpToDate := true |}, None)
  /\ ready (obj (snd (Part000.Observe (host := scenarioA) ClusterKind machine0)))
     = Some xpv1.Available.
Proof. split; reflexivity. Qed.

(** §8, scenario B. *)
Example scenario_B :
  fst (Part000.Observe (host := scenarioB) ClusterKind machine0)
  = ({| managed.ResourceExists := true; managed.ResourceUpToDate := false |}, None).
Proof. reflexivity. Qed.

(** §8, scenario C. *)
Example scenario_C :
  fst (Part000.Observe (host := scenarioC) ClusterKind machine0)
  = ({| managed.ResourceExists := false; managed.ResourceUpToDate := false |}, None).
Proof. reflexivity. Qed.

(** §8, scenario D. *)
Example scenario_D :
  snd (fst (Part000.Observe (host := scenarioD) ClusterKind machine0))
  = Some (Errorf ("failed to run pcluster command: "
                    ++ errorPayload "Internal server error" ++ " ") exitError).
Proof. reflexivity. Qed.

(** The client that [Connect] builds in a process with a virtual
    environment. *)
Example Connect_venv :
  fst (Part000.Connect (host := scenarioC) ClusterKind
         {| world := venvWorld; self := client0; obj := makeCluster |})
  = (Some venvClient, None).
Proof. reflexivity. Qed.

(** C1, counterexample. The describe response decodes and carries
    CREATE_COMPLETE, for which the table gives exists = true and
    available = true; the dry run that [Observe] runs next prints no
    JSON, and [Observe] returns an error, the zero observation (exists
    = false) and a resource without Ready condition. With
    DELETE_COMPLETE, for which the table gives exists = false, the same
    dry run makes [Observe] return the error as well. *)
Lemma C1_counterexample :
  (fst (execPcluster (host := completeProbeCrashes)
          (Spec.describe_cluster "test") machine0)
   = (describePayload CreateComplete, None)
   /\ snd (unmarshalDescribe (describePayload CreateComplete)) = None
   /\ statusIn (fst (unmarshalDescribe (describePayload CreateComplete)))
      = Spec.text Spec.S_CreateComplete
   /\ fst (Part000.Observe (host := completeProbeCrashes) ClusterKind machine0)
      = ({| managed.ResourceExists := false; managed.ResourceUpToDate := false |},
         Some (Errorf "could not determine if resource is up-to-date: "
                 (New "json: syntax error")))
   /\ ready (obj (snd (Part000.Observe (host := completeProbeCrashes)
                         ClusterKind machine0))) = None)
  /\ (snd (unmarshalDescribe (describePayload DeleteComplete)) = None
      /\ statusIn (fst (unmarshalDescribe (describePayload DeleteComplete)))
         = Spec.text Spec.S_DeleteComplete
      /\ snd (fst (Part000.Observe (host := deletedProbeCrashes) ClusterKind
                     machine0))
         = Some (Errorf "could not determine if resource is up-to-date: "
                   (New "json: syntax error"))).
Proof. repeat split. Qed.

(** The earlier revision resets the Ready condition before it looks at
    the status: a cluster that was available and is reported as being
    created comes out unavailable, where the table of §4.5 leaves the
    condition as it was. *)
Example ClusterGo_in_progress_resets_ready :
  ready (obj availableMachine) = Some xpv1.Available
  /\ fst (ClusterGo.Observe (host := creating) ClusterKind availableMachine)
     = ({| managed.ResourceExists := true; managed.ResourceUpToDate := true |},
        None)
  /\ ready (obj (snd (ClusterGo.Observe (host := creating) ClusterKind
                        availableMachine)))
     = Some xpv1.Unavailable.
Proof. repeat split. Qed.

(** C1, witness: scenario A. *)
Lemma C1_witness :
  exists eo,
    fst (Part000.Observe (host := scenarioA) ClusterKind machine0) = (eo, None)
    /\ managed.ResourceExists eo = Spec.table_exists Spec.S_CreateComplete
    /\ Spec.agrees (Spec.table_available Spec.S_CreateComplete)
         (ready (obj machine0))
         (ready (obj (snd (Part000.Observe (host := scenarioA) ClusterKind
                             machine0)))).
Proof.
  eapply (C1_Observe_follows_table (host := scenarioA) machine0
            (describePayload CreateComplete) _ Spec.S_CreateComplete true);
    reflexivity.
Defined.

(** C2, counterexample. A dry run that fails with a message no rule
    knows, and a dry run that exits with status zero, both make the
    probe return upToDate = false with no error. *)
Lemma C2_counterexample :
  fst (Part000.execute (host := firstUnclassified)
         (Part000.dryrunArgs makeCluster) machine0)
  = (errorPayload "Internal server error", Some exitError)
  /\ Part000.getErrorStatus (errorPayload "Internal server error") "test"
     = (errStatusEmpty, None)
  /\ fst (Part000.isUpToDate (host := firstUnclassified) machine0) = (false, None)
  /\ snd (fst (Part000.execute (host := firstSucceeds)
                 (Part000.dryrunArgs makeCluster) machine0)) = None
  /\ fst (Part000.isUpToDate (host := firstSucceeds) machine0) = (false, None).
Proof. repeat split. Qed.

(** C2, witness: the dry run finds no change. *)
Lemma C2_witness :
  fst (Part000.isUpToDate (host := firstNoChange) machine0) = (true, None).
Proof.
  destruct (C2_isUpToDate_verdicts (host := firstNoChange) machine0
              (errorPayload Part000.errPclusterCliNoChange) (Some exitError)
              eq_refl) as [H _].
  apply (H exitError {| Message := Part000.errPclusterCliNoChange |}
           Spec.UpToDate eq_refl).
  - discriminate.
  - reflexivity.
  - apply Spec.rule2.
    + apply HasPrefix_not_begins. reflexivity.
    + left. reflexivity.
Defined.

(** C3, counterexample. The describe response carries DELETE_COMPLETE;
    [Observe] still runs the dry run and returns an observation with
    exists = false and upToDate = true. *)
Lemma C3_counterexample :
  fst (Part000.Observe (host := deletedNoChange) ClusterKind machine0)
  = ({| managed.ResourceExists := false; managed.ResourceUpToDate := true |},
     None)
  /\ map Args (calls (world (snd (Part000.Observe (host := deletedNoChange)
                                    ClusterKind machine0))))
     = [ Spec.describe_cluster "test";
         dryrun_update_cluster "cluster-config.yaml" "test" ].
Proof. split; reflexivity. Qed.

(** C3, witness: scenario A. *)
Lemma C3_witness :
  exists eo,
    fst (Part000.Observe (host := scenarioA) ClusterKind machine0) = (eo, None)
    /\ managed.ResourceUpToDate eo = true.
Proof.
  destruct (C3_Observe_probe (host := scenarioA) machine0
              (describePayload CreateComplete) None eq_refl) as (_ & _ & H).
  edestruct H as (_ & _ & H'); [reflexivity | reflexivity |].
  apply (H' true). reflexivity.
Defined.

(** C5, witness: scenario C. *)
Lemma C5_witness :
  fst (Part000.Observe (host := scenarioC) ClusterKind machine0)
  = ({| managed.ResourceExists := false; managed.ResourceUpToDate := false |},
     None).
Proof.
  destruct (C5_Observe_describe_error (host := scenarioC) machine0
              (errorPayload notFoundMessage) exitError eq_refl) as [H _].
  apply (H {| Message := notFoundMessage |} Spec.NotFound).
  - reflexivity.
  - apply Spec.rule1. exists "". reflexivity.
Defined.

(** C6, counterexample. An update that succeeds prints a cluster that
    is being updated; the observed status of the resource stays
    empty. *)
Lemma C6_counterexample :
  fst (Part000.Update (host := firstSucceeds) ClusterKind machine0) = None
  /\ json_Unmarshal (envelopePayload UpdateInProgress) zeroUpdate
     = ({| Update_Cluster :=
             {| ClusterName := "test";
                CloudformationStackStatus := "";
                CloudformationStackArn :=
                  "arn:aws:cloudformation:us-eastish:1:stack/test/0";
                ClusterStatus := UpdateInProgress;
                Region := ""; Version := "";
                Scheduler := {| SchedulerType_type := "slurm" |} |};
           ChangeSet := [] |}, None)
  /\ v1alpha1.ClusterStatus
       (atProvider (obj (snd (Part000.Update (host := firstSucceeds)
                                ClusterKind machine0)))) = ""
  /\ obj (snd (Part000.Update (host := firstSucceeds) ClusterKind machine0))
     = makeCluster.
Proof. repeat split. Qed.

(** The earlier revision writes the status back after an update. *)
Example ClusterGo_Update_writes_status :
  fst (ClusterGo.Update (host := firstSucceeds) ClusterKind machine0) = None
  /\ v1alpha1.ClusterStatus
       (atProvider (obj (snd (ClusterGo.Update (host := firstSucceeds)
                                ClusterKind machine0)))) = UpdateInProgress.
Proof. split; reflexivity. Qed.

(** C6, witness: a create that succeeds writes the status. *)
Lemma C6_witness :
  v1alpha1.ClusterStatus
    (atProvider (obj (snd (Part000.Create (host := firstSucceeds)
                             ClusterKind machine0)))) = UpdateInProgress.
Proof.
  destruct (C6_status_write_back (host := firstSucceeds) ClusterKind machine0)
    as (_ & _ & _ & H & _).
  destruct (H eq_refl) as (out & co & Hx & Hd & Hw & _).
  rewrite Hw.
  assert (out = envelopePayload UpdateInProgress) as ->
      by (symmetry; exact (f_equal fst Hx)).
  change co with (fst (co, @None error)). rewrite <- Hd. reflexivity.
Defined.

(** C7, counterexample. The create command succeeds and the host does
    not let the directory go: when Create has returned without an
    error, the directory made for it and the configuration file in it
    are still there. *)
Lemma C7_counterexample :
  fst (os.MkdirTemp (H := removalFails) "" "test" world0)
  = ("/tmp/test2052571037", None)
  /\ fst (Part000.Create (host := removalFails) ClusterKind machine0) = None
  /\ In "/tmp/test2052571037"
       (dirs (world (snd (Part000.Create (host := removalFails)
                            ClusterKind machine0))))
  /\ In ("/tmp/test2052571037/cluster-config.yaml", configOf makeCluster)
       (files (world (snd (Part000.Create (host := removalFails)
                             ClusterKind machine0)))).
Proof.
  split; [reflexivity|]. split; [reflexivity|]. split; vm_compute; auto.
Qed.

(** Observe of a complete cluster leaves the directory of its probe
    behind in the same way. *)
Example Observe_leaves_directory :
  fst (Part000.Observe (host := completeRemovalFails) ClusterKind machine0)
  = ({| managed.ResourceExists := true; managed.ResourceUpToDate := true |}, None)
  /\ dirs (world (snd (Part000.Observe (host := completeRemovalFails)
                         ClusterKind machine0)))
     = ["/tmp/test2052571037"; "/tmp"].
Proof. split; reflexivity. Qed.

(** C7, witness: the directory of a dry run is gone afterwards where
    the host lets it go; nothing is run when the directory cannot be
    made; Delete wraps the error of a configuration file that cannot be
    created; Observe wraps the error of one that cannot be written. *)
Lemma C7_witness :
  ~ In "/tmp/test2052571037"
      (dirs (world (snd (Part000.isUpToDate (host := firstNoChange) machine0))))
  /\ calls (world (snd (Part000.execute (host := noDirectory)
                          (Part000.dryrunArgs makeCluster) machine0))) = []
  /\ fst (Part000.Delete (host := noFile) ClusterKind machine0)
     = Some (Errorf "failed to delete using pcluster cli: "
               (Errorf "failed to create config file: "
                  (New "open: permission denied")))
  /\ fst (Part000.Observe (host := describedNoSpace) ClusterKind machine0)
     = (managed.zero,
        Some (Errorf "could not determine if resource is up-to-date: "
                (Errorf "failed to write to config file: "
                   (New "write: no space left on device")))).
Proof.
  split; [|split; [|split]].
  - destruct (C7_workspace_removed (host := firstNoChange)
                (Part000.dryrunArgs makeCluster) machine0) as [H _].
    destruct (H "/tmp/test2052571037" _ eq_refl
                (snd (Part000.isUpToDate (host := firstNoChange) machine0)))
      as (w & _ & _ & Hg).
    { right. left. reflexivity. }
    apply Hg. reflexivity.
  - destruct (C7_workspace_removed (host := noDirectory)
                (Part000.dryrunArgs makeCluster) machine0) as (_ & H & _).
    edestruct H as (_ & _ & _ & _ & _ & _ & Hc).
    { eapply MkdirFails. reflexivity. }
    apply Hc. left. reflexivity.
  - destruct (C7_workspace_removed (host := noFile)
                (Part000.dryrunArgs makeCluster) machine0) as (_ & H & _).
    edestruct H as (_ & _ & _ & _ & _ & Hd & _).
    { eapply CreateFails; reflexivity. }
    exact Hd.
  - destruct (C7_workspace_removed (host := describedNoSpace)
                (Part000.dryrunArgs makeCluster) machine0) as (_ & _ & H).
    edestruct H as (_ & Hf); [reflexivity | reflexivity |].
    edestruct Hf as (Ho & _).
    { eapply WriteFails; reflexivity. }
    exact Ho.
Defined.

(** C8, counterexample. The command the probe runs has no region. *)
Lemma C8_counterexample :
  map Args (calls (world (snd (Part000.isUpToDate (host := firstNoChange)
                                 machine0))))
  = [ [ "update-cluster"; "--dryrun"; "true"; "--cluster-name"; "test";
        "--cluster-configuration"; "cluster-config.yaml" ] ]
  /\ ~ In "--region"
       [ "update-cluster"; "--dryrun"; "true"; "--cluster-name"; "test";
         "--cluster-configuration"; "cluster-config.yaml" ]
  /\ v1alpha1.Region (v1alpha1.ForProvider (v1alpha1.Spec makeCluster))
     = "us-eastish".
Proof.
  split; [reflexivity|]. split; [|reflexivity].
  intros H. repeat (destruct H as [H|H]; [discriminate|]). exact H.
Qed.

(** C8, witness: the command an update runs. *)
Lemma C8_witness :
  exists new,
    ran world0 (world (snd (Part000.Update (host := firstSucceeds)
                              ClusterKind machine0))) new
    /\ (new = []
        \/ exists d,
             new = [pcluster client0 d
                      (Spec.update_cluster "cluster-config.yaml" "test"
                         "us-eastish")]).
Proof.
  exact (proj1 (proj2 (proj2 (proj2
           (C8_command_surface (host := firstSucceeds) machine0))))).
Defined.

(** C9, counterexample. An [Observe] of a client built in a process
    with a virtual environment changes the [PATH] of the process. *)
Lemma C9_counterexample :
  PATH (world venvMachine) = Some "/usr/bin"
  /\ PATH (world (snd (Part000.Observe (host := scenarioC) ClusterKind
                         venvMachine)))
     = Some "/opt/venv/bin:/usr/bin".
Proof. split; reflexivity. Qed.

(** The earlier revision changes the [PATH] of the process too. *)
Example ClusterGo_changes_PATH :
  PATH (world (snd (ClusterGo.Observe (host := scenarioC) ClusterKind
                      venvMachine)))
  = Some "/opt/venv/bin:/usr/bin".
Proof. reflexivity. Qed.

(** C9, witness: the variables other than [PATH] after scenario C. *)
Lemma C9_witness :
  os.lookup "HOME"
    (environ (world (snd (Part000.Observe (host := scenarioC) ClusterKind
                            machine0))))
  = Some "/root".
Proof.
  destruct (C9_process_environment (host := scenarioC) ClusterKind machine0)
    as (_ & _ & _ & (H & _) & _).
  rewrite H; [reflexivity | discriminate].
Defined.

(** C10, counterexample. One payload is an absence message for the
    cluster [a] and for the cluster [a' does not exist]: the
    classifier answers NotFound for both resource names, of which at
    most one is the name in the message. *)
Lemma C10_counterexample :
  json_Unmarshal (errorPayload twoNames) zeroError
  = ({| Message := twoNames |}, None)
  /\ twoNames = Spec.absence "a" ++ "' does not exist"
  /\ "a" <> "a' does not exist"
  /\ Part000.getErrorStatus (errorPayload twoNames) "a' does not exist"
     = (errStatusNotFound, None)
  /\ Part000.getErrorStatus (errorPayload twoNames) "a"
     = (errStatusNotFound, None).
Proof. repeat split. discriminate. Qed.

(** C10, witness: an absence message for another cluster. *)
Lemma C10_witness :
  Part000.getErrorStatus (errorPayload "Cluster 'other' does not exist") "test"
  = (errStatusEmpty, None).
Proof.
  edestruct (C10_name_sensitive (host := scenarioD)
               (errorPayload "Cluster 'other' does not exist") "test"
               {| Message := "Cluster 'other' does not exist" |})
    as [_ H]; [reflexivity|].
  apply (H "other" ""); [reflexivity | discriminate | reflexivity | reflexivity].
Defined.

(** C4, on the messages of the tool and on a payload that is not
    JSON. *)
Example getErrorStatus_examples :
  Part000.getErrorStatus (errorPayload notFoundMessage) "test"
  = (errStatusNotFound, None)
  /\ Part000.getErrorStatus (errorPayload Part000.errPclusterCliNoChange) "test"
     = (Part000.errStatusUpToDate, None)
  /\ Part000.getErrorStatus
       (errorPayload "Cannot execute update while stack is in UPDATE_IN_PROGRESS")
       "test"
     = (Part000.errStatusUpToDate, None)
  /\ Part000.getErrorStatus (errorPayload Part000.errPClusterCliDryRun) "test"
     = (Part000.errStatusNotUpToDate, None)
  /\ Part000.getErrorStatus (errorPayload "Internal server error") "test"
     = (errStatusEmpty, None)
  /\ Part000.getErrorStatus "not json" "test" = ("", Some (New "json: syntax error")).
Proof. repeat split. Qed.

(** The classifier of the earlier revision knows the absence message
    only. *)
Example ClusterGo_getErrorStatus_examples :
  ClusterGo.getErrorStatus (errorPayload notFoundMessage) "test"
  = (errStatusNotFound, None)
  /\ ClusterGo.getErrorStatus (errorPayload Part000.errPclusterCliNoChange) "test"
     = (errStatusEmpty, None).
Proof. split; reflexivity. Qed.

End Scenarios.

(* ------------------------------------------------------------------ *)
(** ** Further properties: the workspace                               *)
(* ------------------------------------------------------------------ *)

Lemma In_update (k v : string) (l : list (string * string)) (f : string * string) :
  In f (os.update k v l) -> fst f = k \/ In f l.
Proof.
  induction l as [|[a b] l IH]; simpl.
  - intros [<-|[]]. now left.
  - destruct (String.eqb a k) eqn:E; simpl.
    + apply String.eqb_eq in E. subst a.
      intros [<-|H]; [now left | right; now right].
    + intros [<-|H]; [right; now left|].
      destruct (IH H); [now left | right; now right].
Qed.

Lemma update_keeps (k v : string) (l : list (string * string)) (f : string * string) :
  In f l -> fst f <> k -> In f (os.update k v l).
Proof.
  induction l as [|[a b] l IH]; simpl; [tauto|].
  intros [<-|H] Hk.
  - simpl in Hk. apply String.eqb_neq in Hk. rewrite Hk. now left.
  - destruct (String.eqb a k); right; auto.
Qed.

Lemma within_configPath (d : string) : os.within d (configPath d) = true.
Proof.
  unfold os.within, configPath. apply orb_true_iff. right.
  replace (d ++ "/") with (d ++ "/" ++ "").
  - now rewrite HasPrefix_app.
  - reflexivity.
Qed.

Lemma within_self (d : string) : os.within d d = true.
Proof. unfold os.within. now rewrite String.eqb_refl. Qed.

Section FurtherWorkspace.
Context {host : Host} {dec : Decoders}.

(** [writeConfigToFile], outcome by outcome: the files it leaves. *)
Lemma writeConfigToFile_files (input p : string) (m : Machine) :
  exists fs,
    snd (writeConfigToFile input p m) = with_world (set_files fs (world m)) m
    /\ (fst (writeConfigToFile input p m) = None -> os.lookup p fs = Some input)
    /\ (forall q, q <> p -> os.lookup q fs = os.lookup q (files (world m)))
    /\ (forall f, In f fs -> fst f = p \/ In f (files (world m)))
    /\ (forall f, In f (files (world m)) -> fst f <> p -> In f fs).
Proof.
  unfold writeConfigToFile. monad. unfold os.Create, os.Write.
  destruct (host_create (world m) p) as [e|]; simpl.
  - exists (files (world m)). split; [destruct m as [[] ? ?]; reflexivity|].
    split; [discriminate|]. repeat split; auto.
  - match goal with |- context [host_write ?w ?q ?i] =>
      destruct (host_write w q i) as [e|] end; simpl.
    + eexists. split; [reflexivity|]. split; [discriminate|].
      split; [|split].
      * intros q Hq. now apply lookup_update_other.
      * intros f. apply In_update.
      * intros f. apply update_keeps.
    + eexists. split; [reflexivity|]. split; [|split; [|split]].
      * intros _. apply lookup_update_same.
      * intros q Hq. rewrite !lookup_update_other; auto.
      * intros f Hf. apply In_update in Hf as [Hf|Hf]; [now left|].
        now apply In_update in Hf.
      * intros f Hf Hn. apply update_keeps; [|assumption].
        now apply update_keeps.
Qed.

(** X1. Round trip of the configuration file: when [writeConfigToFile]
    returns no error, the file at the path it was given holds the
    input, byte for byte; every other file, the directories, the
    environment of the process and the log of commands are as they
    were. *)
Theorem writeConfigToFile_round_trip (input p : string) (m : Machine) :
  fst (writeConfigToFile input p m) = None ->
  let w' := world (snd (writeConfigToFile input p m)) in
  os.lookup p (files w') = Some input
  /\ (forall q, q <> p -> os.lookup q (files w') = os.lookup q (files (world m)))
  /\ dirs w' = dirs (world m)
  /\ environ w' = environ (world m)
  /\ calls w' = calls (world m).
Proof.
  intros Hok w'. subst w'.
  destruct (writeConfigToFile_files input p m) as (fs & -> & H1 & H2 & _).
  cbn. repeat split; auto.
Qed.

(** The machine on which [execute] runs the command, when the workspace
    could be made. *)
Lemma execute_workspace (a : list string) (m : Machine) (d : string) :
  fst (createTempDir (v1alpha1.Name (obj m)) m) = (d, None) ->
  exists fs,
    let m3 := with_world (set_files fs (set_dirs (d :: dirs (world m)) (world m)))
                (with_dir d m) in
    snd (writeConfigToFile (configOf (obj m)) (configPath d)
           (with_dir d (snd (createTempDir (v1alpha1.Name (obj m)) m)))) = m3
    /\ (fst (writeConfigToFile (configOf (obj m)) (configPath d)
               (with_dir d (snd (createTempDir (v1alpha1.Name (obj m)) m)))) = None ->
        os.lookup (configPath d) fs = Some (configOf (obj m)))
    /\ (forall f, In f fs -> fst f = configPath d \/ In f (files (world m)))
    /\ (forall f, In f (files (world m)) -> fst f <> configPath d -> In f fs)
    /\ Part000.execute a m =
         match fst (writeConfigToFile (configOf (obj m)) (configPath d)
                      (with_dir d (snd (createTempDir (v1alpha1.Name (obj m)) m)))) with
         | Some e =>
             (("", Some e), with_world (snd (os.RemoveAll d (world m3))) m3)
         | None =>
             (fst (execPcluster a m3),
              with_world (snd (os.RemoveAll d (world (snd (execPcluster a m3)))))
                (snd (execPcluster a m3)))
         end.
Proof.
  intros Hd.
  destruct (createTempDir_cases (v1alpha1.Name (obj m)) m) as [[e H]|[d' [H _]]];
    rewrite H in Hd; [discriminate|]. injection Hd as ->.
  rewrite execute_run, H. cbn [snd].
  set (m1 := with_world (set_dirs (d :: dirs (world m)) (world m)) m).
  destruct (writeConfigToFile_files (configOf (obj m)) (configPath d) (with_dir d m1))
    as (fs & Hs & H1 & _ & H3 & H4).
  exists fs. cbv zeta.
  split; [exact Hs|]. split; [exact H1|]. split; [exact H3|]. split; [exact H4|].
  destruct (writeConfigToFile (configOf (obj m)) (configPath d) (with_dir d m1))
    as [[e|] m3] eqn:Hw; cbn [fst snd] in *; subst m3.
  - reflexivity.
  - destruct (execPcluster a _) as [r m4]. reflexivity.
Qed.

(** X2. When the directory has been made, the file written and the
    search path accepted, [execute] of [part_000] returns what the
    command returns, output and error as they are, and the command is
    run with the arguments it was given, in the new directory, in a
    world where that directory exists and the configuration file in it
    holds the configuration document of the resource. *)
Theorem execute_runs_in_workspace (a : list string) (m : Machine) (d : string) :
  fst (createTempDir (v1alpha1.Name (obj m)) m) = (d, None) ->
  fst (writeConfigToFile (configOf (obj m)) (configPath d)
         (with_dir d (snd (createTempDir (v1alpha1.Name (obj m)) m)))) = None ->
  strings.ContainsRune (path (self m)) os.NUL = false ->
  exists w,
    fst (Part000.execute a m) = host_run w (pcluster (self m) d a)
    /\ In d (dirs w)
    /\ os.lookup (configPath d) (files w) = Some (configOf (obj m))
    /\ PATH w = Some (path (self m))
    /\ ran (world m) (world (snd (Part000.execute a m))) [pcluster (self m) d a].
Proof.
  intros Hd Hw Hp.
  destruct (execute_workspace a m d Hd) as (fs & _ & H1 & _ & _ & Hx).
  rewrite Hw in Hx. rewrite Hx. clear Hx. cbn [fst snd].
  rewrite execPcluster_run. cbn [self with_world with_dir path].
  rewrite Hp. cbn [fst snd world with_world].
  eexists. split; [reflexivity|].
  split; [cbn; now left|]. split; [cbn; auto|]. split.
  - unfold PATH. cbn. apply lookup_update_same.
  - unfold ran.
    match goal with |- context [os.RemoveAll d ?w] =>
      destruct (RemoveAll_keeps d w) as [_ ->] end.
    reflexivity.
Qed.

(** X3. [execute] of [part_000] is confined to its directory. When
    [os.MkdirTemp] fails the disk is as it was. When it has made the
    directory: whatever the removal does, the only directory that can
    have appeared is that one and the only file that can have appeared
    is the configuration file in it, and every directory and file that
    existed before and does not lie in the directory is still there;
    when the host lets the directory go, every directory and every
    file that exists when [execute] returns existed before. *)
Theorem execute_confined_to_workspace (a : list string) (m : Machine) :
  let w' := world (snd (Part000.execute a m)) in
  let name := v1alpha1.Name (obj m) in
  (forall x e w1,
      os.MkdirTemp "" name (world m) = ((x, Some e), w1) ->
      dirs w' = dirs (world m) /\ files w' = files (world m))
  /\ (forall d w1,
        os.MkdirTemp "" name (world m) = ((d, None), w1) ->
        (forall p, In p (dirs w') -> p = d \/ In p (dirs (world m)))
        /\ (forall f, In f (files w') ->
                      fst f = configPath d \/ In f (files (world m)))
        /\ (forall p, In p (dirs (world m)) -> os.within d p = false ->
                      In p (dirs w'))
        /\ (forall f, In f (files (world m)) -> os.within d (fst f) = false ->
                      In f (files w'))
        /\ exists w,
             w' = snd (os.RemoveAll d w)
             /\ (host_remove w d = None ->
                 (forall p, In p (dirs w') -> In p (dirs (world m)))
                 /\ (forall f, In f (files w') -> In f (files (world m))))).
Proof.
  cbv zeta.
  destruct (MkdirTemp_cases "" (v1alpha1.Name (obj m)) (world m))
    as [[e0 H0]|[d0 [H0 Hne]]]; split.
  - intros x e w1 _. rewrite execute_run, createTempDir_run, H0. cbn. auto.
  - intros d w1 H. rewrite H0 in H. discriminate.
  - intros x e w1 H. rewrite H0 in H. discriminate.
  - intros d w1 H. rewrite H0 in H. injection H as <- <-.
    assert (Hd : fst (createTempDir (v1alpha1.Name (obj m)) m) = (d0, None))
      by (apply createTempDir_made; eauto).
    destruct (execute_workspace a m d0 Hd) as (fs & _ & _ & H3 & H4 & Hx).
    assert (Hw : exists w3,
               world (snd (Part000.execute a m)) = snd (os.RemoveAll d0 w3)
               /\ dirs w3 = d0 :: dirs (world m) /\ files w3 = fs).
    { rewrite Hx.
      destruct (fst (writeConfigToFile _ _ _)) as [e|]; cbn [snd world with_world].
      - eexists. split; [reflexivity|]. split; reflexivity.
      - eexists. split; [reflexivity|].
        match goal with |- context [execPcluster a ?x] =>
          destruct (execPcluster_keeps a x) as (_ & _ & -> & ->) end.
        split; reflexivity. }
    clear Hx. destruct Hw as (w3 & -> & Hd3 & Hf3).
    destruct (RemoveAll_frame d0 w3) as (F1 & F2 & F3 & F4).
    rewrite Hd3 in F1, F3. rewrite Hf3 in F2, F4.
    split; [|split; [|split; [|split]]].
    + intros p Hp. destruct (F1 p Hp) as [<-|Hin]; auto.
    + intros f Hf. apply H3. now apply F2.
    + intros p Hp Hn. apply F3; [now right | assumption].
    + intros f Hf Hn. apply F4; [|assumption].
      apply H4; [assumption|]. intros E.
      rewrite E, within_configPath in Hn. discriminate.
    + exists w3. split; [reflexivity|]. intros Hr.
      destruct (RemoveAll_gone d0 w3 Hne Hr) as (G1 & _ & G3). split.
      * intros p Hp. destruct (F1 p Hp) as [<-|Hin]; [|assumption].
        now destruct G1.
      * intros f Hf. destruct (H3 f (F2 f Hf)) as [E|Hin]; [|assumption].
        specialize (G3 f Hf). rewrite E, within_configPath in G3. discriminate.
Qed.

(** X4. After [execute] has made its directory, the client keeps the
    name of that directory as its working directory, although
    [execute] has called [os.RemoveAll] on it and the directory is gone
    when the host has let it go; a command that is run next through
    [execPcluster], as the describe command of [Observe] is, is issued
    in that directory. *)
Theorem execute_leaves_stale_dir (a b : list string) (m : Machine) (d : string) :
  fst (createTempDir (v1alpha1.Name (obj m)) m) = (d, None) ->
  let m' := snd (Part000.execute a m) in
  dir (self m') = d
  /\ (exists w,
        world m' = snd (os.RemoveAll d w)
        /\ (host_remove w d = None -> ~ In d (dirs (world m'))))
  /\ forall i, In i (calls (world (snd (execPcluster b m')))) ->
               In i (calls (world m')) \/ (Args i = b /\ Dir i = d).
Proof.
  intros Hd m'. subst m'.
  destruct (proj1 (createTempDir_made _ m d) Hd) as [w1 Hm].
  destruct (execute_removes a m d w1 Hm) as (_ & w & _ & Hw & Hgone).
  assert (Hdir : dir (self (snd (Part000.execute a m))) = d).
  { destruct (execute_workspace a m d Hd) as (fs & _ & _ & _ & _ & Hx).
    rewrite Hx. destruct (fst (writeConfigToFile _ _ _)) as [e|];
      cbn [snd self with_world]; [reflexivity|].
    match goal with |- context [execPcluster a ?x] =>
      destruct (execPcluster_keeps a x) as (-> & _) end.
    reflexivity. }
  split; [exact Hdir|]. split.
  { exists w. split; [exact Hw|]. intros Hr. now apply Hgone. }
  intros i Hi.
  destruct (execPcluster_ran b (snd (Part000.execute a m))) as [R|R];
    unfold ran in R; rewrite R in Hi.
  - rewrite app_nil_r in Hi. now left.
  - apply in_app_iff in Hi as [Hi|[<-|[]]]; [now left|].
    right. split; [reflexivity | exact Hdir].
Qed.

(** [execute] of the earlier revision is [execute] of [part_000] with
    the output dropped when there is an error. *)
Lemma ClusterGo_execute_run (a : list string) (m : Machine) :
  ClusterGo.execute a m =
    let '((out, err), m') := Part000.execute a m in
    ((if isErr err then "" else out, err), m').
Proof.
  unfold ClusterGo.execute, Part000.execute. monad. cbn beta iota.
  destruct (createTempDir (v1alpha1.Name (obj m)) m) as [[d [e|]] m1];
    [reflexivity|].
  match goal with |- context [writeConfigToFile ?i ?p ?x] =>
    destruct (writeConfigToFile i p x) as [[e|] m3] end;
    [destruct (os.RemoveAll d (world m3)); reflexivity|].
  destruct (execPcluster a m3) as [[out [e|]] m4];
    destruct (os.RemoveAll d (world m4)); reflexivity.
Qed.

(** X5. The two revisions of [execute] differ in one point: when the
    command (or the workspace) fails, [cluster.go] returns the error
    with an empty output, where [part_000] returns the output the
    command printed. The error, the output of a command that
    succeeds, and the state left behind are the same. *)
Theorem ClusterGo_execute_drops_output (a : list string) (m : Machine) :
  snd (ClusterGo.execute a m) = snd (Part000.execute a m)
  /\ snd (fst (ClusterGo.execute a m)) = snd (fst (Part000.execute a m))
  /\ (snd (fst (Part000.execute a m)) = None ->
      fst (fst (ClusterGo.execute a m)) = fst (fst (Part000.execute a m)))
  /\ (snd (fst (Part000.execute a m)) <> None ->
      fst (fst (ClusterGo.execute a m)) = "").
Proof.
  rewrite ClusterGo_execute_run.
  destruct (Part000.execute a m) as [[out [e|]] m']; cbn; repeat split; auto;
    intros; congruence.
Qed.

End FurtherWorkspace.

(* ------------------------------------------------------------------ *)
(** ** Further properties: the operations                              *)
(* ------------------------------------------------------------------ *)

Section FurtherOperations.
Context {host : Host} {dec : Decoders}.

Lemma ClusterGo_execute_keeps (a : list string) (m : Machine) :
  obj (snd (ClusterGo.execute a m)) = obj m.
Proof.
  rewrite ClusterGo_execute_run.
  pose proof (execute_keeps a m) as [H _].
  destruct (Part000.execute a m) as [[out err] m']. exact H.
Qed.

(** X6. In the earlier revision each of Create, Update and Delete, when
    it succeeds, has decoded the output of its command and has written
    the cluster status, stack ARN, scheduler type and name of the
    decoded cluster onto the observed status, and nothing else of the
    resource has changed; when it returns an error the resource is as
    it was. *)
Theorem ClusterGo_write_back (m : Machine) :
  (forall e, fst (ClusterGo.Create ClusterKind m) = Some e ->
             obj (snd (ClusterGo.Create ClusterKind m)) = obj m)
  /\ (forall e, fst (ClusterGo.Update ClusterKind m) = Some e ->
                obj (snd (ClusterGo.Update ClusterKind m)) = obj m)
  /\ (forall e, fst (ClusterGo.Delete ClusterKind m) = Some e ->
                obj (snd (ClusterGo.Delete ClusterKind m)) = obj m)
  /\ (fst (ClusterGo.Create ClusterKind m) = None ->
      exists out o,
        fst (ClusterGo.execute (ClusterGo.createArgs (obj m)) m) = (out, None)
        /\ json_Unmarshal out zeroCreate = (o, None)
        /\ written (Create_Cluster o) (obj m)
             (obj (snd (ClusterGo.Create ClusterKind m))))
  /\ (fst (ClusterGo.Update ClusterKind m) = None ->
      exists out o,
        fst (ClusterGo.execute (ClusterGo.updateArgs (obj m)) m) = (out, None)
        /\ json_Unmarshal out zeroUpdate = (o, None)
        /\ written (Update_Cluster o) (obj m)
             (obj (snd (ClusterGo.Update ClusterKind m))))
  /\ (fst (ClusterGo.Delete ClusterKind m) = None ->
      exists out o,
        fst (ClusterGo.execute (ClusterGo.deleteArgs (obj m)) m) = (out, None)
        /\ json_Unmarshal out zeroDelete = (o, None)
        /\ written (Delete_Cluster o) (obj m)
             (obj (snd (ClusterGo.Delete ClusterKind m)))).
Proof.
  pose proof (ClusterGo_execute_keeps (ClusterGo.createArgs (obj m)) m) as Kc.
  pose proof (ClusterGo_execute_keeps (ClusterGo.updateArgs (obj m)) m) as Ku.
  pose proof (ClusterGo_execute_keeps (ClusterGo.deleteArgs (obj m)) m) as Kd.
  unfold ClusterGo.Create, ClusterGo.Update, ClusterGo.Delete. monad.
  cbn beta iota.
  destruct (ClusterGo.execute (ClusterGo.createArgs (obj m)) m) as [[oc [ec|]] mc].
  2: destruct (json_Unmarshal oc zeroCreate) as [co [ec|]] eqn:Hco.
  all: destruct (ClusterGo.execute (ClusterGo.updateArgs (obj m)) m) as [[ou [eu|]] mu].
  all: try destruct (json_Unmarshal ou zeroUpdate) as [uo [eu|]] eqn:Huo.
  all: destruct (ClusterGo.execute (ClusterGo.deleteArgs (obj m)) m) as [[od [ed|]] md].
  all: try destruct (json_Unmarshal od zeroDelete) as [do [ed|]] eqn:Hdo.
  all: cbn [fst snd obj] in *.
  all: split; [intros e He; first [assumption | discriminate He]|].
  all: split; [intros e He; first [assumption | discriminate He]|].
  all: split; [intros e He; first [assumption | discriminate He]|].
  all: split; [intros He; try discriminate He|].
  all: try (split; [intros He; try discriminate He|]).
  all: try (intros He; try discriminate He).
  all: try (do 2 eexists; split; [reflexivity|]; split; [eassumption|];
            first [rewrite Kc | rewrite Ku | rewrite Kd];
            unfold written, atProvider, ready; cbn; repeat split).
Qed.

(** X7. The table of the earlier revision. For a describe response
    that decodes, [Observe] of [cluster.go] runs no other command and
    returns without error: exists is false for CreateFailed and
    DeleteComplete and true otherwise; upToDate is true for the three
    in-progress and the two complete statuses and false for the four
    others; the Ready condition becomes Available for CreateComplete
    and UpdateComplete and Unavailable for every other status; the
    observed status of the resource is not touched. *)
Theorem ClusterGo_Observe_table
        (m : Machine) (out : string) (d : DescribeClusterOutput)
        (s : Spec.RemoteLifecycleStatus) :
  fst (execPcluster (Spec.describe_cluster (v1alpha1.Name (obj m))) m)
    = (out, None) ->
  unmarshalDescribe out = (d, None) ->
  statusIn d = Spec.text s ->
  fst (ClusterGo.Observe ClusterKind m)
  = ({| managed.ResourceExists := Spec.table_exists s;
        managed.ResourceUpToDate :=
          match s with
          | Spec.S_CreateFailed | Spec.S_DeleteComplete
          | Spec.S_UpdateFailed | Spec.S_DeleteFailed => false
          | _ => true
          end |}, None)
  /\ ready (obj (snd (ClusterGo.Observe ClusterKind m)))
     = Some (match s with
             | Spec.S_CreateComplete | Spec.S_UpdateComplete => xpv1.Available
             | _ => xpv1.Unavailable
             end)
  /\ atProvider (obj (snd (ClusterGo.Observe ClusterKind m))) = atProvider (obj m)
  /\ ran (world m) (world (snd (ClusterGo.Observe ClusterKind m)))
       [pcluster (self m) (dir (self m))
          (Spec.describe_cluster (v1alpha1.Name (obj m)))].
Proof.
  intros Hx Hd Hs.
  pose proof (execPcluster_ok_ran _ m out Hx) as R.
  pose proof (execPcluster_keeps
                (Spec.describe_cluster (v1alpha1.Name (obj m))) m) as (_ & Ko & _).
  unfold ClusterGo.Observe. monad. cbn beta iota.
  unfold Spec.describe_cluster in *.
  destruct (execPcluster _ m) as [[out' err] m1]. cbn [fst snd] in *.
  injection Hx as -> ->. rewrite Hd. fold (statusIn d). rewrite Hs.
  unfold ready, atProvider.
  destruct s; cbn; rewrite Ko; repeat split; exact R.
Qed.

Lemma NotFound_agree (out name : string) :
  String.eqb (fst (ClusterGo.getErrorStatus out name)) errStatusNotFound
  = String.eqb (fst (Part000.getErrorStatus out name)) errStatusNotFound.
Proof.
  unfold ClusterGo.getErrorStatus, Part000.getErrorStatus.
  destruct (json_Unmarshal out zeroError) as [pErr [e|]]; [reflexivity|].
  destruct (strings.HasPrefix _ _); [reflexivity|].
  destruct (String.eqb _ _ || strings.HasPrefix _ _); [reflexivity|].
  destruct (String.eqb _ Part000.errPClusterCliDryRun); reflexivity.
Qed.

(** X8. The two revisions of [Observe] agree whenever no observation of
    a status is made: when the describe command fails (absence of the
    cluster, or an error that is returned), and when its response does
    not decode, they return the same result and leave the same
    state. *)
Theorem Observe_revisions_agree (m : Machine) (out : string) (err : option error) :
  fst (execPcluster (Spec.describe_cluster (v1alpha1.Name (obj m))) m)
    = (out, err) ->
  err <> None \/ snd (unmarshalDescribe out) <> None ->
  ClusterGo.Observe ClusterKind m = Part000.Observe ClusterKind m.
Proof.
  intros Hx Hc.
  unfold ClusterGo.Observe, Part000.Observe. monad. cbn beta iota.
  unfold Spec.describe_cluster in *.
  destruct (execPcluster _ m) as [[out' err'] m1]. cbn [fst snd] in *.
  injection Hx as -> ->.
  destruct err as [e|].
  - pose proof (NotFound_agree out (v1alpha1.Name (obj m))) as H.
    destruct (ClusterGo.getErrorStatus out (v1alpha1.Name (obj m))) as [s1 e1].
    destruct (Part000.getErrorStatus out (v1alpha1.Name (obj m))) as [s2 e2].
    cbn [fst] in H. rewrite H. reflexivity.
  - destruct Hc as [Hc|Hc]; [congruence|].
    destruct (unmarshalDescribe out) as [d [e|]]; [reflexivity|].
    cbn in Hc. congruence.
Qed.

(** X9. [Observe] of [part_000] changes the resource only when it
    returns an observation of a status: when it returns an error, and
    when the describe command fails (absence included), the resource
    is as it was; after a failed describe command no directory and no
    file has been touched either. *)
Theorem Observe_failure_keeps_resource (mg : Managed) (m : Machine) :
  (forall e, snd (fst (Part000.Observe mg m)) = Some e ->
             obj (snd (Part000.Observe mg m)) = obj m)
  /\ (forall out e,
        fst (execPcluster (Spec.describe_cluster (v1alpha1.Name (obj m))) m)
          = (out, Some e) ->
        obj (snd (Part000.Observe ClusterKind m)) = obj m
        /\ dirs (world (snd (Part000.Observe ClusterKind m))) = dirs (world m)
        /\ files (world (snd (Part000.Observe ClusterKind m))) = files (world m)).
Proof.
  pose proof (execPcluster_keeps
                (Spec.describe_cluster (v1alpha1.Name (obj m))) m)
    as (_ & Ko & Kd & Kf).
  split.
  - destruct mg; [|reflexivity]. intros e He.
    destruct (fst (execPcluster (Spec.describe_cluster (v1alpha1.Name (obj m))) m))
      as [out [x|]] eqn:Hx.
    + rewrite (Observe_describe_failed m out x Hx). exact Ko.
    + destruct (unmarshalDescribe out) as [d [x|]] eqn:Hd.
      * rewrite (Observe_describe_malformed m out d x Hx Hd). exact Ko.
      * destruct (Observe_decoded m out d Hx Hd) as (_ & _ & H).
        destruct (fst (Part000.isUpToDate _)) as [b [x|]].
        -- apply H.
        -- destruct H as (ex & Ho & _). rewrite Ho in He. discriminate.
  - intros out e Hx. rewrite (Observe_describe_failed m out e Hx). cbn [snd].
    auto.
Qed.

(** X10. When [Observe] of [part_000] returns an observation of a
    status, the observed status of the resource holds the cluster
    status, stack ARN, scheduler type and name of the describe
    response, for every status; the name, the spec and the time of the
    last update are as they were. When the status is none of the nine
    that the switch names, the observation has exists = false and the
    Ready condition is as it was. *)
Theorem Observe_writes_status
        (m : Machine) (out : string) (d : DescribeClusterOutput) (b : bool) :
  fst (execPcluster (Spec.describe_cluster (v1alpha1.Name (obj m))) m)
    = (out, None) ->
  unmarshalDescribe out = (d, None) ->
  fst (Part000.isUpToDate
         (snd (execPcluster (Spec.describe_cluster (v1alpha1.Name (obj m))) m)))
    = (b, None) ->
  let cr' := obj (snd (Part000.Observe ClusterKind m)) in
  let o := Describe_OutputCluster d in
  v1alpha1.ClusterStatus (atProvider cr') = ClusterStatus o
  /\ v1alpha1.CloudformationStackArn (atProvider cr') = CloudformationStackArn o
  /\ v1alpha1.Type_ (v1alpha1.Scheduler (atProvider cr'))
     = SchedulerType_type (Scheduler o)
  /\ v1alpha1.ClusterName (atProvider cr') = ClusterName o
  /\ v1alpha1.LastUpdatedTime (atProvider cr')
     = v1alpha1.LastUpdatedTime (atProvider (obj m))
  /\ v1alpha1.Name cr' = v1alpha1.Name (obj m)
  /\ v1alpha1.Spec cr' = v1alpha1.Spec (obj m)
  /\ (oneOf (statusIn d)
        [ CreateInProgress; UpdateInProgress; DeleteInProgress;
          CreateComplete; UpdateComplete; CreateFailed; DeleteComplete;
          UpdateFailed; DeleteFailed ] = false ->
      fst (Part000.Observe ClusterKind m)
      = ({| managed.ResourceExists := false; managed.ResourceUpToDate := b |}, None)
      /\ ready cr' = ready (obj m)).
Proof.
  intros Hx Hd Hp.
  pose proof (execPcluster_keeps
                (Spec.describe_cluster (v1alpha1.Name (obj m))) m) as (_ & Ko & _).
  unfold Part000.Observe. monad. cbn beta iota.
  unfold Spec.describe_cluster in *.
  destruct (execPcluster _ m) as [[out' err] m1]. cbn [fst snd] in *.
  injection Hx as -> ->. rewrite Hd.
  pose proof (isUpToDate_state m1) as Hs.
  pose proof (execute_keeps (Part000.dryrunArgs (obj m1)) m1) as [Eo _].
  rewrite <- Hs in Eo.
  destruct (Part000.isUpToDate m1) as [[b' err] m2]; cbn [fst snd] in *.
  injection Hp as -> ->.
  fold (statusIn d). unfold ready, atProvider, oneOf.
  cbn [existsb].
  destruct (String.eqb (statusIn d) CreateInProgress);
    destruct (String.eqb (statusIn d) UpdateInProgress);
    destruct (String.eqb (statusIn d) DeleteInProgress);
    destruct (String.eqb (statusIn d) CreateComplete);
    destruct (String.eqb (statusIn d) UpdateComplete);
    destruct (String.eqb (statusIn d) CreateFailed);
    destruct (String.eqb (statusIn d) DeleteComplete);
    destruct (String.eqb (statusIn d) UpdateFailed);
    destruct (String.eqb (statusIn d) DeleteFailed);
    cbn; rewrite ?Eo, ?Ko; repeat split; try discriminate; intros [=].
Qed.

End FurtherOperations.

(* ------------------------------------------------------------------ *)
(** ** Further properties: classifier, probe and client                *)
(* ------------------------------------------------------------------ *)

(** None of the fixed messages of the tool, and no message that begins
    with the update-in-progress text, is an absence message, whatever
    the name of the cluster. *)
Lemma fixed_not_absence (name rest : string) :
  strings.HasPrefix Part000.errPclusterCliNoChange (Spec.absence name) = false
  /\ strings.HasPrefix (Part000.errPClusterCliInProgress ++ rest)
       (Spec.absence name) = false
  /\ strings.HasPrefix Part000.errPClusterCliDryRun (Spec.absence name) = false
  /\ strings.HasPrefix "" (Spec.absence name) = false.
Proof. repeat split. Qed.

Lemma HasPrefix_self_app (a rest : string) : strings.HasPrefix (a ++ rest) a = true.
Proof. apply HasPrefix_begins. now exists rest. Qed.

Section FurtherClassifier.
Context {host : Host} {dec : Decoders}.

(** The classifier of [part_000] on the fixed messages of the tool. *)
Lemma fixed_messages (out name : string) (pErr : errorOutput) :
  json_Unmarshal out zeroError = (pErr, None) ->
  (Message pErr = Part000.errPclusterCliNoChange ->
   Part000.getErrorStatus out name = (Part000.errStatusUpToDate, None))
  /\ (forall rest,
        Message pErr = Part000.errPClusterCliInProgress ++ rest ->
        Part000.getErrorStatus out name = (Part000.errStatusUpToDate, None))
  /\ (Message pErr = Part000.errPClusterCliDryRun ->
      Part000.getErrorStatus out name = (Part000.errStatusNotUpToDate, None))
  /\ (Message pErr = "" ->
      Part000.getErrorStatus out name = (errStatusEmpty, None)).
Proof.
  intros Hd. unfold Part000.getErrorStatus. rewrite Hd.
  fold (Spec.absence name).
  split; [|split; [|split]].
  - intros ->. destruct (fixed_not_absence name "") as (-> & _). reflexivity.
  - intros rest ->. destruct (fixed_not_absence name rest) as (_ & -> & _).
    rewrite HasPrefix_self_app, orb_true_r. reflexivity.
  - intros ->. destruct (fixed_not_absence name "") as (_ & _ & -> & _).
    reflexivity.
  - intros ->. reflexivity.
Qed.

(** X11. The classification of the fixed messages does not depend on
    the name of the resource: the no-changes message, and every message
    that begins with the update-in-progress text, are UpToDate; the
    dry-run message is NotUpToDate; an empty message (a payload without
    the key [message]) is EmptyOrUnclassified. The absence rule, which
    comes first, never takes them: for such a message two resource
    names get the same answer. *)
Theorem getErrorStatus_fixed_messages (out name : string) (pErr : errorOutput) :
  json_Unmarshal out zeroError = (pErr, None) ->
  (Message pErr = Part000.errPclusterCliNoChange ->
   Part000.getErrorStatus out name = (Part000.errStatusUpToDate, None))
  /\ (forall rest,
        Message pErr = Part000.errPClusterCliInProgress ++ rest ->
        Part000.getErrorStatus out name = (Part000.errStatusUpToDate, None))
  /\ (Message pErr = Part000.errPClusterCliDryRun ->
      Part000.getErrorStatus out name = (Part000.errStatusNotUpToDate, None))
  /\ (Message pErr = "" ->
      Part000.getErrorStatus out name = (errStatusEmpty, None))
  /\ (forall name',
        Message pErr = Part000.errPclusterCliNoChange
        \/ Spec.begins (Message pErr) Part000.errPClusterCliInProgress
        \/ Message pErr = Part000.errPClusterCliDryRun
        \/ Message pErr = "" ->
        Part000.getErrorStatus out name' = Part000.getErrorStatus out name).
Proof.
  intros Hd.
  destruct (fixed_messages out name pErr Hd) as (H1 & H2 & H3 & H4).
  split; [exact H1|]. split; [exact H2|]. split; [exact H3|]. split; [exact H4|].
  intros name' Hm.
  destruct (fixed_messages out name' pErr Hd) as (G1 & G2 & G3 & G4).
  destruct Hm as [Hm|[[rest Hm]|[Hm|Hm]]].
  - now rewrite (H1 Hm), (G1 Hm).
  - now rewrite (H2 rest Hm), (G2 rest Hm).
  - now rewrite (H3 Hm), (G3 Hm).
  - now rewrite (H4 Hm), (G4 Hm).
Qed.

(** X12. The probe of [part_000] answers true in one case only: the dry
    run ended with an error and a payload that is not empty and
    decodes, and the message is the no-changes message or begins with
    the update-in-progress text. It never returns true together with
    an error. *)
Theorem isUpToDate_true_iff (m : Machine) :
  (fst (Part000.isUpToDate m) = (true, None) <->
   exists out e pErr,
     fst (Part000.execute (Part000.dryrunArgs (obj m)) m) = (out, Some e)
     /\ out <> ""
     /\ json_Unmarshal out zeroError = (pErr, None)
     /\ (Message pErr = Part000.errPclusterCliNoChange
         \/ Spec.begins (Message pErr) Part000.errPClusterCliInProgress))
  /\ (forall b e, fst (Part000.isUpToDate m) = (b, Some e) -> b = false).
Proof.
  rewrite isUpToDate_run.
  destruct (Part000.execute (Part000.dryrunArgs (obj m)) m) as [[out err] m'].
  cbn [fst]. split; [split|].
  - destruct err as [e|]; cbn [isErr andb]; [|discriminate].
    destruct (String.eqb out "") eqn:Ho; cbn [negb]; [discriminate|].
    apply String.eqb_neq in Ho.
    destruct (json_Unmarshal out zeroError) as [pErr [de|]] eqn:Hd.
    { unfold Part000.getErrorStatus. rewrite Hd. cbn. discriminate. }
    destruct (getErrorStatus_decoded out (v1alpha1.Name (obj m)) pErr Hd)
      as (c & Hc & ->).
    rewrite errStatusOf_UpToDate. intros H.
    exists out, e, pErr. repeat split; auto.
    destruct Hc; cbn in H; try discriminate. assumption.
  - intros (out' & e & pErr & [= <- ->] & Ho & Hd & Hm).
    apply String.eqb_neq in Ho. rewrite Ho. cbn [isErr negb andb].
    assert (Hs : Part000.getErrorStatus out (v1alpha1.Name (obj m))
                 = (Part000.errStatusUpToDate, None)).
    { destruct (fixed_messages out (v1alpha1.Name (obj m)) pErr Hd)
        as (H1 & H2 & _).
      destruct Hm as [Hm|[rest Hm]]; [apply H1 | apply (H2 rest)]; exact Hm. }
    rewrite Hs. reflexivity.
  - intros b e.
    destruct (isErr err && negb (String.eqb out "")).
    + destruct (Part000.getErrorStatus out (v1alpha1.Name (obj m))) as [st [x|]];
        congruence.
    + congruence.
Qed.

(** X13. The probe leaves the resource as it was (status and conditions
    included), keeps the environment list and the search path of the
    client, and runs at most the dry run. *)
Theorem isUpToDate_keeps_resource (m : Machine) :
  obj (snd (Part000.isUpToDate m)) = obj m
  /\ env (self (snd (Part000.isUpToDate m))) = env (self m)
  /\ path (self (snd (Part000.isUpToDate m))) = path (self m)
  /\ forall i, In i (calls (world (snd (Part000.isUpToDate m)))) ->
               In i (calls (world m))
               \/ Args i = dryrun_update_cluster clusterConfigFileName
                             (v1alpha1.Name (obj m)).
Proof.
  rewrite isUpToDate_state.
  destruct (execute_keeps (Part000.dryrunArgs (obj m)) m) as (Ko & Ke & Kp).
  split; [exact Ko|]. split; [exact Ke|]. split; [exact Kp|].
  intros i Hi.
  destruct (execute_ran (Part000.dryrunArgs (obj m)) m) as [R|(d & _ & R)];
    unfold ran in R; rewrite R in Hi.
  - rewrite app_nil_r in Hi. now left.
  - apply in_app_iff in Hi as [Hi|[<-|[]]]; [now left | now right].
Qed.

(** X14. How the mutating operations of [part_000] report a failure of
    [execute] (a workspace error or a command that fails): Create and
    Update return the error as it is, Delete wraps it; none of them
    looks at the output. A failure to decode the output of a command
    that succeeded is wrapped by all three. *)
Theorem mutations_report_errors (m : Machine) :
  (forall out e,
      fst (Part000.execute (Part000.createArgs (obj m)) m) = (out, Some e) ->
      fst (Part000.Create ClusterKind m) = Some e)
  /\ (forall out e,
        fst (Part000.execute (Part000.updateArgs (obj m)) m) = (out, Some e) ->
        fst (Part000.Update ClusterKind m) = Some e)
  /\ (forall out e,
        fst (Part000.execute (Part000.deleteArgs (obj m)) m) = (out, Some e) ->
        fst (Part000.Delete ClusterKind m)
        = Some (Errorf "failed to delete using pcluster cli: " e))
  /\ (forall out o e,
        fst (Part000.execute (Part000.createArgs (obj m)) m) = (out, None) ->
        json_Unmarshal out zeroCreate = (o, Some e) ->
        fst (Part000.Create ClusterKind m)
        = Some (Errorf "failed to unmarshal create output: " e))
  /\ (forall out o e,
        fst (Part000.execute (Part000.updateArgs (obj m)) m) = (out, None) ->
        json_Unmarshal out zeroUpdate = (o, Some e) ->
        fst (Part000.Update ClusterKind m)
        = Some (Errorf "failed to unmarshal update output: " e))
  /\ (forall out o e,
        fst (Part000.execute (Part000.deleteArgs (obj m)) m) = (out, None) ->
        json_Unmarshal out zeroDelete = (o, Some e) ->
        fst (Part000.Delete ClusterKind m)
        = Some (Errorf "failed to unmarshal update output: " e)).
Proof.
  pose proof (Create_cases m) as HC.
  pose proof (Update_cases m) as [_ HU].
  pose proof (Delete_cases m) as [_ HD].
  cbv zeta in *.
  split; [|split; [|split; [|split; [|split]]]].
  - intros out e H. rewrite H in HC. apply HC.
  - intros out e H. now rewrite H in HU.
  - intros out e H. now rewrite H in HD.
  - intros out o e H Hd. rewrite H, Hd in HC. apply HC.
  - intros out o e H Hd. now rewrite H, Hd in HU.
  - intros out o e H Hd. now rewrite H, Hd in HD.
Qed.

(** X15. Two runs of [Observe] of [part_000] from end to end. When the
    describe response decodes with CreateComplete or UpdateComplete and
    the dry run fails with a payload that decodes: the no-changes
    message gives exists = true, upToDate = true; the
    dry-run-would-succeed message gives exists = true, upToDate =
    false; in both the resource is Available afterwards. *)
Theorem Observe_complete_cluster
        (m : Machine) (out pout : string) (d : DescribeClusterOutput)
        (e : error) (pErr : errorOutput) :
  fst (execPcluster (Spec.describe_cluster (v1alpha1.Name (obj m))) m)
    = (out, None) ->
  unmarshalDescribe out = (d, None) ->
  statusIn d = CreateComplete \/ statusIn d = UpdateComplete ->
  let m1 := snd (execPcluster (Spec.describe_cluster (v1alpha1.Name (obj m))) m) in
  fst (Part000.execute (Part000.dryrunArgs (obj m1)) m1) = (pout, Some e) ->
  pout <> "" ->
  json_Unmarshal pout zeroError = (pErr, None) ->
  (Message pErr = Part000.errPclusterCliNoChange ->
   fst (Part000.Observe ClusterKind m)
   = ({| managed.ResourceExists := true; managed.ResourceUpToDate := true |}, None)
   /\ ready (obj (snd (Part000.Observe ClusterKind m))) = Some xpv1.Available)
  /\ (Message pErr = Part000.errPClusterCliDryRun ->
      fst (Part000.Observe ClusterKind m)
      = ({| managed.ResourceExists := true; managed.ResourceUpToDate := false |},
         None)
      /\ ready (obj (snd (Part000.Observe ClusterKind m))) = Some xpv1.Available).
Proof.
  intros Hx Hd Hst m1 Hp Hne Hpd.
  destruct (Observe_decoded m out d Hx Hd) as (_ & _ & H). fold m1 in H.
  assert (Hname : v1alpha1.Name (obj m1) = v1alpha1.Name (obj m)).
  { subst m1. now destruct (execPcluster_keeps
      (Spec.describe_cluster (v1alpha1.Name (obj m))) m) as (_ & -> & _). }
  assert (Hv : forall st,
             Part000.getErrorStatus pout (v1alpha1.Name (obj m1)) = (st, None) ->
             fst (Part000.isUpToDate m1)
             = (String.eqb st Part000.errStatusUpToDate, None)).
  { intros st Hst'. rewrite isUpToDate_run.
    destruct (Part000.execute (Part000.dryrunArgs (obj m1)) m1) as [[o' e'] m2].
    cbn [fst] in *. injection Hp as -> ->.
    apply String.eqb_neq in Hne. rewrite Hne. cbn [isErr negb andb].
    now rewrite Hst'. }
  assert (Hc1 : oneOf (statusIn d)
                  [CreateInProgress; UpdateInProgress; DeleteInProgress] = false)
    by (destruct Hst as [-> | ->]; reflexivity).
  assert (Hc2 : oneOf (statusIn d) [CreateComplete; UpdateComplete] = true)
    by (destruct Hst as [-> | ->]; reflexivity).
  destruct (fixed_messages pout (v1alpha1.Name (obj m1)) pErr Hpd)
    as (F1 & _ & F3 & _).
  split; intros Hm.
  - rewrite (Hv _ (F1 Hm)) in H. destruct H as (ex & Ho & _ & H2 & _).
    destruct (H2 Hc1 Hc2) as [-> Hr]. split; [exact Ho | exact Hr].
  - rewrite (Hv _ (F3 Hm)) in H. destruct H as (ex & Ho & _ & H2 & _).
    destruct (H2 Hc1 Hc2) as [-> Hr]. split; [exact Ho | exact Hr].
Qed.

Lemma venv_path_nonempty (v p : string) : String.eqb (v ++ "/bin:" ++ p) "" = false.
Proof. destruct v; reflexivity. Qed.

(** X16. The client [Connect] of [part_000] builds, once the
    collaborators have answered. Without the variable PYTHON_VENV_PATH
    the search path of the client is empty and its environment list is
    the environment of the process. With the variable set to [v] and
    the tool present at [v/bin/pcluster], the search path is [v/bin]
    followed by the current PATH, and the environment list is the
    environment of the process followed by one entry that sets PATH to
    it. With the variable set and the tool absent there is no client
    but an error. *)
Theorem Connect_client (m : Machine) :
  host_collaborators (world m) = None ->
  (os.lookup virtualEnvPath (environ (world m)) = None ->
   fst (Part000.Connect ClusterKind m)
   = (Some {| dir := ""; env := os.Environ (world m); path := "" |}, None))
  /\ (forall v,
        os.lookup virtualEnvPath (environ (world m)) = Some v ->
        os.Stat (v ++ "/bin/pcluster") (world m) = None ->
        fst (Part000.Connect ClusterKind m)
        = (Some {| dir := "";
                   env := (os.Environ (world m)
                           ++ [("PATH=" ++ v ++ "/bin:" ++ os.Getenv "PATH" (world m))
                                 %string])%list;
                   path := v ++ "/bin:" ++ os.Getenv "PATH" (world m) |}, None))
  /\ (forall v e,
        os.lookup virtualEnvPath (environ (world m)) = Some v ->
        os.Stat (v ++ "/bin/pcluster") (world m) = Some e ->
        fst (Part000.Connect ClusterKind m)
        = (None, Some (Errorf "pcluster file not found: " e))).
Proof.
  intros Hc. unfold Part000.Connect, getVEnvPath. monad. rewrite Hc.
  unfold os.LookupEnv.
  split; [|split].
  - intros ->. reflexivity.
  - intros v -> Hs. cbn [negb fst snd]. rewrite Hs. cbn [fst snd].
    rewrite venv_path_nonempty. reflexivity.
  - intros v e -> Hs. cbn [negb fst snd]. rewrite Hs. reflexivity.
Qed.

(** X17. A client built by [Connect] in a process without the variable
    PYTHON_VENV_PATH empties the PATH of the process with the first
    command it runs: after [execPcluster] the variable PATH of the
    process is the empty string, and the command has been run. *)
Theorem Connect_without_venv_empties_PATH
        (m0 m : Machine) (c : external) (a : list string) :
  os.lookup virtualEnvPath (environ (world m0)) = None ->
  fst (Part000.Connect ClusterKind m0) = (Some c, None) ->
  self m = c ->
  PATH (world (snd (execPcluster a m))) = Some ""
  /\ ran (world m) (world (snd (execPcluster a m))) [pcluster c (dir c) a].
Proof.
  intros Hv Hc Hs.
  assert (Hp : path c = "").
  { revert Hc. unfold Part000.Connect, getVEnvPath. monad.
    destruct (host_collaborators (world m0)); [discriminate|].
    unfold os.LookupEnv. rewrite Hv. cbn. intros [= <-]. reflexivity. }
  rewrite execPcluster_run, Hs, Hp. cbn [strings.ContainsRune fst snd world with_world].
  split.
  - unfold PATH. cbn. apply lookup_update_same.
  - reflexivity.
Qed.

(** X18. [Connect] of the two revisions. With the variable
    PYTHON_VENV_PATH set they return the same result. Without it, the
    earlier revision still appends an entry to the environment list of
    the client, one that sets PATH to the empty string, where
    [part_000] appends nothing. *)
Theorem Connect_revisions (m : Machine) :
  (forall v, os.lookup virtualEnvPath (environ (world m)) = Some v ->
             ClusterGo.Connect ClusterKind m = Part000.Connect ClusterKind m)
  /\ (os.lookup virtualEnvPath (environ (world m)) = None ->
      host_collaborators (world m) = None ->
      fst (ClusterGo.Connect ClusterKind m)
      = (Some {| dir := ""; env := (os.Environ (world m) ++ ["PATH="])%list;
                 path := "" |}, None)
      /\ fst (Part000.Connect ClusterKind m)
         = (Some {| dir := ""; env := os.Environ (world m); path := "" |}, None)).
Proof.
  unfold ClusterGo.Connect, Part000.Connect, getVEnvPath. monad.
  unfold os.LookupEnv. split.
  - intros v Hv.
    destruct (host_collaborators (world m)); [reflexivity|].
    rewrite Hv. cbn [negb fst snd].
    destruct (os.Stat (v ++ "/bin/pcluster") (world m)); [reflexivity|].
    cbn [fst snd]. rewrite venv_path_nonempty. reflexivity.
  - intros Hv Hc. rewrite Hc, Hv. split; reflexivity.
Qed.

End FurtherClassifier.

(* ------------------------------------------------------------------ *)
(** ** Further properties on the scenarios                             *)
(* ------------------------------------------------------------------ *)

Section FurtherScenarios.
Import Scenario Cases.
#[local] Existing Instance json.decoders.

(** X1, on a scenario. *)
Lemma writeConfigToFile_round_trip_witness :
  os.lookup "/tmp/cluster-config.yaml"
    (files (world (snd (writeConfigToFile (host := scenarioA)
                          (configOf makeCluster) "/tmp/cluster-config.yaml"
                          machine0))))
  = Some (configOf makeCluster).
Proof.
  exact (proj1 (writeConfigToFile_round_trip (host := scenarioA)
                  (configOf makeCluster) "/tmp/cluster-config.yaml" machine0
                  eq_refl)).
Defined.

(** X2, on a scenario. *)
Lemma execute_runs_in_workspace_witness :
  exists w,
    fst (Part000.execute (host := firstNoChange) (Part000.dryrunArgs makeCluster)
           machine0)
    = host_run (Host := firstNoChange) w
        (pcluster client0 workspace (Part000.dryrunArgs makeCluster))
    /\ In workspace (dirs w)
    /\ os.lookup (configPath workspace) (files w) = Some (configOf makeCluster)
    /\ PATH w = Some ""
    /\ ran world0
         (world (snd (Part000.execute (host := firstNoChange)
                        (Part000.dryrunArgs makeCluster) machine0)))
         [pcluster client0 workspace (Part000.dryrunArgs makeCluster)].
Proof.
  apply (execute_runs_in_workspace (host := firstNoChange)
           (Part000.dryrunArgs makeCluster) machine0 workspace);
    reflexivity.
Defined.

(** X3, on a scenario. *)
Lemma execute_confined_to_workspace_witness :
  In ("/tmp/other/cluster-config.yaml", "Region: eu")
    (files (world (snd (Part000.execute (host := removalFails)
                          (Part000.dryrunArgs makeCluster) busyMachine))))
  /\ forall p,
       In p (dirs (world (snd (Part000.execute (host := firstNoChange)
                                 (Part000.dryrunArgs makeCluster) busyMachine)))) ->
       In p ["/tmp"; "/tmp/other"].
Proof.
  split.
  - destruct (execute_confined_to_workspace (host := removalFails)
                (Part000.dryrunArgs makeCluster) busyMachine) as (_ & H).
    destruct (H workspace _ eq_refl) as (_ & _ & _ & H4 & _).
    apply H4; [left; reflexivity | reflexivity].
  - destruct (execute_confined_to_workspace (host := firstNoChange)
                (Part000.dryrunArgs makeCluster) busyMachine) as (_ & H).
    destruct (H workspace _ eq_refl) as (_ & _ & _ & _ & w & _ & Hg).
    apply Hg. reflexivity.
Defined.
Lemma execute_leaves_stale_dir_witness :
  dir (self (snd (Part000.execute (host := firstNoChange)
                    (Part000.dryrunArgs makeCluster) machine0))) = workspace
  /\ ~ In workspace
         (dirs (world (snd (Part000.execute (host := firstNoChange)
                             (Part000.dryrunArgs makeCluster) machine0)))).
Proof.
  destruct (execute_leaves_stale_dir (host := firstNoChange)
              (Part000.dryrunArgs makeCluster) (Spec.describe_cluster "test")
              machine0 workspace eq_refl) as (H1 & (w & _ & H2) & _).
  split; [assumption|]. apply H2. reflexivity.
Defined.

(** X5, on a scenario. *)
Lemma ClusterGo_execute_drops_output_witness :
  fst (ClusterGo.execute (host := firstNoChange)
         (ClusterGo.updateArgs makeCluster) machine0) = ("", Some exitError).
Proof.
  destruct (ClusterGo_execute_drops_output (host := firstNoChange)
              (ClusterGo.updateArgs makeCluster) machine0) as (_ & He & _ & Ho).
  rewrite (surjective_pairing (fst (ClusterGo.execute _ _))).
  rewrite Ho, He; [reflexivity | discriminate].
Defined.

(** X6, on a scenario. *)
Lemma ClusterGo_write_back_witness :
  v1alpha1.ClusterStatus
    (atProvider (obj (snd (ClusterGo.Delete (host := firstSucceeds)
                             ClusterKind machine0)))) = UpdateInProgress.
Proof.
  destruct (ClusterGo_write_back (host := firstSucceeds) machine0)
    as (_ & _ & _ & _ & _ & H).
  destruct (H eq_refl) as (out & o & Hx & Hd & Hw & _).
  rewrite Hw.
  assert (out = envelopePayload UpdateInProgress) as ->
      by (symmetry; exact (f_equal fst Hx)).
  change o with (fst (o, @None error)). rewrite <- Hd. reflexivity.
Defined.

(** X7, on a scenario. *)
Lemma ClusterGo_Observe_table_witness :
  fst (ClusterGo.Observe (host := creating) ClusterKind availableMachine)
  = ({| managed.ResourceExists := true; managed.ResourceUpToDate := true |}, None)
  /\ ready (obj (snd (ClusterGo.Observe (host := creating) ClusterKind
                        availableMachine))) = Some xpv1.Unavailable.
Proof.
  edestruct (ClusterGo_Observe_table (host := creating) availableMachine
               (describePayload CreateInProgress)
               (fst (unmarshalDescribe (describePayload CreateInProgress)))
               Spec.S_CreateInProgress)
    as (H1 & H2 & _); [reflexivity | reflexivity | reflexivity |].
  split; assumption.
Defined.

(** X8, on a scenario. *)
Lemma Observe_revisions_agree_witness :
  ClusterGo.Observe (host := scenarioD) ClusterKind machine0
  = Part000.Observe (host := scenarioD) ClusterKind machine0.
Proof.
  apply (Observe_revisions_agree (host := scenarioD) machine0
           (errorPayload "Internal server error") (Some exitError));
    [reflexivity | left; discriminate].
Defined.

(** X9, on a scenario. *)
Lemma Observe_failure_keeps_resource_witness :
  obj (snd (Part000.Observe (host := completeProbeCrashes) ClusterKind machine0))
  = makeCluster.
Proof.
  destruct (Observe_failure_keeps_resource (host := completeProbeCrashes)
              ClusterKind machine0) as [H _].
  eapply H. reflexivity.
Defined.

(** X10, on a scenario. *)
Lemma Observe_writes_status_witness :
  v1alpha1.ClusterStatus
    (atProvider (obj (snd (Part000.Observe (host := scenarioA) ClusterKind
                             machine0)))) = CreateComplete.
Proof.
  edestruct (Observe_writes_status (host := scenarioA) machine0
               (describePayload CreateComplete)
               (fst (unmarshalDescribe (describePayload CreateComplete))) true)
    as (H & _);
    [reflexivity | reflexivity | reflexivity |].
  rewrite H. reflexivity.
Defined.

(** X11, on a scenario. *)
Lemma getErrorStatus_fixed_messages_witness :
  Part000.getErrorStatus
    (errorPayload "Cannot execute update while stack is in UPDATE_IN_PROGRESS state")
    "test"
  = (Part000.errStatusUpToDate, None).
Proof.
  edestruct (getErrorStatus_fixed_messages
               (errorPayload
                  "Cannot execute update while stack is in UPDATE_IN_PROGRESS state")
               "test") as (_ & H & _); [reflexivity|].
  apply (H " UPDATE_IN_PROGRESS state"). reflexivity.
Defined.

(** X12, on a scenario. *)
Lemma isUpToDate_true_iff_witness :
  fst (Part000.isUpToDate (host := firstNoChange) machine0) = (true, None).
Proof.
  destruct (isUpToDate_true_iff (host := firstNoChange) machine0) as [[_ H] _].
  apply H.
  exists (errorPayload Part000.errPclusterCliNoChange), exitError,
    {| Message := Part000.errPclusterCliNoChange |}.
  split; [reflexivity|]. split; [discriminate|]. split; [reflexivity|].
  left. reflexivity.
Defined.

(** X13, on a scenario. *)
Lemma isUpToDate_keeps_resource_witness :
  obj (snd (Part000.isUpToDate (host := firstNoChange) machine0)) = makeCluster.
Proof.
  exact (proj1 (isUpToDate_keeps_resource (host := firstNoChange) machine0)).
Defined.

(** X14, on a scenario. *)
Lemma mutations_report_errors_witness :
  fst (Part000.Create (host := firstNoChange) ClusterKind machine0)
  = Some exitError
  /\ fst (Part000.Delete (host := firstNoChange) ClusterKind machine0)
     = Some (Errorf "failed to delete using pcluster cli: " exitError).
Proof.
  destruct (mutations_report_errors (host := firstNoChange) machine0)
    as (H1 & _ & H3 & _).
  split.
  - apply (H1 (errorPayload Part000.errPclusterCliNoChange)). reflexivity.
  - apply (H3 (errorPayload Part000.errPclusterCliNoChange)). reflexivity.
Defined.

(** X15, on a scenario. *)
Lemma Observe_complete_cluster_witness :
  fst (Part000.Observe (host := scenarioB) ClusterKind machine0)
  = ({| managed.ResourceExists := true; managed.ResourceUpToDate := false |}, None)
  /\ ready (obj (snd (Part000.Observe (host := scenarioB) ClusterKind machine0)))
     = Some xpv1.Available.
Proof.
  edestruct (Observe_complete_cluster (host := scenarioB) machine0
               (describePayload CreateComplete)
               (errorPayload Part000.errPClusterCliDryRun)
               (fst (unmarshalDescribe (describePayload CreateComplete))) exitError
               {| Message := Part000.errPClusterCliDryRun |})
    as [_ H];
    [reflexivity | reflexivity | left; reflexivity | reflexivity
    | discriminate | reflexivity |].
  apply H. reflexivity.
Defined.

(** X16, on a scenario. *)
Lemma Connect_client_witness :
  fst (Part000.Connect (host := scenarioC) ClusterKind connectMachine)
  = (Some venvClient, None).
Proof.
  destruct (Connect_client (host := scenarioC) connectMachine eq_refl)
    as (_ & H & _).
  apply (H "/opt/venv"); reflexivity.
Defined.

(** X17, on a scenario. *)
Lemma Connect_without_venv_empties_PATH_witness :
  PATH (world (snd (execPcluster (host := scenarioC)
                      (Spec.describe_cluster "test") plainMachine))) = Some "".
Proof.
  exact (proj1 (Connect_without_venv_empties_PATH (host := scenarioC)
                  machine0 plainMachine plainClient
                  (Spec.describe_cluster "test") eq_refl eq_refl eq_refl)).
Defined.

(** X18, on a scenario. *)
Lemma Connect_revisions_witness :
  ClusterGo.Connect (host := scenarioC) ClusterKind connectMachine
  = Part000.Connect (host := scenarioC) ClusterKind connectMachine.
Proof.
  destruct (Connect_revisions (host := scenarioC) connectMachine) as [H _].
  apply (H "/opt/venv"). reflexivity.
Defined.

End FurtherScenarios.
